(** * Grade tracker: the trend predictor and the grade validation of [app.py]

    A shallow embedding of the numeric core of the Flask application:
    [linear_regression_predict], [prepare_points_from_subjects], [predict],
    the required-next-grade computation of [student_page] and the grade
    validation of the add-subject and edit-subject handlers.

    Python numbers are modelled as they are at run time: an [int] is an
    unbounded integer, a [float] is an IEEE 754 binary64 value (with its
    infinities, signed zeros and NaN), mixed arithmetic converts the
    [int] operand first, and the operations that raise in Python
    ([ZeroDivisionError], [OverflowError], [ValueError]) raise here. *)

From Stdlib Require Import ZArith List Bool Lia String Ascii.
From Stdlib Require Import Floats.SpecFloat.
Import ListNotations.

Local Open Scope Z_scope.

(** ** Exceptions and the error monad *)

Inductive exn : Type :=
| ZeroDivisionError
| OverflowError
| ValueError.

Inductive result (A : Type) : Type :=
| Ok (a : A)
| Raise (e : exn).

Arguments Ok {A} a.
Arguments Raise {A} e.

Definition bind {A B : Type} (c : result A) (k : A -> result B) : result B :=
  match c with
  | Ok a => k a
  | Raise e => Raise e
  end.

Notation "x <- c ;; k" := (bind c (fun x => k))
  (at level 61, c at next level, right associativity).

Definition returns {A : Type} (c : result A) : Prop := exists a, c = Ok a.

(** ** Python numbers *)

Module Py.

(** binary64: 53 bits of precision, infinities at exponent 1024. *)
Definition prec : Z := 53.
Definition emax : Z := 1024.

Definition float : Type := spec_float.

Inductive num : Type :=
| Int (z : Z)
| Flt (f : float).

Definition fadd : float -> float -> float := SFadd prec emax.
Definition fsub : float -> float -> float := SFsub prec emax.
Definition fmul : float -> float -> float := SFmul prec emax.
Definition fdiv : float -> float -> float := SFdiv prec emax.

(** The double nearest to the integer [z] (ties to even), infinite
    when [z] is beyond the largest double. *)
Definition float_of_Z (z : Z) : float := binary_normalize prec emax z 0 false.

(** The double nearest to [a / b] for integers [a] and [b <> 0]: one
    correctly rounded division of the two integers, whatever their size. *)
Definition float_of_ratio (a b : Z) : float :=
  match a, b with
  | _, Z0 => S754_nan
  | Z0, Zpos _ => S754_zero false
  | Z0, Zneg _ => S754_zero true
  | Zpos p, Zpos q => fdiv (S754_finite false p 0) (S754_finite false q 0)
  | Zpos p, Zneg q => fdiv (S754_finite false p 0) (S754_finite true q 0)
  | Zneg p, Zpos q => fdiv (S754_finite true p 0) (S754_finite false q 0)
  | Zneg p, Zneg q => fdiv (S754_finite true p 0) (S754_finite true q 0)
  end.

Definition is_zero (f : float) : bool :=
  match f with S754_zero _ => true | _ => false end.

Definition is_infinity (f : float) : bool :=
  match f with S754_infinity _ => true | _ => false end.

Definition is_nan (f : float) : bool :=
  match f with S754_nan => true | _ => false end.

Definition is_finite (f : float) : bool :=
  match f with S754_zero _ | S754_finite _ _ _ => true | _ => false end.

(** *** Exact values and comparison

    A number is NaN, an infinity, or the real [m * 2^e].  Python
    compares numbers by value, also an [int] with a [float]; between
    two doubles this is the IEEE comparison. *)

Inductive value : Type :=
| VNan
| VNegInf
| VFin (m e : Z)
| VPosInf.

Definition value_of_float (f : float) : value :=
  match f with
  | S754_nan => VNan
  | S754_infinity true => VNegInf
  | S754_infinity false => VPosInf
  | S754_zero _ => VFin 0 0
  | S754_finite true m e => VFin (Zneg m) e
  | S754_finite false m e => VFin (Zpos m) e
  end.

Definition value_of (v : num) : value :=
  match v with
  | Int z => VFin z 0
  | Flt f => value_of_float f
  end.

(** [m1 * 2^e1] against [m2 * 2^e2], on the common exponent. *)
Definition compare_fin (m1 e1 m2 e2 : Z) : comparison :=
  let e := Z.min e1 e2 in
  Z.compare (m1 * 2 ^ (e1 - e)) (m2 * 2 ^ (e2 - e)).

Definition compare_value (a b : value) : option comparison :=
  match a, b with
  | VNan, _ | _, VNan => None
  | VNegInf, VNegInf => Some Eq
  | VNegInf, _ => Some Lt
  | _, VNegInf => Some Gt
  | VPosInf, VPosInf => Some Eq
  | VPosInf, _ => Some Gt
  | _, VPosInf => Some Lt
  | VFin m1 e1, VFin m2 e2 => Some (compare_fin m1 e1 m2 e2)
  end.

Definition compare (a b : num) : option comparison :=
  compare_value (value_of a) (value_of b).

(** [a < b], [a > b], [a == b], [a != b], [a <= b]: every ordered
    comparison with NaN is false, [!=] is the negation of [==]. *)
Definition lt (a b : num) : bool :=
  match compare a b with Some Lt => true | _ => false end.
Definition gt (a b : num) : bool :=
  match compare a b with Some Gt => true | _ => false end.
Definition eq (a b : num) : bool :=
  match compare a b with Some Eq => true | _ => false end.
Definition ne (a b : num) : bool := negb (eq a b).
Definition le (a b : num) : bool :=
  match compare a b with Some Lt | Some Eq => true | _ => false end.

(** *** Conversion and arithmetic *)

(** [float(z)] for an int: [OverflowError] beyond the double range. *)
Definition float_of_int (z : Z) : result float :=
  let f := float_of_Z z in
  if is_infinity f then Raise OverflowError else Ok f.

(** [float(v)] for a number. *)
Definition to_float (v : num) : result float :=
  match v with
  | Int z => float_of_int z
  | Flt f => Ok f
  end.

Definition add (a b : num) : result num :=
  match a, b with
  | Int x, Int y => Ok (Int (x + y))
  | _, _ => fa <- to_float a ;; fb <- to_float b ;; Ok (Flt (fadd fa fb))
  end.

Definition sub (a b : num) : result num :=
  match a, b with
  | Int x, Int y => Ok (Int (x - y))
  | _, _ => fa <- to_float a ;; fb <- to_float b ;; Ok (Flt (fsub fa fb))
  end.

Definition mul (a b : num) : result num :=
  match a, b with
  | Int x, Int y => Ok (Int (x * y))
  | _, _ => fa <- to_float a ;; fb <- to_float b ;; Ok (Flt (fmul fa fb))
  end.

(** [a / b], true division.  Two ints divide exactly and round once;
    a zero divisor raises [ZeroDivisionError] (a non-zero int converts
    to a non-zero double, so the test on an int divisor is made on the
    int). *)
Definition truediv (a b : num) : result num :=
  match a, b with
  | Int x, Int y =>
      if y =? 0 then Raise ZeroDivisionError
      else
        let q := float_of_ratio x y in
        if is_infinity q then Raise OverflowError else Ok (Flt q)
  | Flt fa, Int y =>
      if y =? 0 then Raise ZeroDivisionError
      else fb <- float_of_int y ;; Ok (Flt (fdiv fa fb))
  | _, Flt fb =>
      fa <- to_float a ;;
      if is_zero fb then Raise ZeroDivisionError else Ok (Flt (fdiv fa fb))
  end.

(** What the C library of the platform answers to [pow(x, 2.0)]: the
    double it returns, and whether it reports a range error ([errno] is
    [ERANGE] after the call).  The language does not fix this answer:
    it need not be the correctly rounded square. *)
Definition c_pow : Type := float -> float * bool.

Definition fabs : float -> float := SFabs.

(** [v ** 2].  On an int the power is the exact int.  On a float it is
    [float_pow] with the exponent [2.0]: CPython itself answers for NaN
    (NaN), the infinities (the positive infinity), the zeros ([0.0])
    and the bases [1.0] and [-1.0] ([1.0]); the absolute value of any
    other base goes to the [pow] of the C library.  [OverflowError] is
    raised when the library returns an infinity, or reports a range
    error with a result other than zero (C defines no other error of
    [pow] on a positive base). *)
Definition pow2 (libm : c_pow) (v : num) : result num :=
  match v with
  | Int z => Ok (Int (z * z))
  | Flt f =>
      if is_nan f then Ok (Flt f)
      else if is_infinity f then Ok (Flt (fabs f))
      else if is_zero f then Ok (Flt (S754_zero false))
      else if eq (Flt (fabs f)) (Int 1) then Ok (Flt (float_of_Z 1))
      else
        let (ix, erange) := libm (fabs f) in
        let range_error :=
          if erange then negb (is_zero ix) else is_infinity ix in
        if range_error then Raise OverflowError else Ok (Flt ix)
  end.

(** *** [round(v, 2)] *)

(** The integer nearest to [m * 2^e], ties to even. *)
Definition round_half_even (m e : Z) : Z :=
  match e with
  | Zneg p =>
      let d := 2 ^ Zpos p in
      let q := m / d in
      let r := m mod d in
      match Z.compare (2 * r) d with
      | Lt => q
      | Gt => q + 1
      | Eq => if Z.even q then q else q + 1
      end
  | _ => m * 2 ^ e
  end.

(** [round(f, 2)] on a float: the exact binary value is rounded to two
    decimals (ties to even) and the decimal is converted back to the
    nearest double; NaN, infinities and zeros are returned as they are,
    and the sign is kept when the result is zero. *)
Definition fround2 (f : float) : float :=
  match f with
  | S754_finite s m e =>
      let k := round_half_even (100 * Zpos m) e in
      match k with
      | Z0 => S754_zero s
      | _ => float_of_ratio (if s then - k else k) 100
      end
  | _ => f
  end.

(** [round] on an int with a non-negative number of digits is the int. *)
Definition round2 (v : num) : num :=
  match v with
  | Int z => Int z
  | Flt f => Flt (fround2 f)
  end.

(** *** Builtins over sequences *)

(** [min(a, b)] and [max(a, b)]: the first argument is kept unless the
    second is strictly smaller (greater). *)
Definition min2 (a b : num) : num := if lt b a then b else a.
Definition max2 (a b : num) : num := if gt b a then b else a.

(** [sum(f(x) for x in l)]: the terms are added with [+] from the int
    [0], left to right, each term being computed when it is reached
    (the plain sum of CPython up to 3.11; later versions also carry a
    compensation term for the rounding errors of a float sum). *)
Fixpoint sum_from {A : Type} (f : A -> result num) (acc : num) (l : list A)
  : result num :=
  match l with
  | [] => Ok acc
  | x :: l' => t <- f x ;; acc' <- add acc t ;; sum_from f acc' l'
  end.

Definition sum_with {A : Type} (f : A -> result num) (l : list A) : result num :=
  sum_from f (Int 0) l.

Definition sum (l : list num) : result num := sum_with (fun v => Ok v) l.

Definition len {A : Type} (l : list A) : num := Int (Z.of_nat (List.length l)).

(** Decimal literals: the double that Python reads for [d * 10^-k]. *)
Definition dec (d : Z) (k : positive) : float := float_of_ratio d (10 ^ Zpos k).

End Py.

(** ** Configuration (lines 16-18) *)

Definition MIN_GRADE : Py.num := Py.Int 6.
Definition MAX_GRADE : Py.num := Py.Int 10.
Definition TARGET_AVG : Py.num := Py.Flt (Py.float_of_Z 8).

(** ** The trend predictor *)

(** A point [(x, grade)] of the regression. *)
Definition point : Type := (Py.num * Py.num)%type.

(** [[xs[i+1] - xs[i] for i in range(n-1)]] *)
Fixpoint deltas_of (xs : list Py.num) : result (list Py.num) :=
  match xs with
  | a :: (b :: _) as tl =>
      d <- Py.sub b a ;; ds <- deltas_of tl ;; Ok (d :: ds)
  | _ => Ok []
  end.

(** The local variables of [linear_regression_predict] on a history of
    at least two points (lines 38-48). *)
Record fit : Type := {
  x_mean : Py.num;
  y_mean : Py.num;
  num : Py.num;
  den : Py.num;
  slope : Py.num;
  intercept : Py.num;
  average_gap : Py.num;
  next_x : Py.num;
  pred : Py.num
}.

Definition regression_fit (libm : Py.c_pow) (points : list point)
  : result fit :=
  let n := Py.len points in
  let xs := map fst points in
  let ys := map snd points in
  sx <- Py.sum xs ;;
  x_mean <- Py.truediv sx n ;;
  sy <- Py.sum ys ;;
  y_mean <- Py.truediv sy n ;;
  num <- Py.sum_with
           (fun p : point =>
              dx <- Py.sub (fst p) x_mean ;;
              dy <- Py.sub (snd p) y_mean ;;
              Py.mul dx dy)
           points ;;
  den <- Py.sum_with
           (fun x => dx <- Py.sub x x_mean ;; Py.pow2 libm dx)
           xs ;;
  slope <- (if Py.ne den (Py.Int 0) then Py.truediv num den else Ok (Py.Int 0)) ;;
  sxm <- Py.mul slope x_mean ;;
  intercept <- Py.sub y_mean sxm ;;
  deltas <- deltas_of xs ;;
  sd <- Py.sum deltas ;;
  average_gap <- Py.truediv sd (Py.len deltas) ;;
  next_x <- Py.add (last xs (Py.Int 0)) average_gap ;;
  snx <- Py.mul slope next_x ;;
  pred <- Py.add snx intercept ;;
  Ok {| x_mean := x_mean; y_mean := y_mean; num := num; den := den;
        slope := slope; intercept := intercept; average_gap := average_gap;
        next_x := next_x; pred := pred |}.

(** [round(max(MIN_GRADE, min(MAX_GRADE, pred)), 2)] (line 49) *)
Definition clip_round (pred : Py.num) : Py.num :=
  Py.round2 (Py.max2 MIN_GRADE (Py.min2 MAX_GRADE pred)).

(** [linear_regression_predict(points)]: [None] on the empty history,
    the single grade as a float on a singleton, the clipped and rounded
    extrapolation otherwise. *)
Definition linear_regression_predict (libm : Py.c_pow)
  (points : list point) : result (option Py.num) :=
  match points with
  | [] => Ok None
  | [p] => g <- Py.to_float (snd p) ;; Ok (Some (Py.Flt g))
  | _ => ft <- regression_fit libm points ;; Ok (Some (clip_round (pred ft)))
  end.

(** ** Subject records and [prepare_points_from_subjects] *)

(** A document of the [subjects] collection.  [grade] is the stored
    number when the field is present; [date_added] is the POSIX
    timestamp of the stored datetime when the field holds one (the value
    [dt.timestamp()] returns), and absent when the field is missing or
    holds no datetime. *)
Record subject_doc : Type := {
  doc_id : Z;
  student_id : string;
  subject : string;
  grade : option Py.num;
  date_added : option Py.float
}.

(** [float(s.get("grade", 0))] *)
Definition grade_of (s : subject_doc) : result Py.num :=
  g <- Py.to_float (match grade s with Some g => g | None => Py.Int 0 end) ;;
  Ok (Py.Flt g).

(** [dt.timestamp() if hasattr(dt, "timestamp") else idx] *)
Definition x_of (idx : Z) (s : subject_doc) : Py.num :=
  match date_added s with
  | Some t => Py.Flt t
  | None => Py.Int idx
  end.

Fixpoint prepare_points_from (idx : Z) (subjects : list subject_doc)
  : result (list point) :=
  match subjects with
  | [] => Ok []
  | s :: rest =>
      g <- grade_of s ;;
      pts <- prepare_points_from (idx + 1) rest ;;
      Ok ((x_of idx s, g) :: pts)
  end.

Definition prepare_points_from_subjects (subjects : list subject_doc)
  : result (list point) :=
  prepare_points_from 0 subjects.

(** ** The prediction endpoint *)

Record prediction_response : Type := {
  resp_student_id : option string;
  prediction : option Py.num;
  baseline_avg : option Py.num;
  explanation : string
}.

(** [[float(s.get("grade",0)) for s in subjects]] *)
Fixpoint grades_of (subjects : list subject_doc) : result (list Py.num) :=
  match subjects with
  | [] => Ok []
  | s :: rest => g <- grade_of s ;; gs <- grades_of rest ;; Ok (g :: gs)
  end.

(** [round(sum(grades)/len(grades),2) if grades else None] *)
Definition average_of (grades : list Py.num) : result (option Py.num) :=
  match grades with
  | [] => Ok None
  | _ =>
      s <- Py.sum grades ;;
      a <- Py.truediv s (Py.len grades) ;;
      Ok (Some (Py.round2 a))
  end.

(** [predict(student_id)] on the list [subjects] that the query of line
    64 returns (the student's subject documents, by ascending date). *)
Definition predict (libm : Py.c_pow) (sid : string)
  (subjects : list subject_doc) : result prediction_response :=
  match subjects with
  | [] =>
      Ok {| resp_student_id := None; prediction := None; baseline_avg := None;
            explanation := "No grades available." |}
  | _ =>
      points <- prepare_points_from_subjects subjects ;;
      p <- linear_regression_predict libm points ;;
      grades <- grades_of subjects ;;
      baseline <- average_of grades ;;
      match p with
      | Some v =>
          Ok {| resp_student_id := Some sid; prediction := Some v;
                baseline_avg := baseline;
                explanation :=
                  "Prediction based on linear trend of historical grades." |}
      | None =>
          Ok {| resp_student_id := Some sid; prediction := baseline;
                baseline_avg := baseline;
                explanation := "Not enough history; using baseline average." |}
      end
  end.

(** ** The required next grade (lines 242-252 of [student_page]) *)

(** [required = target*(len(grades)+1) - sum(grades)] *)
Definition required_value (target : Py.num) (grades : list Py.num)
  : result Py.num :=
  c <- Py.add (Py.len grades) (Py.Int 1) ;;
  a <- Py.mul target c ;;
  s <- Py.sum grades ;;
  Py.sub a s.

(** The branch on [grades], with the module constant [TARGET_AVG] taken
    as the argument [target]. *)
Definition required_grade_for (target : Py.num) (grades : list Py.num)
  : result (option Py.num) :=
  match grades with
  | [] => Ok (Some target)
  | _ =>
      required <- required_value target grades ;;
      if Py.gt required MAX_GRADE then Ok None
      else if Py.lt required MIN_GRADE then Ok (Some MIN_GRADE)
      else Ok (Some (Py.round2 required))
  end.

Definition required_grade (grades : list Py.num) : result (option Py.num) :=
  required_grade_for TARGET_AVG grades.

(** ** The handlers that write grades *)

Record student_doc : Type := {
  student_oid : Z;
  name : string;
  index : string;
  city : string
}.

Record database : Type := {
  db_students : list student_doc;
  db_subjects : list subject_doc
}.

Inductive response : Type :=
| Status (code : Z) (body : string)
| Redirect (endpoint : string) (arg : string).

Definition form : Type := list (string * string).

(** [request.form.get(key, "")] *)
Fixpoint form_get (f : form) (key : string) : string :=
  match f with
  | [] => EmptyString
  | (k, v) :: rest => if String.eqb k key then v else form_get rest key
  end.

(** [find_one({"_id": oid})] *)
Definition find_student (db : database) (oid : Z) : option student_doc :=
  find (fun st => student_oid st =? oid) (db_students db).

(** [update_one({"_id": oid}, {"$set": ...})]: the first match only. *)
Fixpoint update_one (oid : Z) (set : subject_doc -> subject_doc)
  (docs : list subject_doc) : list subject_doc :=
  match docs with
  | [] => []
  | d :: rest =>
      if doc_id d =? oid then set d :: rest
      else d :: update_one oid set rest
  end.

Section Handlers.

(** The library functions the handlers call: [float(str)] (which
    raises [ValueError] on text that is no float literal), [str.strip]
    and [ObjectId(str)] (absent when the text is no object id). *)
Variable float_of_string : string -> result Py.float.
Variable strip : string -> string.
Variable ObjectId : string -> option Z.

Definition to_objid (id_str : string) : option Z := ObjectId id_str.

(** [not name or grade<MIN_GRADE or grade>MAX_GRADE] *)
Definition rejected (name : string) (g : Py.float) : bool :=
  String.eqb name EmptyString
  || Py.lt (Py.Flt g) MIN_GRADE
  || Py.gt (Py.Flt g) MAX_GRADE.

(** The POST branch of [student_page(id)]; [new_id] is the [_id] the
    store assigns and [now] the timestamp of [datetime.utcnow()]. *)
Definition student_page_post (db : database) (id : string) (f : form)
  (new_id : Z) (now : Py.float) : response * database :=
  match to_objid id with
  | None => (Status 404 "Student not found", db)
  | Some oid =>
      match find_student db oid with
      | None => (Status 404 "Student not found", db)
      | Some _ =>
          let subj_name := strip (form_get f "subject_name") in
          match float_of_string (form_get f "grade") with
          | Raise _ => (Status 400 "Error: Invalid grade", db)
          | Ok g =>
              if rejected subj_name g
              then (Status 400 "Error: Grade must be 6-10", db)
              else
                (Redirect "student_page" id,
                 {| db_students := db_students db;
                    db_subjects :=
                      db_subjects db ++
                      [{| doc_id := new_id; student_id := id;
                          subject := subj_name; grade := Some (Py.Flt g);
                          date_added := Some now |}] |})
          end
      end
  end.

(** [edit_subject(student_id, subject_id)] *)
Definition edit_subject (db : database) (sid subject_id : string) (f : form)
  : response * database :=
  match to_objid subject_id with
  | None => (Status 404 "Subject not found", db)
  | Some oid =>
      let new_name := strip (form_get f "new_name") in
      match float_of_string (form_get f "new_grade") with
      | Raise _ => (Status 400 "Error: Invalid grade", db)
      | Ok g =>
          if rejected new_name g
          then (Status 400 "Error: Grade must be 6-10", db)
          else
            (Redirect "student_page" sid,
             {| db_students := db_students db;
                db_subjects :=
                  update_one oid
                    (fun d =>
                       {| doc_id := doc_id d; student_id := student_id d;
                          subject := new_name; grade := Some (Py.Flt g);
                          date_added := date_added d |})
                    (db_subjects db) |})
      end
  end.

End Handlers.

(** A stored grade is in bounds when it is a number of [MIN_GRADE..MAX_GRADE]. *)
Definition in_bounds (v : Py.num) : bool :=
  Py.le MIN_GRADE v && Py.le v MAX_GRADE.

Definition grade_in_bounds (d : subject_doc) : bool :=
  match grade d with
  | Some g => in_bounds g
  | None => false
  end.

(** ** The handlers of the students and the deletions *)

(** [update_one({"_id": oid}, {"$set": ...})] on the students. *)
Fixpoint update_one_student (oid : Z) (set : student_doc -> student_doc)
  (docs : list student_doc) : list student_doc :=
  match docs with
  | [] => []
  | d :: rest =>
      if student_oid d =? oid then set d :: rest
      else d :: update_one_student oid set rest
  end.

(** [delete_one({"_id": oid})]: the first match only. *)
Fixpoint delete_one_student (oid : Z) (docs : list student_doc)
  : list student_doc :=
  match docs with
  | [] => []
  | d :: rest =>
      if student_oid d =? oid then rest
      else d :: delete_one_student oid rest
  end.

Fixpoint delete_one_subject (oid : Z) (docs : list subject_doc)
  : list subject_doc :=
  match docs with
  | [] => []
  | d :: rest =>
      if doc_id d =? oid then rest
      else d :: delete_one_subject oid rest
  end.

(** [delete_many({"student_id": sid})] *)
Definition delete_many_subjects (sid : string) (docs : list subject_doc)
  : list subject_doc :=
  filter (fun d => negb (String.eqb (student_id d) sid)) docs.

Section StudentHandlers.

Variable strip : string -> string.
Variable ObjectId : string -> option Z.

(** The POST branch of [add_student()]; [new_id] is the [_id] the store
    assigns. *)
Definition add_student_post (db : database) (f : form) (new_id : Z)
  : response * database :=
  let name := strip (form_get f "student_name") in
  if String.eqb name EmptyString
  then (Status 400 "Error: Name required!", db)
  else
    (Redirect "index" "",
     {| db_students :=
          db_students db ++
          [{| student_oid := new_id; name := name;
              index := strip (form_get f "student_index");
              city := strip (form_get f "student_city") |}];
        db_subjects := db_subjects db |}).

(** [edit_student(id)] *)
Definition edit_student (db : database) (id : string) (f : form)
  : response * database :=
  match to_objid ObjectId id with
  | None => (Status 404 "Student not found", db)
  | Some oid =>
      let new_name := strip (form_get f "new_name") in
      if String.eqb new_name EmptyString
      then (Status 400 "Error: Name required!", db)
      else
        (Redirect "index" "",
         {| db_students :=
              update_one_student oid
                (fun d =>
                   {| student_oid := student_oid d; name := new_name;
                      index := strip (form_get f "new_index");
                      city := strip (form_get f "new_city") |})
                (db_students db);
            db_subjects := db_subjects db |})
  end.

(** [delete_student(id)]: the student with that [_id], and every
    subject stored under the text [id]. *)
Definition delete_student (db : database) (id : string)
  : response * database :=
  match to_objid ObjectId id with
  | Some oid =>
      (Redirect "index" "",
       {| db_students := delete_one_student oid (db_students db);
          db_subjects := delete_many_subjects id (db_subjects db) |})
  | None => (Redirect "index" "", db)
  end.

(** [delete_subject(student_id, subject_id)] *)
Definition delete_subject (db : database) (sid subject_id : string)
  : response * database :=
  match to_objid ObjectId subject_id with
  | Some oid =>
      (Redirect "student_page" sid,
       {| db_students := db_students db;
          db_subjects := delete_one_subject oid (db_subjects db) |})
  | None => (Redirect "student_page" sid, db)
  end.

End StudentHandlers.

(** ** The requests that write, and their sequences *)

Inductive request : Type :=
| AddStudent (f : form) (new_id : Z)
| EditStudent (id : string) (f : form)
| DeleteStudent (id : string)
| AddSubject (id : string) (f : form) (new_id : Z) (now : Py.float)
| EditSubject (sid subject_id : string) (f : form)
| DeleteSubject (sid subject_id : string).

Definition empty_db : database := {| db_students := []; db_subjects := [] |}.

Section Application.

Variable float_of_string : string -> result Py.float.
Variable strip : string -> string.
Variable ObjectId : string -> option Z.

(** The route of each writing request. *)
Definition handle (db : database) (r : request) : response * database :=
  match r with
  | AddStudent f new_id => add_student_post strip db f new_id
  | EditStudent id f => edit_student strip ObjectId db id f
  | DeleteStudent id => delete_student ObjectId db id
  | AddSubject id f new_id now =>
      student_page_post float_of_string strip ObjectId db id f new_id now
  | EditSubject sid subject_id f =>
      edit_subject float_of_string strip ObjectId db sid subject_id f
  | DeleteSubject sid subject_id => delete_subject ObjectId db sid subject_id
  end.

(** The store after a sequence of requests. *)
Definition run (db : database) (rs : list request) : database :=
  fold_left (fun d r => snd (handle d r)) rs db.

End Application.

(** ** The home page (lines 139-161) *)

(** A student of the list with the three keys [index()] adds. *)
Record student_row : Type := {
  row_student : student_doc;
  avg : Py.num;
  subjects_count : Z;
  has_fail : bool
}.

(** [max(students, key=lambda x: x["avg"], default=None)]: the first
    student is kept until one with a strictly greater average comes. *)
Fixpoint max_from (cur : student_row) (rest : list student_row) : student_row :=
  match rest with
  | [] => cur
  | x :: rest' => max_from (if Py.gt (avg x) (avg cur) then x else cur) rest'
  end.

Definition max_avg (rows : list student_row) : option student_row :=
  match rows with
  | [] => None
  | x :: rest => Some (max_from x rest)
  end.

(** [min(students, key=lambda x: x["avg"], default=None)] *)
Fixpoint min_from (cur : student_row) (rest : list student_row) : student_row :=
  match rest with
  | [] => cur
  | x :: rest' => min_from (if Py.lt (avg x) (avg cur) then x else cur) rest'
  end.

Definition min_avg (rows : list student_row) : option student_row :=
  match rows with
  | [] => None
  | x :: rest => Some (min_from x rest)
  end.

(** The context given to the template; an absent highest or lowest
    student stands for the placeholder [{"name": "-", "avg": 0}]. *)
Record index_context : Type := {
  ctx_students : list student_row;
  avg_all : Py.num;
  highest_avg_student : option student_row;
  lowest_avg_student : option student_row
}.

Section Index.

(** [str(oid)] for an [ObjectId]. *)
Variable str_oid : Z -> string.

(** [find({"student_id": str(s["_id"])})] *)
Definition subjects_of (db : database) (st : student_doc) : list subject_doc :=
  filter (fun d => String.eqb (student_id d) (str_oid (student_oid st)))
    (db_subjects db).

(** The body of the loop over the students (lines 147-151). *)
Definition student_stats (db : database) (st : student_doc)
  : result student_row :=
  let subs := subjects_of db st in
  grades <- grades_of subs ;;
  a <- match grades with
       | [] => Ok (Py.Int 0)
       | _ =>
           s <- Py.sum grades ;;
           q <- Py.truediv s (Py.len grades) ;;
           Ok (Py.round2 q)
       end ;;
  Ok {| row_student := st; avg := a;
        subjects_count := Z.of_nat (List.length subs);
        has_fail := existsb (fun g => Py.lt g MIN_GRADE) grades |}.

Fixpoint rows_of (db : database) (students : list student_doc)
  : result (list student_row) :=
  match students with
  | [] => Ok []
  | st :: rest =>
      row <- student_stats db st ;;
      rows <- rows_of db rest ;;
      Ok (row :: rows)
  end.

(** [index()] on the list [students] that the query of line 145
    returns. *)
Definition index_page (db : database) (students : list student_doc)
  : result index_context :=
  rows <- rows_of db students ;;
  all <- match rows with
         | [] => Ok (Py.Int 0)
         | _ =>
             s <- Py.sum (map avg rows) ;;
             q <- Py.truediv s (Py.len rows) ;;
             Ok (Py.round2 q)
         end ;;
  Ok {| ctx_students := rows; avg_all := all;
        highest_avg_student := max_avg rows;
        lowest_avg_student := min_avg rows |}.

End Index.

(** * Notions and data of the statements *)

(** ** Predicates *)

(** A computation that returns, or raises [OverflowError] and nothing
    else. *)
Definition raises_only_overflow {A : Type} (c : result A) : Prop :=
  match c with
  | Ok _ => True
  | Raise e => e = OverflowError
  end.

(** The x-value of a point tells its source: a float is the timestamp
    of a date, an int is the index of the document. *)
Definition is_timestamp (x : Py.num) : bool :=
  match x with Py.Flt _ => true | Py.Int _ => false end.

Definition is_index (x : Py.num) : bool :=
  match x with Py.Int _ => true | Py.Flt _ => false end.

(** All x-values are timestamps, or all are indices. *)
Definition single_source (xs : list Py.num) : bool :=
  forallb is_timestamp xs || forallb is_index xs.

Definition has_date (s : subject_doc) : bool :=
  match date_added s with Some _ => true | None => false end.

(** A double in canonical form: below the largest exponent, with 53
    significant bits unless it sits on the smallest exponent. *)
Definition is_double (f : Py.float) : bool := valid_binary Py.prec Py.emax f.


Definition num_finite (v : Py.num) : bool :=
  match v with
  | Py.Int _ => true
  | Py.Flt f => Py.is_finite f
  end.

Definition is_flt (v : Py.num) : bool :=
  match v with Py.Flt _ => true | Py.Int _ => false end.

(** The same float, decided field by field. *)
Definition same_float (a b : Py.float) : bool :=
  match a, b with
  | S754_zero s, S754_zero s' => Bool.eqb s s'
  | S754_infinity s, S754_infinity s' => Bool.eqb s s'
  | S754_nan, S754_nan => true
  | S754_finite s m e, S754_finite s' m' e' =>
      Bool.eqb s s' && Pos.eqb m m' && Z.eqb e e'
  | _, _ => false
  end.

(** A float, or the int [0] from which [sum] starts. *)
Definition float_or_zero (v : Py.num) : bool :=
  match v with
  | Py.Int z => z =? 0
  | Py.Flt _ => true
  end.

(** The points whose coordinates are all floats, as the docstring of
    [linear_regression_predict] has them. *)
Definition float_points (points : list point) : Prop :=
  Forall (fun p : point => is_flt (fst p) = true /\ is_flt (snd p) = true)
    points.

(** No squared deviation from the computed x-mean leaves the double
    range. *)
Definition squares_in_range (libm : Py.c_pow) (points : list point) : Prop :=
  forall xm,
    (sx <- Py.sum (map fst points) ;; Py.truediv sx (Py.len points)) = Ok xm ->
    forall p, In p points ->
      returns (dx <- Py.sub (fst p) xm ;; Py.pow2 libm dx).

(** NaN, as a number. *)
Definition num_is_nan (v : Py.num) : bool :=
  match v with
  | Py.Flt f => Py.is_nan f
  | Py.Int _ => false
  end.

(** One of the grades 6.00, 6.01, ..., 10.00. *)
Definition two_decimal_grade (v : Py.num) : Prop :=
  exists k, 600 <= k <= 1000 /\ Py.eq v (Py.Flt (Py.dec k 2)) = true.

(** A subject document as the handlers write them: a name, a date, and
    a float grade that passed the range check. *)
Definition written_subject (d : subject_doc) : bool :=
  negb (String.eqb (subject d) EmptyString)
  && has_date d
  && match grade d with
     | Some (Py.Flt g) =>
         negb (Py.lt (Py.Flt g) MIN_GRADE) && negb (Py.gt (Py.Flt g) MAX_GRADE)
     | _ => false
     end.

Definition written_student (st : student_doc) : bool :=
  negb (String.eqb (name st) EmptyString).

Definition written_store (db : database) : bool :=
  forallb written_student (db_students db)
  && forallb written_subject (db_subjects db).

(** A zero, or a finite float of magnitude at most [N * 2^K] written
    with an exponent of at most [K]. *)
Definition bounded_by (N K : Z) (f : Py.float) : Prop :=
  match f with
  | S754_zero _ => True
  | S754_finite _ m e => e <= K /\ Z.pos m <= N * 2 ^ (K - e)
  | _ => False
  end.

(** The x-values [prepare_points_from_subjects] builds: the index of a
    document (here below 2^26) or a float. *)
Definition index_or_float (x : Py.num) : bool :=
  match x with
  | Py.Int z => (0 <=? z) && (z <? 2 ^ 26)
  | Py.Flt _ => true
  end.

(** The points of a history: an index or a float as x, a float grade. *)
Definition history_points (points : list point) : Prop :=
  Forall (fun p : point =>
            index_or_float (fst p) = true /\ is_flt (snd p) = true)
    points.

(** A float, or an int of magnitude at most [B]. *)
Definition small_or_float (B : Z) (v : Py.num) : Prop :=
  match v with
  | Py.Int z => Z.abs z <= B
  | Py.Flt _ => True
  end.

(** An x-value of moderate size: an index below 2^26, or a float of
    magnitude at most 2^64 (as every POSIX timestamp of a datetime is). *)
Definition moderate_x (x : Py.num) : Prop :=
  match x with
  | Py.Int z => 0 <= z < 2 ^ 26
  | Py.Flt f => bounded_by 1 64 f
  end.

Definition moderate_points (points : list point) : Prop :=
  Forall (fun p : point => moderate_x (fst p) /\ is_flt (snd p) = true) points.

(** A C library whose [pow(x, 2.0)] neither returns an infinity nor
    reports a range error with a non-zero result for a base of
    magnitude at most [2^K]. *)
Definition quiet_up_to (libm : Py.c_pow) (K : Z) : Prop :=
  forall f,
    bounded_by 1 K f ->
    let (ix, erange) := libm (Py.fabs f) in
    (if erange then negb (Py.is_zero ix) else Py.is_infinity ix) = false.

(** A partial sum of [k] moderate x-values. *)
Definition acc_bounded (k : Z) (acc : Py.num) : Prop :=
  match acc with
  | Py.Int s => 0 <= s <= k * 2 ^ 26
  | Py.Flt f => bounded_by k 64 f
  end.

(** ** Numbers and histories of the examples *)

(** The float [z.0] as a number. *)
Definition F (z : Z) : Py.num := Py.Flt (Py.float_of_Z z).

Definition one : Py.float := Py.float_of_Z 1.

(** The doubles 6.125 and 6.5. *)
Definition g_6_125 : Py.float := Py.dec 6125 3.

(** A subject document with the given grade and date fields. *)
Definition subj (g : option Py.num) (d : option Py.float) : subject_doc :=
  {| doc_id := 0; student_id := "s"; subject := "Math"; grade := g;
     date_added := d |}.

(** The history [(0,6),(1,7),(2,8)], and three documents without a date
    that yield it. *)
Definition history_678 : list point :=
  [(Py.Int 0, F 6); (Py.Int 1, F 7); (Py.Int 2, F 8)].

Definition subjects_678 : list subject_doc :=
  [subj (Some (F 6)) None; subj (Some (F 7)) None; subj (Some (F 8)) None].

(** Two observations at the same x, and two at x = 0.0 and x = 1e200. *)
Definition equal_x_history : list point := [(F 1, F 6); (F 1, F 7)].

Definition huge_gap_history : list point :=
  [(F 0, F 6); (Py.Flt (Py.float_of_Z (10 ^ 200)), F 7)].

(** Three observations at x = 0.1. *)
Definition tenth_history : list point :=
  [(Py.Flt (Py.dec 1 1), F 6); (Py.Flt (Py.dec 1 1), F 7);
   (Py.Flt (Py.dec 1 1), F 9)].

(** Three observations at the timestamp 1700000000.1. *)
Definition same_time_history : list point :=
  [(Py.Flt (Py.dec 17000000001 1), F 6); (Py.Flt (Py.dec 17000000001 1), F 7);
   (Py.Flt (Py.dec 17000000001 1), F 9)].





(** A document dated 2023-11-14 22:13:20 UTC followed by one without a
    date. *)
Definition mixed_subjects : list subject_doc :=
  [subj (Some (F 7)) (Some (Py.float_of_Z 1700000000)); subj (Some (F 8)) None].

(** The grades 10, 10, and the same followed by a document without a
    grade field. *)
Definition subjects_10_10 : list subject_doc :=
  [subj (Some (F 10)) None; subj (Some (F 10)) None].

Definition subjects_10_10_missing : list subject_doc :=
  subjects_10_10 ++ [subj None None].

(** ** A request of the examples *)

(** A reading of grade texts that knows the literal [nan] only. *)
Definition nan_only (s : string) : result Py.float :=
  if String.eqb s "nan" then Ok S754_nan else Raise ValueError.

(** The form of an add-subject submission with the grade text [g]. *)
Definition grade_form (g : string) : form :=
  [("subject_name"%string, "Math"%string); ("grade"%string, g)].

(** A store with one student and no subject. *)
Definition one_student : database :=
  {| db_students :=
       [{| student_oid := 1; name := "Ana"; index := "101"; city := "Skopje" |}];
     db_subjects := [] |}.

(** ** Data of the further properties *)

(** The grades 10, 10, 0 at x = 0, 1, 2. *)
Definition falling_history : list point :=
  [(Py.Int 0, F 10); (Py.Int 1, F 10); (Py.Int 2, F 0)].

(** The grade 7.0 followed by the grade NaN. *)
Definition subjects_7_nan : list subject_doc :=
  [subj (Some (F 7)) None; subj (Some (Py.Flt S754_nan)) None].

(** A reading of grade texts that knows [7.5], [11] and [nan]. *)
Definition three_literals (s : string) : result Py.float :=
  if String.eqb s "7.5" then Ok (Py.dec 75 1)
  else if String.eqb s "11" then Ok (Py.float_of_Z 11)
  else if String.eqb s "nan" then Ok S754_nan
  else Raise ValueError.

(** An id reader that accepts the texts [1] and [01] for the id 1, [2]
    for the id 2 and [10] for the id 10, and the canonical text of
    these ids. *)
Definition some_ids (s : string) : option Z :=
  if String.eqb s "1" then Some 1
  else if String.eqb s "01" then Some 1
  else if String.eqb s "2" then Some 2
  else if String.eqb s "10" then Some 10
  else None.

Definition some_ids_str (oid : Z) : string :=
  if oid =? 1 then "1" else if oid =? 2 then "2"
  else if oid =? 10 then "10" else "".

(** The form of an add-student submission. *)
Definition student_form (n : string) : form :=
  [("student_name"%string, n); ("student_index"%string, "101"%string);
   ("student_city"%string, "Skopje"%string)].

(** The form of an edit-subject submission with the grade text [g]. *)
Definition edit_form (g : string) : form :=
  [("new_name"%string, "Physics"%string); ("new_grade"%string, g)].

(** A session: a student is added, given two subjects, one of them
    edited. *)
Definition session : list request :=
  [AddStudent (student_form "Ana") 1;
   AddSubject "1" (grade_form "7.5") 10 (Py.float_of_Z 1700000000);
   AddSubject "1" (grade_form "11") 11 (Py.float_of_Z 1700000060);
   AddSubject "1" (grade_form "7.5") 12 (Py.float_of_Z 1700000120);
   EditSubject "1" "10" (edit_form "7.5")].

(** The store after the session. *)
Definition session_store : database :=
  run three_literals (fun s => s) some_ids empty_db session.

(** A request whose grade text, if it has one, does not read as NaN. *)
Definition nan_free (float_of_string : string -> result Py.float)
  (r : request) : bool :=
  let reads_nan s :=
    match float_of_string s with
    | Ok g => Py.is_nan g
    | Raise _ => false
    end in
  match r with
  | AddSubject _ f _ _ => negb (reads_nan (form_get f "grade"))
  | EditSubject _ _ f => negb (reads_nan (form_get f "new_grade"))
  | _ => true
  end.

(** A C library whose [pow(x, 2.0)] is the correctly rounded square,
    with a range error when the square leaves the double range: the
    library of the examples. *)
Definition rounded_libm : Py.c_pow :=
  fun f => let r := Py.fmul f f in (r, Py.is_infinity r).

(** A document without a date and with the float grade [g], and one
    with neither date nor grade. *)
Definition dateless (g : Py.float) : subject_doc := subj (Some (Py.Flt g)) None.

Definition no_grade : subject_doc := subj None None.



(** * Properties *)

(** ** Concrete histories *)

(** C7: on an empty history [predict] returns, with the prediction and
    the baseline average both absent; [linear_regression_predict]
    itself returns [None] on the empty point list. *)
Theorem predict_empty_history (libm : Py.c_pow) :
  forall sid,
    predict libm sid [] =
      Ok {| resp_student_id := None; prediction := None;
            baseline_avg := None; explanation := "No grades available." |}
    /\ linear_regression_predict libm [] = Ok None.
Proof.
  intros sid. split; reflexivity.
Qed.

(** C2: on the history [(0,6),(1,7),(2,8)] the fitted line has slope 1
    and intercept 6, the average gap is 1, the next x is 3 and the raw
    prediction 9; the returned prediction is 9.0 (with the grades given
    as floats or as ints) and the baseline average of the three grades
    is 7.0, also through [predict]. *)
Theorem three_point_history (libm : Py.c_pow) :
  (exists ft,
      regression_fit libm history_678 = Ok ft
      /\ slope ft = F 1 /\ intercept ft = F 6
      /\ average_gap ft = F 1 /\ next_x ft = F 3 /\ pred ft = F 9)
  /\ linear_regression_predict libm history_678 = Ok (Some (F 9))
  /\ linear_regression_predict libm
       [(Py.Int 0, Py.Int 6); (Py.Int 1, Py.Int 7); (Py.Int 2, Py.Int 8)]
     = Ok (Some (F 9))
  /\ prepare_points_from_subjects subjects_678 = Ok history_678
  /\ average_of [F 6; F 7; F 8] = Ok (Some (F 7))
  /\ (exists r,
         predict libm "s" subjects_678 = Ok r
         /\ prediction r = Some (F 9) /\ baseline_avg r = Some (F 7)).
Proof.
  split.
  - eexists. split; [vm_compute; reflexivity|].
    repeat split; vm_compute; reflexivity.
  - repeat split; try (vm_compute; reflexivity).
    eexists. split; [vm_compute; reflexivity|].
    split; vm_compute; reflexivity.
Qed.

(** ** Comparison *)

Lemma compare_Int (a b : Z) : Py.compare (Py.Int a) (Py.Int b) = Some (a ?= b).
Proof.
  unfold Py.compare, Py.compare_value, Py.value_of, Py.compare_fin.
  simpl. now rewrite !Z.mul_1_r.
Qed.

Lemma compare_pos_int (m : positive) (e z : Z) :
  Py.compare (Py.Flt (S754_finite false m e)) (Py.Int z)
  = Some (Py.compare_fin (Zpos m) e z 0).
Proof. reflexivity. Qed.

Lemma compare_neg_int (m : positive) (e z : Z) :
  0 <= z ->
  Py.compare (Py.Flt (S754_finite true m e)) (Py.Int z) = Some Lt.
Proof.
  intros Hz. unfold Py.compare, Py.compare_value, Py.value_of,
    Py.value_of_float, Py.compare_fin.
  f_equal. apply Z.compare_lt_iff.
  assert (0 < 2 ^ (e - Z.min e 0)) by (apply Z.pow_pos_nonneg; lia).
  assert (0 <= 2 ^ (0 - Z.min e 0)) by (apply Z.pow_nonneg; lia).
  assert (Z.neg m < 0) by lia.
  nia.
Qed.

(** The integer [round_half_even] returns lies between the bounds that
    enclose the rounded value. *)
Lemma round_half_even_between (m e lo hi : Z) :
  Py.compare_fin m e lo 0 = Gt ->
  Py.compare_fin m e hi 0 = Lt ->
  100 * lo <= Py.round_half_even (100 * m) e <= 100 * hi.
Proof.
  unfold Py.compare_fin, Py.round_half_even.
  intros Hlo Hhi.
  apply -> Z.compare_gt_iff in Hlo. apply -> Z.compare_lt_iff in Hhi.
  destruct e as [|p|p].
  - change (Z.min 0 0) with 0 in Hlo, Hhi.
    change (2 ^ (0 - 0)) with 1 in Hlo, Hhi.
    change (2 ^ 0) with 1. lia.
  - rewrite Z.min_r in Hlo, Hhi by lia.
    rewrite !Z.sub_0_r in Hlo, Hhi.
    rewrite Z.pow_0_r in Hlo, Hhi.
    assert (0 < 2 ^ Z.pos p) by (apply Z.pow_pos_nonneg; lia).
    nia.
  - rewrite Z.min_l in Hlo, Hhi by lia.
    rewrite Z.sub_diag, Z.pow_0_r in Hlo, Hhi.
    replace (0 - Z.neg p) with (Z.pos p) in Hlo, Hhi by lia.
    set (d := 2 ^ Z.pos p) in *.
    assert (Hd : 0 < d) by (apply Z.pow_pos_nonneg; lia).
    assert (Hq1 : 100 * lo <= 100 * m / d)
      by (apply Z.div_le_lower_bound; nia).
    assert (Hq2 : 100 * m / d < 100 * hi)
      by (apply Z.div_lt_upper_bound; nia).
    destruct (2 * ((100 * m) mod d) ?= d); [destruct (Z.even _)| |]; lia.
Qed.

(** Every two-decimal value from 6.00 to 10.00 converts to a double
    within the grade bounds. *)
Lemma two_decimals_in_bounds :
  forallb (fun k => in_bounds (Py.Flt (Py.float_of_ratio k 100)))
          (map (fun i => 600 + Z.of_nat i) (seq 0 401)) = true.
Proof. vm_compute. reflexivity. Qed.

Lemma fround2_in_bounds (s : bool) (m : positive) (e : Z) :
  Py.gt (Py.Flt (S754_finite s m e)) MIN_GRADE = true ->
  Py.lt (Py.Flt (S754_finite s m e)) MAX_GRADE = true ->
  in_bounds (Py.Flt (Py.fround2 (S754_finite s m e))) = true.
Proof.
  unfold Py.gt, Py.lt, MIN_GRADE, MAX_GRADE. intros Hgt Hlt.
  destruct s.
  - rewrite compare_neg_int in Hgt by lia. discriminate.
  - rewrite compare_pos_int in Hgt, Hlt.
    destruct (Py.compare_fin (Z.pos m) e 6 0) eqn:H6; try discriminate.
    destruct (Py.compare_fin (Z.pos m) e 10 0) eqn:H10; try discriminate.
    pose proof (round_half_even_between _ _ _ _ H6 H10) as Hk.
    unfold Py.fround2.
    remember (Py.round_half_even (100 * Z.pos m) e) as r eqn:Er.
    destruct r as [|k|k]; try lia.
    pose proof two_decimals_in_bounds as Htab.
    rewrite forallb_forall in Htab. apply Htab.
    apply in_map_iff. exists (Z.to_nat (Z.pos k - 600)). split.
    + lia.
    + apply in_seq. lia.
Qed.

(** The clipped and rounded value is always a grade of the range. *)
Lemma clip_round_in_bounds (p : Py.num) : in_bounds (clip_round p) = true.
Proof.
  unfold clip_round, Py.min2, Py.max2.
  destruct (Py.lt p MAX_GRADE) eqn:Hlt; [|reflexivity].
  destruct (Py.gt p MIN_GRADE) eqn:Hgt; [|reflexivity].
  destruct p as [z|f].
  - unfold Py.lt, Py.gt, MIN_GRADE, MAX_GRADE in Hlt, Hgt.
    rewrite compare_Int in Hlt, Hgt.
    destruct (z ?= 10) eqn:H10; try discriminate.
    destruct (z ?= 6) eqn:H6; try discriminate.
    apply -> Z.compare_lt_iff in H10. apply -> Z.compare_gt_iff in H6.
    unfold in_bounds, Py.le, MIN_GRADE, MAX_GRADE, Py.round2.
    rewrite !compare_Int.
    destruct (6 ?= z) eqn:Ha; destruct (z ?= 10) eqn:Hb; try reflexivity;
      try (apply -> Z.compare_gt_iff in Ha; lia);
      try (apply -> Z.compare_gt_iff in Hb; lia).
  - destruct f as [s|s| |s m e]; try (destruct s; discriminate);
      try discriminate.
    unfold Py.round2. now apply fround2_in_bounds.
Qed.

(** ** The prediction and the grade range *)

Lemma clip_round_above_max (p : Py.num) :
  Py.gt p MAX_GRADE = true -> clip_round p = MAX_GRADE.
Proof.
  intros Hgt. unfold clip_round, Py.min2.
  assert (Hlt : Py.lt p MAX_GRADE = false).
  { unfold Py.gt in Hgt. unfold Py.lt.
    destruct (Py.compare p MAX_GRADE) as [[| |]|]; congruence. }
  rewrite Hlt. reflexivity.
Qed.

Lemma predict_from_two {libm : Py.c_pow} (p q : point) (rest : list point) :
  linear_regression_predict libm (p :: q :: rest) =
    (ft <- regression_fit libm (p :: q :: rest) ;; Ok (Some (clip_round (pred ft)))).
Proof. reflexivity. Qed.

(** With two observations or more, whatever is returned is a grade of
    [MIN_GRADE..MAX_GRADE]. *)
Lemma prediction_in_bounds_from_two {libm : Py.c_pow} (points : list point) (v : Py.num) :
  (2 <= List.length points)%nat ->
  linear_regression_predict libm points = Ok (Some v) ->
  in_bounds v = true.
Proof.
  intros Hn Hv.
  destruct points as [|p [|q rest]]; simpl in Hn; try lia.
  rewrite predict_from_two in Hv.
  destruct (regression_fit libm (p :: q :: rest)) as [ft|e]; simpl in Hv;
    [|discriminate].
  injection Hv as <-. apply clip_round_in_bounds.
Qed.

(** With two observations or more, a raw extrapolation above
    [MAX_GRADE] is returned as [MAX_GRADE]. *)
Lemma prediction_above_max {libm : Py.c_pow} (points : list point) (ft : fit) :
  (2 <= List.length points)%nat ->
  regression_fit libm points = Ok ft ->
  Py.gt (pred ft) MAX_GRADE = true ->
  linear_regression_predict libm points = Ok (Some MAX_GRADE).
Proof.
  intros Hn Hft Hgt.
  destruct points as [|p [|q rest]]; simpl in Hn; try lia.
  rewrite predict_from_two, Hft. simpl.
  now rewrite clip_round_above_max.
Qed.

(** C1: the clipping is not applied to a history of one observation: on
    the single point [(0, 0.0)] the value returned is [0.0], below
    [MIN_GRADE]; [predict] returns the same for a student whose only
    subject document has no grade field. *)
Theorem singleton_prediction_not_clipped (libm : Py.c_pow) :
  linear_regression_predict libm [(Py.Int 0, F 0)] = Ok (Some (F 0))
  /\ in_bounds (F 0) = false
  /\ (exists r,
         predict libm "s" [subj None None] = Ok r /\ prediction r = Some (F 0)).
Proof.
  split; [reflexivity|]. split; [reflexivity|].
  eexists. split; [vm_compute; reflexivity|reflexivity].
Qed.

(** ** Exceptions of the predictor *)

Lemma bind_only_overflow {A B : Type} (c : result A) (k : A -> result B) :
  raises_only_overflow c ->
  (forall a, c = Ok a -> raises_only_overflow (k a)) ->
  raises_only_overflow (bind c k).
Proof.
  intros Hc Hk. destruct c as [a|e]; simpl in *; auto.
Qed.

Lemma float_of_int_only_overflow (z : Z) :
  raises_only_overflow (Py.float_of_int z).
Proof.
  unfold Py.float_of_int. destruct (Py.is_infinity _); simpl; auto.
Qed.

Lemma to_float_only_overflow (v : Py.num) :
  raises_only_overflow (Py.to_float v).
Proof.
  destruct v; simpl; auto using float_of_int_only_overflow.
Qed.

Ltac only_overflow_arith :=
  repeat (apply bind_only_overflow;
          [solve [auto using to_float_only_overflow,
                    float_of_int_only_overflow]
          |intros ? _]);
  simpl; auto.

Lemma add_only_overflow (a b : Py.num) : raises_only_overflow (Py.add a b).
Proof. destruct a, b; unfold Py.add; only_overflow_arith. Qed.

Lemma sub_only_overflow (a b : Py.num) : raises_only_overflow (Py.sub a b).
Proof. destruct a, b; unfold Py.sub; only_overflow_arith. Qed.

Lemma mul_only_overflow (a b : Py.num) : raises_only_overflow (Py.mul a b).
Proof. destruct a, b; unfold Py.mul; only_overflow_arith. Qed.

Lemma pow2_only_overflow {libm : Py.c_pow} (v : Py.num) :
  raises_only_overflow (Py.pow2 libm v).
Proof.
  destruct v as [z|f]; unfold Py.pow2; [exact I|].
  destruct (Py.is_nan f); [exact I|].
  destruct (Py.is_infinity f); [exact I|].
  destruct (Py.is_zero f); [exact I|].
  destruct (Py.eq _ _); [exact I|].
  destruct (libm (Py.fabs f)) as [ix erange].
  destruct (if erange then _ else _); simpl; auto.
Qed.

Lemma ne_zero_int (y : Z) : Py.ne (Py.Int y) (Py.Int 0) = true -> y <> 0.
Proof.
  unfold Py.ne, Py.eq. rewrite compare_Int. intros H ->. discriminate.
Qed.

Lemma ne_zero_float (f : Py.float) :
  Py.ne (Py.Flt f) (Py.Int 0) = true -> Py.is_zero f = false.
Proof.
  destruct f as [s|s| |s m e]; try reflexivity. discriminate.
Qed.

(** A division whose divisor is not [== 0] raises no [ZeroDivisionError]. *)
Lemma truediv_only_overflow (a b : Py.num) :
  Py.ne b (Py.Int 0) = true -> raises_only_overflow (Py.truediv a b).
Proof.
  intros Hb. destruct b as [y|fb].
  - apply ne_zero_int in Hb. apply Z.eqb_neq in Hb.
    destruct a as [x|fa]; unfold Py.truediv; rewrite Hb.
    + destruct (Py.is_infinity _); simpl; auto.
    + only_overflow_arith.
  - apply ne_zero_float in Hb.
    destruct a as [x|fa]; unfold Py.truediv.
    + apply bind_only_overflow; [apply to_float_only_overflow|].
      intros ? _. rewrite Hb. simpl. auto.
    + simpl. rewrite Hb. simpl. auto.
Qed.

Lemma sum_from_only_overflow {A : Type} (f : A -> result Py.num)
  (l : list A) :
  (forall x, raises_only_overflow (f x)) ->
  forall acc, raises_only_overflow (Py.sum_from f acc l).
Proof.
  intros Hf. induction l as [|x l IH]; intros acc; simpl; auto.
  apply bind_only_overflow; [apply Hf|]. intros t _.
  apply bind_only_overflow; [apply add_only_overflow|]. intros acc' _.
  apply IH.
Qed.

Lemma sum_only_overflow (l : list Py.num) : raises_only_overflow (Py.sum l).
Proof.
  apply sum_from_only_overflow. intros x. simpl. auto.
Qed.

Lemma deltas_of_cons2 (a b : Py.num) (tl : list Py.num) :
  deltas_of (a :: b :: tl) =
    (d <- Py.sub b a ;; ds <- deltas_of (b :: tl) ;; Ok (d :: ds)).
Proof. reflexivity. Qed.

Lemma deltas_of_only_overflow (xs : list Py.num) :
  raises_only_overflow (deltas_of xs).
Proof.
  induction xs as [|a [|b tl] IH]; try (simpl; auto; fail).
  rewrite deltas_of_cons2.
  apply bind_only_overflow; [apply sub_only_overflow|]. intros d _.
  apply bind_only_overflow; [apply IH|]. intros ds _. simpl. auto.
Qed.

Lemma deltas_of_length (xs ds : list Py.num) :
  deltas_of xs = Ok ds -> List.length ds = Nat.pred (List.length xs).
Proof.
  revert ds. induction xs as [|a [|b tl] IH]; intros ds H.
  - injection H as <-. reflexivity.
  - injection H as <-. reflexivity.
  - rewrite deltas_of_cons2 in H.
    destruct (Py.sub b a) as [d|]; [|discriminate].
    destruct (deltas_of (b :: tl)) as [ds'|] eqn:E; [|discriminate].
    injection H as <-. cbn [List.length]. now rewrite (IH ds' eq_refl).
Qed.

Lemma len_ne_zero {A : Type} (l : list A) :
  l <> [] -> Py.ne (Py.len l) (Py.Int 0) = true.
Proof.
  intros Hl. unfold Py.len, Py.ne, Py.eq. rewrite compare_Int.
  destruct l; [congruence|]. simpl List.length.
  destruct (Z.of_nat (S _) ?= 0) eqn:E; try reflexivity.
  apply Z.compare_eq in E. lia.
Qed.

Lemma bind_ok {A B : Type} (c : result A) (k : A -> result B) (b : B) :
  bind c k = Ok b -> exists a, c = Ok a /\ k a = Ok b.
Proof.
  destruct c as [a|e]; simpl; intros H; [eauto|discriminate].
Qed.

(** Splits a hypothesis [x <- c ;; k = Ok b] into [c = Ok x] and [k = Ok b]. *)
Ltac bind_inv H x Hx :=
  apply bind_ok in H; destruct H as (x & Hx & H).

Lemma regression_fit_only_overflow {libm : Py.c_pow} (points : list point) :
  (2 <= List.length points)%nat ->
  raises_only_overflow (regression_fit libm points).
Proof.
  intros Hn. unfold regression_fit.
  assert (Hpts : points <> []) by (destruct points; simpl in Hn; [lia|congruence]).
  apply bind_only_overflow; [apply sum_only_overflow|]. intros sx _.
  apply bind_only_overflow;
    [apply truediv_only_overflow, len_ne_zero, Hpts|]. intros xm _.
  apply bind_only_overflow; [apply sum_only_overflow|]. intros sy _.
  apply bind_only_overflow;
    [apply truediv_only_overflow, len_ne_zero, Hpts|]. intros ym _.
  apply bind_only_overflow.
  { apply sum_from_only_overflow. intros p.
    apply bind_only_overflow; [apply sub_only_overflow|]. intros dx _.
    apply bind_only_overflow; [apply sub_only_overflow|]. intros dy _.
    apply mul_only_overflow. }
  intros nm _.
  apply bind_only_overflow.
  { apply sum_from_only_overflow. intros x.
    apply bind_only_overflow; [apply sub_only_overflow|]. intros dx _.
    apply pow2_only_overflow. }
  intros dn _.
  apply bind_only_overflow.
  { destruct (Py.ne dn (Py.Int 0)) eqn:Hdn;
      [now apply truediv_only_overflow|exact I]. }
  intros sl _.
  apply bind_only_overflow; [apply mul_only_overflow|]. intros sxm _.
  apply bind_only_overflow; [apply sub_only_overflow|]. intros ic _.
  apply bind_only_overflow; [apply deltas_of_only_overflow|]. intros ds Hds.
  apply bind_only_overflow; [apply sum_only_overflow|]. intros sd _.
  apply bind_only_overflow.
  { apply truediv_only_overflow, len_ne_zero.
    apply deltas_of_length in Hds. rewrite length_map in Hds.
    destruct ds; [|congruence]. exfalso.
    destruct points as [|p [|q rest]]; simpl in Hn, Hds; lia. }
  intros gap _.
  apply bind_only_overflow; [apply add_only_overflow|]. intros nx _.
  apply bind_only_overflow; [apply mul_only_overflow|]. intros snx _.
  apply bind_only_overflow; [apply add_only_overflow|]. intros pr _.
  exact I.
Qed.

(** The guard of line 42: a fit whose denominator is [== 0] has the
    int [0] as its slope. *)
Lemma zero_den_zero_slope {libm : Py.c_pow} (points : list point) (ft : fit) :
  regression_fit libm points = Ok ft ->
  Py.eq (den ft) (Py.Int 0) = true ->
  slope ft = Py.Int 0.
Proof.
  unfold regression_fit. intros H Hden.
  bind_inv H sx Hsx. bind_inv H xm Hxm. bind_inv H sy Hsy.
  bind_inv H ym Hym. bind_inv H nm Hnm. bind_inv H dn Hdn.
  bind_inv H sl Hsl. bind_inv H sxm Hsxm. bind_inv H ic Hic.
  bind_inv H ds Hds. bind_inv H sd Hsd. bind_inv H gap Hgap.
  bind_inv H nx Hnx. bind_inv H snx Hsnx. bind_inv H pr Hpr.
  injection H as <-. simpl in *.
  unfold Py.ne in Hsl. rewrite Hden in Hsl. simpl in Hsl. congruence.
Qed.


(** ** The required next grade *)

(** C3: with no grades the required grade is the target average itself;
    otherwise, with [required = target*(count+1) - sum(grades)], the
    result is absent when [required > MAX_GRADE], [MIN_GRADE] when
    [required < MIN_GRADE], and [required] rounded to two decimals in
    the remaining case. *)
Theorem required_grade_cases (target : Py.num) (grades : list Py.num) :
  (grades = [] -> required_grade_for target grades = Ok (Some target))
  /\ (grades <> [] ->
      forall required,
        (c <- Py.add (Py.len grades) (Py.Int 1) ;;
         a <- Py.mul target c ;;
         s <- Py.sum grades ;;
         Py.sub a s) = Ok required ->
        (Py.gt required MAX_GRADE = true ->
         required_grade_for target grades = Ok None)
        /\ (Py.gt required MAX_GRADE = false ->
            Py.lt required MIN_GRADE = true ->
            required_grade_for target grades = Ok (Some MIN_GRADE))
        /\ (Py.gt required MAX_GRADE = false ->
            Py.lt required MIN_GRADE = false ->
            required_grade_for target grades = Ok (Some (Py.round2 required)))).
Proof.
  split.
  - intros ->. reflexivity.
  - intros Hne required Hreq.
    destruct grades as [|g gs]; [congruence|].
    unfold required_grade_for, required_value. rewrite Hreq.
    cbn [bind]. repeat split.
    + intros ->. reflexivity.
    + intros -> ->. reflexivity.
    + intros -> ->. reflexivity.
Qed.

Lemma required_grade_cases_witness :
  required_grade_for (F 8) [F 10; F 10] = Ok (Some MIN_GRADE).
Proof.
  destruct (required_grade_cases (F 8) [F 10; F 10]) as [_ Hcases].
  destruct (Hcases ltac:(discriminate) (F 4) ltac:(vm_compute; reflexivity))
    as (_ & Hmin & _).
  apply Hmin; vm_compute; reflexivity.
Defined.

(** The two cases worked in the specification, at [TARGET_AVG]. *)
Example required_grade_examples :
  required_grade [F 10; F 10] = Ok (Some MIN_GRADE)
  /\ required_grade [F 6; F 6] = Ok None
  /\ required_grade [F 8; F 7] = Ok (Some (F 9))
  /\ required_grade [] = Ok (Some TARGET_AVG).
Proof. repeat split; vm_compute; reflexivity. Qed.

(** ** The points built from the subject documents *)

Lemma prepare_points_from_nth (subjects : list subject_doc) :
  forall idx pts,
    prepare_points_from idx subjects = Ok pts ->
    List.length pts = List.length subjects
    /\ forall i s,
        nth_error subjects i = Some s ->
        exists g,
          grade_of s = Ok g
          /\ nth_error pts i = Some (x_of (idx + Z.of_nat i) s, g).
Proof.
  induction subjects as [|s0 rest IH]; intros idx pts H.
  - injection H as <-. split; [reflexivity|].
    intros [|i] s Hs; discriminate.
  - cbn [prepare_points_from] in H.
    bind_inv H g0 Hg0. bind_inv H pts' Hpts'. injection H as <-.
    destruct (IH _ _ Hpts') as [Hlen Hnth].
    split; [simpl; now rewrite Hlen|].
    intros [|i] s Hs.
    + injection Hs as <-. exists g0. split; [exact Hg0|].
      simpl. now rewrite Z.add_0_r.
    + simpl in Hs. destruct (Hnth i s Hs) as (g & Hg & Hi).
      exists g. split; [exact Hg|].
      simpl nth_error. rewrite Hi. do 3 f_equal. lia.
Qed.

Lemma grades_of_nth (subjects : list subject_doc) :
  forall grades,
    grades_of subjects = Ok grades ->
    List.length grades = List.length subjects
    /\ forall i s,
        nth_error subjects i = Some s ->
        exists g, grade_of s = Ok g /\ nth_error grades i = Some g.
Proof.
  induction subjects as [|s0 rest IH]; intros grades H.
  - injection H as <-. split; [reflexivity|].
    intros [|i] s Hs; discriminate.
  - cbn [grades_of] in H.
    bind_inv H g0 Hg0. bind_inv H gs Hgs. injection H as <-.
    destruct (IH _ Hgs) as [Hlen Hnth].
    split; [simpl; now rewrite Hlen|].
    intros [|i] s Hs.
    + injection Hs as <-. exists g0. split; [exact Hg0|reflexivity].
    + simpl in Hs. destruct (Hnth i s Hs) as (g & Hg & Hi).
      exists g. split; [exact Hg|exact Hi].
Qed.

(** C8 fails as stated: a history whose first document has a date and
    whose second has none yields the x-values [1700000000.0] (a
    timestamp) and [1] (an index) in one point list. *)
Lemma mixed_sources_counterexample :
  exists pts,
    prepare_points_from_subjects mixed_subjects = Ok pts
    /\ map fst pts = [Py.Flt (Py.float_of_Z 1700000000); Py.Int 1]
    /\ single_source (map fst pts) = false.
Proof.
  eexists. split; [reflexivity|]. split; reflexivity.
Qed.

Lemma forallb_nth {A : Type} (f : A -> bool) (l : list A) :
  (forall i x, nth_error l i = Some x -> f x = true) -> forallb f l = true.
Proof.
  intros H. apply forallb_forall. intros x Hx.
  apply In_nth_error in Hx. destruct Hx as [i Hi]. eauto.
Qed.

(** C8 (as amended): the source of each x-value is chosen per document:
    the timestamp of [date_added] where the document has one, the
    position of the document in the list otherwise.  The x-values of a
    history therefore come from one source when every document has a
    date (all timestamps) or none has (the indices 0, 1, 2, ...). *)
Theorem x_source_per_document (subjects : list subject_doc)
  (pts : list point) :
  prepare_points_from_subjects subjects = Ok pts ->
  List.length pts = List.length subjects
  /\ (forall i s,
         nth_error subjects i = Some s ->
         nth_error (map fst pts) i =
           Some (match date_added s with
                 | Some t => Py.Flt t
                 | None => Py.Int (Z.of_nat i)
                 end))
  /\ (forallb has_date subjects = true ->
      forallb is_timestamp (map fst pts) = true)
  /\ (forallb (fun s => negb (has_date s)) subjects = true ->
      forallb is_index (map fst pts) = true).
Proof.
  intros H. apply prepare_points_from_nth in H. destruct H as [Hlen Hnth].
  assert (Hx : forall i s,
             nth_error subjects i = Some s ->
             nth_error (map fst pts) i = Some (x_of (Z.of_nat i) s)).
  { intros i s Hs. destruct (Hnth i s Hs) as (g & _ & Hi).
    rewrite nth_error_map. unfold point in *. rewrite Hi. reflexivity. }
  assert (Hsrc : forall i x,
             nth_error (map fst pts) i = Some x ->
             exists s, nth_error subjects i = Some s
                       /\ x = x_of (Z.of_nat i) s).
  { intros i x Hi.
    destruct (nth_error subjects i) as [s|] eqn:Hs.
    - exists s. split; [reflexivity|]. rewrite (Hx i s Hs) in Hi. congruence.
    - apply nth_error_None in Hs.
      assert (Hsome : nth_error (map fst pts) i <> None) by congruence.
      apply nth_error_Some in Hsome. rewrite length_map in Hsome.
      unfold point in *. lia. }
  split; [exact Hlen|]. split; [exact Hx|]. split.
  - intros Hall. apply forallb_nth. intros i x Hi.
    destruct (Hsrc i x Hi) as (s & Hs & ->).
    rewrite forallb_forall in Hall.
    specialize (Hall s (nth_error_In _ _ Hs)).
    unfold has_date in Hall. unfold x_of.
    destruct (date_added s); [reflexivity|discriminate].
  - intros Hall. apply forallb_nth. intros i x Hi.
    destruct (Hsrc i x Hi) as (s & Hs & ->).
    rewrite forallb_forall in Hall.
    specialize (Hall s (nth_error_In _ _ Hs)).
    unfold has_date in Hall. unfold x_of.
    destruct (date_added s); [discriminate|reflexivity].
Qed.

Lemma x_source_per_document_witness :
  forallb is_index (map fst history_678) = true.
Proof.
  apply (x_source_per_document subjects_678 history_678); reflexivity.
Defined.

(** ** Documents without a grade *)

Lemma same_float_eq (a b : Py.float) : same_float a b = true -> a = b.
Proof.
  destruct a as [s|s| |s m e], b as [s'|s'| |s' m' e']; simpl; intros H;
    try discriminate; try reflexivity.
  - apply Bool.eqb_prop in H. now subst.
  - apply Bool.eqb_prop in H. now subst.
  - apply andb_true_iff in H. destruct H as [H He].
    apply andb_true_iff in H. destruct H as [Hs Hm].
    apply Bool.eqb_prop in Hs. apply Pos.eqb_eq in Hm. apply Z.eqb_eq in He.
    now subst.
Qed.

(** C10 (as amended): a document without a grade field is neither
    rejected nor skipped: [float(s.get("grade", 0))] returns for it, and
    it puts the grade [0.0] at its position both in the regression
    points and in the grades of the baseline average.  Where it pulls
    the prediction depends on its position.  In a history of three
    documents without dates, the other two with grades of one decimal
    in [MIN_GRADE..MAX_GRADE]: the baseline average is lower than the
    average of the two grades; as the last document it puts the
    prediction at the floor [MIN_GRADE], as the first one at the
    ceiling [MAX_GRADE]. *)
Theorem missing_grade_counts_as_zero (libm : Py.c_pow) :
  (forall s, grade s = None -> grade_of s = Ok (F 0))
  /\ (forall subjects pts grades i s,
         prepare_points_from_subjects subjects = Ok pts ->
         grades_of subjects = Ok grades ->
         nth_error subjects i = Some s ->
         grade s = None ->
         List.length pts = List.length subjects
         /\ List.length grades = List.length subjects
         /\ nth_error (map snd pts) i = Some (F 0)
         /\ nth_error grades i = Some (F 0))
  /\ (forall sid k1 k2,
         60 <= k1 <= 100 -> 60 <= k2 <= 100 ->
         exists a a0 r r',
           average_of [Py.Flt (Py.dec k1 1); Py.Flt (Py.dec k2 1)]
           = Ok (Some a)
           /\ predict libm sid
                [dateless (Py.dec k1 1); dateless (Py.dec k2 1); no_grade]
              = Ok r
           /\ baseline_avg r = Some a0 /\ Py.lt a0 a = true
           /\ prediction r = Some MIN_GRADE
           /\ predict libm sid
                [no_grade; dateless (Py.dec k1 1); dateless (Py.dec k2 1)]
              = Ok r'
           /\ baseline_avg r' = Some a0
           /\ prediction r' = Some MAX_GRADE).
Proof.
  assert (Hzero : forall s, grade s = None -> grade_of s = Ok (F 0)).
  { intros s Hs. unfold grade_of. rewrite Hs. reflexivity. }
  split; [exact Hzero|]. split.
  - intros subjects pts grades i s Hpts Hgrades Hs Hnone.
    apply prepare_points_from_nth in Hpts. destruct Hpts as [Hlen Hnth].
    apply grades_of_nth in Hgrades. destruct Hgrades as [Hlen' Hnth'].
    destruct (Hnth i s Hs) as (g & Hg & Hi).
    destruct (Hnth' i s Hs) as (g' & Hg' & Hi').
    rewrite (Hzero s Hnone) in Hg, Hg'.
    injection Hg as <-. injection Hg' as <-.
    repeat split; try assumption.
    rewrite nth_error_map. unfold point in *. rewrite Hi. reflexivity.
  - intros sid k1 k2 Hk1 Hk2.
    set (grades := map (fun i => 60 + Z.of_nat i) (seq 0 41)).
    assert (Htab :
      forallb (fun k1 => forallb (fun k2 =>
        match average_of [Py.Flt (Py.dec k1 1); Py.Flt (Py.dec k2 1)],
              predict libm sid
                [dateless (Py.dec k1 1); dateless (Py.dec k2 1); no_grade],
              predict libm sid
                [no_grade; dateless (Py.dec k1 1); dateless (Py.dec k2 1)]
        with
        | Ok (Some a), Ok r, Ok r' =>
            match baseline_avg r, prediction r,
                  baseline_avg r', prediction r' with
            | Some a0, Some (Py.Int p), Some (Py.Flt f0'), Some (Py.Int p') =>
                Py.lt a0 a && (p =? 6) && (p' =? 10)
                && match a0 with
                   | Py.Flt f0 => same_float f0 f0'
                   | Py.Int _ => false
                   end
            | _, _, _, _ => false
            end
        | _, _, _ => false
        end) grades) grades = true)
      by (vm_compute; reflexivity).
    assert (Hin : forall k, 60 <= k <= 100 -> In k grades).
    { intros k Hk. apply in_map_iff. exists (Z.to_nat (k - 60)).
      split; [lia|]. apply in_seq. lia. }
    rewrite forallb_forall in Htab. specialize (Htab k1 (Hin k1 Hk1)).
    rewrite forallb_forall in Htab. specialize (Htab k2 (Hin k2 Hk2)).
    destruct (average_of _) as [[a|]|]; try discriminate.
    destruct (predict libm sid [dateless _; dateless _; no_grade]) as [r|];
      try discriminate.
    destruct (predict libm sid [no_grade; dateless _; dateless _]) as [r'|];
      try discriminate.
    destruct (baseline_avg r) as [[z0|f0]|] eqn:Hb; try discriminate;
      destruct (prediction r) as [[p|]|] eqn:Hp0; try discriminate;
      destruct (baseline_avg r') as [[|f0']|] eqn:Hb'; try discriminate;
      destruct (prediction r') as [[p'|]|] eqn:Hp0'; try discriminate.
    { rewrite andb_false_r in Htab. discriminate. }
    apply andb_true_iff in Htab. destruct Htab as [Htab Hsame].
    apply andb_true_iff in Htab. destruct Htab as [Htab Hp'].
    apply andb_true_iff in Htab. destruct Htab as [Hlt Hp].
    apply Z.eqb_eq in Hp, Hp'. subst p p'.
    apply same_float_eq in Hsame. subst f0'.
    exists a, (Py.Flt f0), r, r'. repeat split; assumption || reflexivity.
Qed.

Lemma missing_grade_counts_as_zero_witness :
  exists a a0 r r',
    average_of [Py.Flt (Py.dec 100 1); Py.Flt (Py.dec 100 1)] = Ok (Some a)
    /\ predict rounded_libm "s"
         [dateless (Py.dec 100 1); dateless (Py.dec 100 1); no_grade]
       = Ok r
    /\ baseline_avg r = Some a0 /\ Py.lt a0 a = true
    /\ prediction r = Some MIN_GRADE
    /\ predict rounded_libm "s"
         [no_grade; dateless (Py.dec 100 1); dateless (Py.dec 100 1)]
       = Ok r'
    /\ baseline_avg r' = Some a0
    /\ prediction r' = Some MAX_GRADE.
Proof.
  apply (proj2 (proj2 (missing_grade_counts_as_zero rounded_libm))
           "s"%string 100 100); lia.
Defined.

(** C10 fails as stated: the record does not always pull the prediction
    toward [MIN_GRADE].  For the grades 6.0 and 6.0 the prediction is
    [MIN_GRADE]; with a document without a grade before them it is
    [MAX_GRADE] (the line through 0, 6, 6 rises with slope 3 to the raw
    value 10). *)
Lemma missing_grade_raises_prediction :
  (exists r,
      predict rounded_libm "s" [dateless (Py.float_of_Z 6);
                                dateless (Py.float_of_Z 6)] = Ok r
      /\ prediction r = Some MIN_GRADE)
  /\ (exists ft,
        regression_fit rounded_libm [(Py.Int 0, F 0); (Py.Int 1, F 6);
                                     (Py.Int 2, F 6)] = Ok ft
        /\ slope ft = F 3 /\ pred ft = F 10)
  /\ (exists r,
        predict rounded_libm "s" [no_grade; dateless (Py.float_of_Z 6);
                                  dateless (Py.float_of_Z 6)] = Ok r
        /\ prediction r = Some MAX_GRADE).
Proof.
  split; [|split]; eexists; repeat split; vm_compute; reflexivity.
Qed.

(** ** Grade validation in the handlers *)

Lemma compare_fin_antisym (m1 e1 m2 e2 : Z) :
  Py.compare_fin m1 e1 m2 e2 = CompOpp (Py.compare_fin m2 e2 m1 e1).
Proof.
  unfold Py.compare_fin. cbv zeta.
  rewrite (Z.min_comm e2 e1). apply Z.compare_antisym.
Qed.

Lemma compare_antisym (a b : Py.num) :
  Py.compare a b = option_map CompOpp (Py.compare b a).
Proof.
  unfold Py.compare.
  destruct (Py.value_of a) as [| |m1 e1|], (Py.value_of b) as [| |m2 e2|];
    try reflexivity.
  simpl. f_equal. apply compare_fin_antisym.
Qed.

Lemma compare_float_int (g : Py.float) (z : Z) :
  Py.is_nan g = false -> exists c, Py.compare (Py.Flt g) (Py.Int z) = Some c.
Proof.
  destruct g as [s|s| |s m e]; intros H; try discriminate;
    destruct s; eexists; reflexivity.
Qed.

(** A float that is neither below [MIN_GRADE] nor above [MAX_GRADE] is
    in bounds, unless it is NaN. *)
Lemma not_outside_in_bounds (g : Py.float) :
  Py.is_nan g = false ->
  Py.lt (Py.Flt g) MIN_GRADE = false ->
  Py.gt (Py.Flt g) MAX_GRADE = false ->
  in_bounds (Py.Flt g) = true.
Proof.
  intros Hnan Hlt Hgt. unfold in_bounds, Py.le.
  rewrite (compare_antisym MIN_GRADE (Py.Flt g)).
  unfold Py.lt in Hlt. unfold Py.gt in Hgt.
  destruct (compare_float_int g 6 Hnan) as [c Hc].
  destruct (compare_float_int g 10 Hnan) as [c' Hc'].
  unfold MIN_GRADE, MAX_GRADE in *. rewrite Hc in *. rewrite Hc' in *.
  destruct c, c'; try discriminate; reflexivity.
Qed.

Lemma nan_not_in_bounds : in_bounds (Py.Flt S754_nan) = false.
Proof. reflexivity. Qed.

Lemma update_one_Forall (P : subject_doc -> Prop) (oid : Z)
  (set : subject_doc -> subject_doc) (docs : list subject_doc) :
  (forall d, P d -> P (set d)) ->
  Forall P docs -> Forall P (update_one oid set docs).
Proof.
  intros Hset. induction 1 as [|d rest Hd Hrest IH]; simpl.
  - constructor.
  - destruct (doc_id d =? oid); constructor; auto.
Qed.

Section HandlerProperties.

Variable float_of_string : string -> result Py.float.
Variable strip : string -> string.
Variable ObjectId : string -> option Z.

(** Whatever [student_page] answers to a POST, either nothing was
    written and the status is 400 or 404, or one document was appended
    whose grade is a float that is not below [MIN_GRADE] and not above
    [MAX_GRADE]. *)
Lemma student_page_post_outcome (db : database) (id : string) (f : form)
  (new_id : Z) (now : Py.float) :
  let out := student_page_post float_of_string strip ObjectId db id f new_id now in
  (snd out = db /\ (fst out = Status 404 "Student not found"
                    \/ exists body, fst out = Status 400 body))
  \/ (exists g d,
         float_of_string (form_get f "grade") = Ok g
         /\ Py.lt (Py.Flt g) MIN_GRADE = false
         /\ Py.gt (Py.Flt g) MAX_GRADE = false
         /\ grade d = Some (Py.Flt g)
         /\ fst out = Redirect "student_page" id
         /\ snd out = {| db_students := db_students db;
                         db_subjects := db_subjects db ++ [d] |}).
Proof.
  unfold student_page_post, to_objid.
  destruct (ObjectId id) as [oid|]; [|left; simpl; auto].
  destruct (find_student db oid); [|left; simpl; auto].
  destruct (float_of_string (form_get f "grade")) as [g|e] eqn:Hg;
    [|left; simpl; eauto].
  destruct (rejected (strip (form_get f "subject_name")) g) eqn:Hrej;
    [left; simpl; eauto|].
  right. unfold rejected in Hrej.
  apply orb_false_iff in Hrej. destruct Hrej as [Hrej Hgt].
  apply orb_false_iff in Hrej. destruct Hrej as [_ Hlt].
  eexists. eexists. repeat split; try eassumption; reflexivity.
Qed.

(** The same for [edit_subject], which rewrites the grade of the
    document with the given id. *)
Lemma edit_subject_outcome (db : database) (sid subject_id : string)
  (f : form) :
  let out := edit_subject float_of_string strip ObjectId db sid subject_id f in
  (snd out = db /\ (fst out = Status 404 "Subject not found"
                    \/ exists body, fst out = Status 400 body))
  \/ (exists g oid name,
         float_of_string (form_get f "new_grade") = Ok g
         /\ Py.lt (Py.Flt g) MIN_GRADE = false
         /\ Py.gt (Py.Flt g) MAX_GRADE = false
         /\ fst out = Redirect "student_page" sid
         /\ snd out =
              {| db_students := db_students db;
                 db_subjects :=
                   update_one oid
                     (fun d =>
                        {| doc_id := doc_id d; student_id := student_id d;
                           subject := name; grade := Some (Py.Flt g);
                           date_added := date_added d |})
                     (db_subjects db) |}).
Proof.
  unfold edit_subject, to_objid.
  destruct (ObjectId subject_id) as [oid|]; [|left; simpl; auto].
  destruct (float_of_string (form_get f "new_grade")) as [g|e] eqn:Hg;
    [|left; simpl; eauto].
  destruct (rejected (strip (form_get f "new_name")) g) eqn:Hrej;
    [left; simpl; eauto|].
  right. unfold rejected in Hrej.
  apply orb_false_iff in Hrej. destruct Hrej as [Hrej Hgt].
  apply orb_false_iff in Hrej. destruct Hrej as [_ Hlt].
  exists g, oid, (strip (form_get f "new_name")).
  repeat split; try assumption.
Qed.

(** The stored grades stay in bounds through both handlers as long as
    the submitted grade text does not read as NaN. *)
Lemma handlers_keep_bounds_without_nan (db : database) (id sid : string)
  (f : form) (new_id : Z) (now : Py.float) :
  (forall g, float_of_string (form_get f "grade") = Ok g -> Py.is_nan g = false) ->
  (forall g, float_of_string (form_get f "new_grade") = Ok g -> Py.is_nan g = false) ->
  Forall (fun d => grade_in_bounds d = true) (db_subjects db) ->
  Forall (fun d => grade_in_bounds d = true)
    (db_subjects
       (snd (student_page_post float_of_string strip ObjectId db id f new_id now)))
  /\ Forall (fun d => grade_in_bounds d = true)
       (db_subjects
          (snd (edit_subject float_of_string strip ObjectId db sid id f))).
Proof.
  intros Hnan Hnan' Hdb. split.
  - destruct (student_page_post_outcome db id f new_id now)
      as [[-> _]|(g & d & Hg & Hlt & Hgt & Hd & _ & ->)]; [exact Hdb|].
    simpl. apply Forall_app. split; [exact Hdb|].
    constructor; [|constructor].
    unfold grade_in_bounds. rewrite Hd.
    apply not_outside_in_bounds; auto.
  - destruct (edit_subject_outcome db sid id f)
      as [[-> _]|(g & oid & nm & Hg & Hlt & Hgt & _ & ->)]; [exact Hdb|].
    simpl. apply update_one_Forall; [|exact Hdb].
    intros d _. unfold grade_in_bounds. simpl.
    apply not_outside_in_bounds; auto.
Qed.

End HandlerProperties.

(** C9: the range check lets NaN through.  When the grade text reads as
    NaN (as [float("nan")] does), both comparisons of the check are
    false, so the add-subject handler appends a document whose grade is
    NaN and the edit-subject handler sets NaN as the new grade, each
    answering with a redirect instead of status 400; NaN is not a grade
    of [MIN_GRADE..MAX_GRADE]. *)
Theorem nan_grade_passes_validation
  (float_of_string : string -> result Py.float) (strip : string -> string)
  (ObjectId : string -> option Z) (db : database) (id : string) (oid : Z)
  (f : form) (new_id : Z) (now : Py.float) :
  ObjectId id = Some oid ->
  in_bounds (Py.Flt S754_nan) = false
  /\ (forall st,
         find_student db oid = Some st ->
         strip (form_get f "subject_name") <> EmptyString ->
         float_of_string (form_get f "grade") = Ok S754_nan ->
         student_page_post float_of_string strip ObjectId db id f new_id now =
           (Redirect "student_page" id,
            {| db_students := db_students db;
               db_subjects :=
                 db_subjects db ++
                 [{| doc_id := new_id; student_id := id;
                     subject := strip (form_get f "subject_name");
                     grade := Some (Py.Flt S754_nan);
                     date_added := Some now |}] |}))
  /\ (forall sid,
         strip (form_get f "new_name") <> EmptyString ->
         float_of_string (form_get f "new_grade") = Ok S754_nan ->
         edit_subject float_of_string strip ObjectId db sid id f =
           (Redirect "student_page" sid,
            {| db_students := db_students db;
               db_subjects :=
                 update_one oid
                   (fun d =>
                      {| doc_id := doc_id d; student_id := student_id d;
                         subject := strip (form_get f "new_name");
                         grade := Some (Py.Flt S754_nan);
                         date_added := date_added d |})
                   (db_subjects db) |})).
Proof.
  intros Hoid. split; [reflexivity|]. split.
  - intros st Hst Hname Hnan.
    unfold student_page_post, to_objid. rewrite Hoid, Hst, Hnan.
    unfold rejected. apply String.eqb_neq in Hname. rewrite Hname.
    reflexivity.
  - intros sid Hname Hnan.
    unfold edit_subject, to_objid. rewrite Hoid, Hnan.
    unfold rejected. apply String.eqb_neq in Hname. rewrite Hname.
    reflexivity.
Qed.

Lemma nan_grade_passes_validation_witness :
  student_page_post nan_only (fun s => s) (fun _ => Some 1) one_student "1"
    (grade_form "nan") 7 (Py.float_of_Z 1700000000)
  = (Redirect "student_page" "1",
     {| db_students := db_students one_student;
        db_subjects :=
          [{| doc_id := 7; student_id := "1"; subject := "Math";
              grade := Some (Py.Flt S754_nan);
              date_added := Some (Py.float_of_Z 1700000000) |}] |}).
Proof.
  refine (proj1 (proj2 (nan_grade_passes_validation nan_only (fun s => s)
                          (fun _ => Some 1) one_student "1" 1
                          (grade_form "nan") 7
                          (Py.float_of_Z 1700000000) eq_refl))
            _ eq_refl _ eq_refl).
  discriminate.
Defined.

(** A grade text that reads as a number outside the range, or that is
    no float at all, is answered with status 400 and writes nothing. *)
Example out_of_range_rejected :
  forall parse : string -> result Py.float,
    parse "11"%string = Ok (Py.float_of_Z 11) ->
    parse "abc"%string = Raise ValueError ->
    student_page_post parse (fun s => s) (fun _ => Some 1) one_student "1"
      (grade_form "11") 7 (Py.float_of_Z 0)
    = (Status 400 "Error: Grade must be 6-10", one_student)
    /\ student_page_post parse (fun s => s) (fun _ => Some 1) one_student "1"
         (grade_form "abc") 7 (Py.float_of_Z 0)
       = (Status 400 "Error: Invalid grade", one_student).
Proof.
  intros parse H11 Habc. unfold student_page_post, to_objid.
  cbn [find_student one_student db_students find student_oid Z.eqb Pos.eqb].
  split.
  - change (form_get (grade_form "11") "grade") with "11"%string.
    rewrite H11. reflexivity.
  - change (form_get (grade_form "abc") "grade") with "abc"%string.
    rewrite Habc. reflexivity.
Qed.

(** ** Facts on binary64 arithmetic *)

Lemma bounded_cases (m : positive) (e : Z) :
  bounded 53 1024 m e = true ->
  (Z.pos (digits2_pos m) = 53 /\ -1074 < e <= 971)
  \/ (Z.pos (digits2_pos m) <= 53 /\ e = -1074).
Proof.
  unfold bounded, canonical_mantissa, fexp, emin.
  intros H. apply andb_true_iff in H. destruct H as [H1 H2].
  apply Z.eqb_eq in H1. apply Z.leb_le in H2. lia.
Qed.

Lemma div_eucl_exact (a b : Z) : 0 < b -> Z.div_eucl (a * b) b = (a, 0).
Proof.
  intros Hb.
  pose proof (Z.div_mul a b ltac:(lia)) as Hq.
  pose proof (Z.mod_mul a b ltac:(lia)) as Hr.
  unfold Z.div, Z.modulo in Hq, Hr.
  destruct (Z.div_eucl (a * b) b) as [q r]. now subst.
Qed.

Lemma fdiv_one_normal (s : bool) (m : positive) (e : Z) :
  Z.pos (digits2_pos m) = 53 -> -1074 < e <= 971 ->
  Py.fdiv (S754_finite s m e) one = S754_finite s m e.
Proof.
  intros Hd He.
  change one with (S754_finite false 4503599627370496 (-52)).
  unfold Py.fdiv, Py.prec, Py.emax, SFdiv, SFdiv_core_binary, Zdigits2.
  rewrite Hd.
  change (Z.pos (digits2_pos 4503599627370496)) with 53.
  replace (Z.min (fexp 53 1024 (53 + e - (53 + -52))) (e - -52)) with (e - 1)
    by (unfold fexp, emin; lia).
  replace (e - -52 - (e - 1)) with 53 by lia.
  rewrite Z.shiftl_mul_pow2 by lia.
  replace (Z.pos m * 2 ^ 53) with (Z.pos m~0 * 4503599627370496) by lia.
  rewrite div_eucl_exact by lia.
  change (new_location 4503599627370496 0) with loc_Exact.
  unfold binary_round_aux, shr_fexp, Zdigits2. cbn [digits2_pos].
  rewrite Pos2Z.inj_succ, Hd.
  replace (fexp 53 1024 (Z.succ 53 + (e - 1)) - (e - 1)) with 1
    by (unfold fexp, emin; lia).
  cbn [shr shr_record_of_loc iter_pos shr_1 orb loc_of_shr_record shr_m
       round_nearest_even].
  rewrite Hd.
  replace (fexp 53 1024 (53 + (e - 1 + 1)) - (e - 1 + 1)) with 0
    by (unfold fexp, emin; lia).
  cbn [shr shr_record_of_loc shr_m].
  replace (e - 1 + 1 <=? 1024 - 53) with true
    by (symmetry; apply Z.leb_le; lia).
  rewrite xorb_false_r. f_equal. lia.
Qed.

Lemma fdiv_one_emin (s : bool) (m : positive) :
  Z.pos (digits2_pos m) <= 53 ->
  Py.fdiv (S754_finite s m (-1074)) one = S754_finite s m (-1074).
Proof.
  intros Hd.
  change one with (S754_finite false 4503599627370496 (-52)).
  unfold Py.fdiv, Py.prec, Py.emax, SFdiv, SFdiv_core_binary, Zdigits2.
  change (Z.pos (digits2_pos 4503599627370496)) with 53.
  replace (Z.min (fexp 53 1024 (Z.pos (digits2_pos m) + -1074 - (53 + -52)))
             (-1074 - -52)) with (-1074)
    by (unfold fexp, emin; lia).
  change (-1074 - -52 - -1074) with 52.
  rewrite Z.shiftl_mul_pow2 by lia.
  change (2 ^ 52) with 4503599627370496.
  rewrite div_eucl_exact by lia.
  change (new_location 4503599627370496 0) with loc_Exact.
  unfold binary_round_aux, shr_fexp, Zdigits2.
  replace (fexp 53 1024 (Z.pos (digits2_pos m) + -1074) - -1074) with 0
    by (unfold fexp, emin; lia).
  cbn [shr shr_record_of_loc iter_pos shr_1 orb loc_of_shr_record shr_m
       round_nearest_even].
  replace (fexp 53 1024 (Z.pos (digits2_pos m) + -1074) - -1074) with 0
    by (unfold fexp, emin; lia).
  cbn [shr shr_record_of_loc shr_m].
  rewrite xorb_false_r. reflexivity.
Qed.

(** Dividing a double by [1.0] returns it. *)
Lemma fdiv_one (x : Py.float) : is_double x = true -> Py.fdiv x one = x.
Proof.
  destruct x as [s|s| |s m e]; intros Hv; try reflexivity.
  - change one with (S754_finite false 4503599627370496 (-52)).
    simpl. now rewrite xorb_false_r.
  - change one with (S754_finite false 4503599627370496 (-52)).
    simpl. now rewrite xorb_false_r.
  - unfold is_double, valid_binary, Py.prec, Py.emax in Hv.
    destruct (bounded_cases m e Hv) as [[Hd He]|[Hd ->]].
    + now apply fdiv_one_normal.
    + now apply fdiv_one_emin.
Qed.

(** Adding a float to the positive zero returns it, except that
    [0.0 + -0.0] is [0.0]. *)
Lemma fadd_zero_l (x : Py.float) :
  x <> S754_zero true -> Py.fadd (S754_zero false) x = x.
Proof.
  destruct x as [[|]|s| |s m e]; intros H; try reflexivity. congruence.
Qed.

Lemma sum_singleton (g : Py.float) :
  g <> S754_zero true -> Py.sum [Py.Flt g] = Ok (Py.Flt g).
Proof.
  intros H. unfold Py.sum, Py.sum_with. cbn [Py.sum_from bind].
  unfold Py.add. change (Py.to_float (Py.Int 0)) with (Ok (S754_zero false)).
  cbn [bind Py.to_float]. now rewrite fadd_zero_l.
Qed.

Lemma truediv_by_one (g : Py.float) :
  is_double g = true -> Py.truediv (Py.Flt g) (Py.Int 1) = Ok (Py.Flt g).
Proof.
  intros H. unfold Py.truediv. cbn [Z.eqb].
  change (Py.float_of_int 1) with (Ok one). cbn [bind].
  now rewrite fdiv_one.
Qed.

Lemma in_bounds_finite (g : Py.float) :
  in_bounds (Py.Flt g) = true -> exists m e, g = S754_finite false m e.
Proof.
  destruct g as [s|s| |s m e]; try (destruct s; discriminate);
    try discriminate.
  destruct s; [|eauto].
  unfold in_bounds, Py.le. rewrite (compare_antisym MIN_GRADE).
  unfold MIN_GRADE. rewrite compare_neg_int by lia. discriminate.
Qed.

(** ** The comparison by value and the IEEE comparison *)

Lemma digits2_bounds (m : positive) :
  2 ^ (Z.pos (digits2_pos m) - 1) <= Z.pos m < 2 ^ Z.pos (digits2_pos m).
Proof.
  induction m as [p IH|p IH|]; cbn [digits2_pos].
  - rewrite Pos2Z.inj_succ.
    replace (Z.succ (Z.pos (digits2_pos p)) - 1)
      with (Z.succ (Z.pos (digits2_pos p) - 1)) by lia.
    rewrite !Z.pow_succ_r by lia. lia.
  - rewrite Pos2Z.inj_succ.
    replace (Z.succ (Z.pos (digits2_pos p)) - 1)
      with (Z.succ (Z.pos (digits2_pos p) - 1)) by lia.
    rewrite !Z.pow_succ_r by lia. lia.
  - simpl. lia.
Qed.

(** Of two doubles of the same sign, the one with the larger exponent
    has the larger magnitude. *)
Lemma larger_exponent_larger_value (m1 m2 : positive) (e1 e2 : Z) :
  bounded 53 1024 m1 e1 = true ->
  bounded 53 1024 m2 e2 = true ->
  e1 < e2 ->
  Z.pos m1 < Z.pos m2 * 2 ^ (e2 - e1).
Proof.
  intros H1 H2 He.
  pose proof (digits2_bounds m1) as [_ Hm1].
  pose proof (digits2_bounds m2) as [Hm2 _].
  destruct (bounded_cases m1 e1 H1) as [[Hd1 He1]|[Hd1 He1]];
    destruct (bounded_cases m2 e2 H2) as [[Hd2 He2]|[Hd2 He2]]; try lia.
  - rewrite Hd1 in Hm1. rewrite Hd2 in Hm2.
    change (2 ^ (53 - 1)) with 4503599627370496 in Hm2.
    change (2 ^ 53) with 9007199254740992 in Hm1.
    assert (2 <= 2 ^ (e2 - e1))
      by (change 2 with (2 ^ 1) at 1; apply Z.pow_le_mono_r; lia).
    nia.
  - rewrite Hd2 in Hm2.
    change (2 ^ (53 - 1)) with 4503599627370496 in Hm2.
    assert (Z.pos m1 < 2 ^ 53).
    { eapply Z.lt_le_trans; [exact Hm1|]. apply Z.pow_le_mono_r; lia. }
    change (2 ^ 53) with 9007199254740992 in *.
    assert (2 <= 2 ^ (e2 - e1))
      by (change 2 with (2 ^ 1) at 1; apply Z.pow_le_mono_r; lia).
    nia.
Qed.

Lemma compare_fin_doubles (m1 m2 : positive) (e1 e2 : Z) :
  bounded 53 1024 m1 e1 = true ->
  bounded 53 1024 m2 e2 = true ->
  Py.compare_fin (Z.pos m1) e1 (Z.pos m2) e2 =
    match e1 ?= e2 with
    | Lt => Lt
    | Gt => Gt
    | Eq => Pos.compare m1 m2
    end.
Proof.
  intros H1 H2. unfold Py.compare_fin. cbv zeta.
  destruct (e1 ?= e2) eqn:He.
  - apply Z.compare_eq in He. subst e2.
    rewrite Z.min_id, Z.sub_diag, Z.pow_0_r, !Z.mul_1_r. reflexivity.
  - apply -> Z.compare_lt_iff in He.
    rewrite Z.min_l, Z.sub_diag, Z.pow_0_r, Z.mul_1_r by lia.
    apply Z.compare_lt_iff. now apply larger_exponent_larger_value.
  - apply -> Z.compare_gt_iff in He.
    rewrite Z.min_r, Z.sub_diag, Z.pow_0_r, Z.mul_1_r by lia.
    apply Z.compare_gt_iff. now apply larger_exponent_larger_value.
Qed.

Lemma compare_fin_opp (m1 e1 m2 e2 : Z) :
  Py.compare_fin (- m1) e1 (- m2) e2 = CompOpp (Py.compare_fin m1 e1 m2 e2).
Proof.
  unfold Py.compare_fin. cbv zeta.
  rewrite !Z.mul_opp_l, Z.compare_opp. apply Z.compare_antisym.
Qed.

Lemma compare_fin_signs (m1 m2 : positive) (e1 e2 : Z) :
  Py.compare_fin (Z.neg m1) e1 (Z.pos m2) e2 = Lt
  /\ Py.compare_fin (Z.pos m1) e1 (Z.neg m2) e2 = Gt
  /\ Py.compare_fin 0 0 (Z.pos m2) e2 = Lt
  /\ Py.compare_fin 0 0 (Z.neg m2) e2 = Gt
  /\ Py.compare_fin (Z.pos m1) e1 0 0 = Gt
  /\ Py.compare_fin (Z.neg m1) e1 0 0 = Lt.
Proof.
  unfold Py.compare_fin. cbv zeta.
  assert (Hp : forall k, 0 < 2 ^ (k - Z.min k 0))
    by (intros k; apply Z.pow_pos_nonneg; lia).
  assert (Hq : forall k, 0 < 2 ^ (k - Z.min 0 k))
    by (intros k; apply Z.pow_pos_nonneg; lia).
  assert (H1 : 0 < 2 ^ (e1 - Z.min e1 e2)) by (apply Z.pow_pos_nonneg; lia).
  assert (H2 : 0 < 2 ^ (e2 - Z.min e1 e2)) by (apply Z.pow_pos_nonneg; lia).
  pose proof (Hp e1). pose proof (Hq e2).
  repeat split;
    first [apply Z.compare_lt_iff | apply Z.compare_gt_iff]; nia.
Qed.

(** On doubles, the comparison by value is the IEEE comparison. *)
Lemma compare_is_SFcompare (a b : Py.float) :
  is_double a = true -> is_double b = true ->
  Py.compare (Py.Flt a) (Py.Flt b) = SFcompare a b.
Proof.
  unfold is_double, Py.compare, Py.prec, Py.emax.
  destruct a as [sa|sa| |sa ma ea], b as [sb|sb| |sb mb eb]; intros Ha Hb;
    try reflexivity;
    try (destruct sa; reflexivity);
    try (destruct sb; reflexivity);
    try (destruct sa, sb; reflexivity).
  - destruct (compare_fin_signs mb mb eb eb) as (_ & _ & H1 & H2 & _).
    destruct sb; cbn; f_equal; assumption.
  - destruct (compare_fin_signs ma ma ea ea) as (_ & _ & _ & _ & H1 & H2).
    destruct sa; cbn; f_equal; assumption.
  - cbn [valid_binary] in Ha, Hb.
    destruct (compare_fin_signs ma mb ea eb) as (H1 & H2 & _).
    destruct sa, sb; cbn [Py.value_of Py.value_of_float Py.compare_value
                           SFcompare]; f_equal; try assumption.
    + change (Z.neg ma) with (- Z.pos ma). change (Z.neg mb) with (- Z.pos mb).
      rewrite compare_fin_opp, (compare_fin_doubles ma mb ea eb Ha Hb).
      destruct (ea ?= eb); reflexivity.
    + rewrite (compare_fin_doubles ma mb ea eb Ha Hb).
      destruct (ea ?= eb); reflexivity.
Qed.

(** ** A history of one observation *)

Lemma average_of_singleton (g : Py.float) :
  is_double g = true -> g <> S754_zero true ->
  average_of [Py.Flt g] = Ok (Some (Py.Flt (Py.fround2 g))).
Proof.
  intros Hd Hz. unfold average_of. rewrite (sum_singleton g Hz).
  cbn [bind]. change (Py.len [Py.Flt g]) with (Py.Int 1).
  rewrite (truediv_by_one g Hd). reflexivity.
Qed.

(** What [predict] returns for one document with a float grade. *)
Lemma predict_single_float {libm : Py.c_pow} (sid : string) (s : subject_doc) (g0 : Py.float) :
  grade s = Some (Py.Flt g0) ->
  is_double g0 = true ->
  g0 <> S754_zero true ->
  predict libm sid [s] =
    Ok {| resp_student_id := Some sid;
          prediction := Some (Py.Flt g0);
          baseline_avg := Some (Py.Flt (Py.fround2 g0));
          explanation :=
            "Prediction based on linear trend of historical grades." |}.
Proof.
  intros Hg Hd Hz.
  assert (Hgrade : grade_of s = Ok (Py.Flt g0)).
  { unfold grade_of. rewrite Hg. reflexivity. }
  unfold predict, prepare_points_from_subjects.
  cbn [prepare_points_from grades_of]. rewrite Hgrade. cbn [bind].
  unfold linear_regression_predict. cbn [snd Py.to_float bind].
  rewrite (average_of_singleton g0 Hd Hz). reflexivity.
Qed.

(** C6 (as amended): for a history of exactly one observation whose
    grade [g0] is a double of [MIN_GRADE..MAX_GRADE], [predict] returns
    [g0] itself as the prediction (not rounded), and [g0] rounded to two
    decimals as the baseline average; the baseline is [g0] only when
    [g0] has at most two decimals. *)
Theorem predict_single_observation (libm : Py.c_pow) (sid : string) (s : subject_doc)
  (g0 : Py.float) :
  grade s = Some (Py.Flt g0) ->
  is_double g0 = true ->
  in_bounds (Py.Flt g0) = true ->
  predict libm sid [s] =
    Ok {| resp_student_id := Some sid;
          prediction := Some (Py.Flt g0);
          baseline_avg := Some (Py.Flt (Py.fround2 g0));
          explanation :=
            "Prediction based on linear trend of historical grades." |}.
Proof.
  intros Hg Hd Hb. apply predict_single_float; try assumption.
  apply in_bounds_finite in Hb. destruct Hb as (m & e & ->). discriminate.
Qed.

(** The double of a two-decimal grade 6.00, 6.01, ..., 10.00 rounds to
    itself. *)
Lemma two_decimals_fixed (k : Z) :
  600 <= k <= 1000 -> Py.fround2 (Py.dec k 2) = Py.dec k 2.
Proof.
  intros Hk. apply same_float_eq.
  assert (Htab : forallb (fun k => same_float (Py.fround2 (Py.dec k 2))
                                     (Py.dec k 2))
                   (map (fun i => 600 + Z.of_nat i) (seq 0 401)) = true)
    by (vm_compute; reflexivity).
  rewrite forallb_forall in Htab. apply Htab.
  apply in_map_iff. exists (Z.to_nat (k - 600)). split; [lia|].
  apply in_seq. lia.
Qed.

(** For a single grade with at most two decimals the baseline average
    is the grade. *)
Lemma predict_single_two_decimals {libm : Py.c_pow} (sid : string) (s : subject_doc) (k : Z) :
  600 <= k <= 1000 ->
  grade s = Some (Py.Flt (Py.dec k 2)) ->
  exists r,
    predict libm sid [s] = Ok r
    /\ prediction r = Some (Py.Flt (Py.dec k 2))
    /\ baseline_avg r = Some (Py.Flt (Py.dec k 2)).
Proof.
  intros Hk Hg.
  assert (Htab : forallb (fun k => is_double (Py.dec k 2)
                                   && negb (same_float (Py.dec k 2)
                                              (S754_zero true)))
                   (map (fun i => 600 + Z.of_nat i) (seq 0 401)) = true)
    by (vm_compute; reflexivity).
  rewrite forallb_forall in Htab.
  assert (Hin : In k (map (fun i => 600 + Z.of_nat i) (seq 0 401))).
  { apply in_map_iff. exists (Z.to_nat (k - 600)). split; [lia|].
    apply in_seq. lia. }
  specialize (Htab k Hin). apply andb_true_iff in Htab.
  destruct Htab as [Hd Hz].
  eexists. split.
  - apply (predict_single_float sid s _ Hg Hd).
    intros E. rewrite E in Hz. discriminate.
  - split; [reflexivity|]. cbn [baseline_avg].
    now rewrite two_decimals_fixed.
Qed.

Lemma predict_single_observation_witness :
  predict rounded_libm "s" [subj (Some (Py.Flt g_6_125)) None] =
    Ok {| resp_student_id := Some "s"%string;
          prediction := Some (Py.Flt g_6_125);
          baseline_avg := Some (Py.Flt (Py.fround2 g_6_125));
          explanation :=
            "Prediction based on linear trend of historical grades." |}.
Proof.
  apply predict_single_observation.
  - reflexivity.
  - vm_compute. reflexivity.
  - vm_compute. reflexivity.
Defined.

(** C6 fails as stated: for the single grade 6.125 the prediction is
    6.125 and the baseline average is 6.12, which is not the grade. *)
Lemma single_observation_baseline_rounded :
  exists r,
    predict rounded_libm "s" [subj (Some (Py.Flt g_6_125)) None] = Ok r
    /\ prediction r = Some (Py.Flt g_6_125)
    /\ baseline_avg r = Some (Py.Flt (Py.dec 612 2))
    /\ Py.eq (Py.Flt (Py.dec 612 2)) (Py.Flt g_6_125) = false
    /\ in_bounds (Py.Flt g_6_125) = true.
Proof.
  eexists. split; [vm_compute; reflexivity|].
  repeat split; vm_compute; reflexivity.
Qed.

(** ** Histories of equal grades *)


Lemma fsub_finite_inv (a b : Py.float) :
  Py.is_finite (Py.fsub a b) = true ->
  Py.is_finite a = true /\ Py.is_finite b = true.
Proof.
  destruct a as [[|]|[|]| |sa ma ea], b as [[|]|[|]| |sb mb eb]; intros H;
    try (split; reflexivity); discriminate H.
Qed.

Lemma fmul_self_finite_inv (a : Py.float) :
  Py.is_finite (Py.fmul a a) = true -> Py.is_finite a = true.
Proof.
  destruct a as [[|]|[|]| |sa ma ea]; intros H; try reflexivity;
    discriminate H.
Qed.






Lemma fsub_zero_r (s : bool) (m : positive) (e : Z) (z : Py.float) :
  Py.is_zero z = true -> Py.fsub (S754_finite s m e) z = S754_finite s m e.
Proof.
  destruct z as [sz|sz| |sz mz ez]; intros Hz; try discriminate; reflexivity.
Qed.

Lemma fadd_zero_finite (s : bool) (m : positive) (e : Z) (z : Py.float) :
  Py.is_zero z = true -> Py.fadd z (S754_finite s m e) = S754_finite s m e.
Proof.
  destruct z as [sz|sz| |sz mz ez]; intros Hz; try discriminate; reflexivity.
Qed.


Lemma to_float_finite (v : Py.num) (f : Py.float) :
  Py.to_float v = Ok f -> Py.is_finite f = true -> num_finite v = true.
Proof.
  destruct v as [n|g]; simpl; intros H Hf; [reflexivity|congruence].
Qed.

(** The float operations on numbers, when one operand is a float. *)
Lemma add_float_r (a : Py.num) (fb : Py.float) :
  Py.add a (Py.Flt fb) = (fa <- Py.to_float a ;; Ok (Py.Flt (Py.fadd fa fb))).
Proof. destruct a; reflexivity. Qed.

Lemma sub_float_r (a : Py.num) (fb : Py.float) :
  Py.sub a (Py.Flt fb) = (fa <- Py.to_float a ;; Ok (Py.Flt (Py.fsub fa fb))).
Proof. destruct a; reflexivity. Qed.

Lemma mul_float_r (a : Py.num) (fb : Py.float) :
  Py.mul a (Py.Flt fb) = (fa <- Py.to_float a ;; Ok (Py.Flt (Py.fmul fa fb))).
Proof. destruct a; reflexivity. Qed.






(** The term [(x - x_mean)**2] of the denominator. *)
Lemma den_term_finite {libm : Py.c_pow} (x : Py.num) (xm : Py.float)
  (t : Py.num) :
  (dx <- Py.sub x (Py.Flt xm) ;; Py.pow2 libm dx) = Ok t ->
  is_flt t = true
  /\ (num_finite t = true ->
      Py.is_finite xm = true
      /\ exists d, Py.sub x (Py.Flt xm) = Ok (Py.Flt d)
                   /\ Py.is_finite d = true).
Proof.
  intros H. bind_inv H dx Hdx.
  rewrite sub_float_r in Hdx. bind_inv Hdx fx Hfx. injection Hdx as <-.
  unfold Py.pow2 in H.
  assert (Hfin : Py.is_finite (Py.fsub fx xm) = true ->
                 Py.is_finite xm = true
                 /\ exists d, Py.sub x (Py.Flt xm) = Ok (Py.Flt d)
                              /\ Py.is_finite d = true).
  { intros Hfin. destruct (fsub_finite_inv _ _ Hfin) as [_ Hxm].
    split; [exact Hxm|]. exists (Py.fsub fx xm). split; [|exact Hfin].
    rewrite sub_float_r, Hfx. reflexivity. }
  destruct (Py.fsub fx xm) as [s|s| |s m e] eqn:Hd; cbn in H.
  - injection H as <-. split; [reflexivity|]. intros _. now apply Hfin.
  - injection H as <-. split; [reflexivity|]. discriminate.
  - injection H as <-. split; [reflexivity|]. discriminate.
  - split; [|intros _; now apply Hfin].
    destruct (Py.compare_fin _ _ _ _);
      try (injection H as <-; reflexivity);
      destruct (libm _) as [ix erange];
      (destruct (if erange then _ else _); [discriminate|]);
      injection H as <-; reflexivity.
Qed.





Lemma round_half_even_exact (m e z : Z) :
  Py.compare_fin m e z 0 = Eq -> Py.round_half_even (100 * m) e = 100 * z.
Proof.
  unfold Py.compare_fin, Py.round_half_even. intros H.
  apply Z.compare_eq in H.
  destruct e as [|p|p].
  - change (Z.min 0 0) with 0 in H. change (2 ^ (0 - 0)) with 1 in H.
    change (2 ^ 0) with 1. lia.
  - rewrite Z.min_r in H by lia. rewrite !Z.sub_0_r, Z.pow_0_r in H. nia.
  - rewrite Z.min_l in H by lia. rewrite Z.sub_diag, Z.pow_0_r in H.
    replace (0 - Z.neg p) with (Z.pos p) in H by lia.
    set (d := 2 ^ Z.pos p) in *.
    assert (Hd : 0 < d) by (apply Z.pow_pos_nonneg; lia).
    replace (100 * m) with (100 * z * d) by lia.
    rewrite Z.div_mul, Z.mod_mul by lia.
    replace (2 * 0 ?= d) with Lt by (symmetry; apply Z.compare_lt_iff; lia).
    reflexivity.
Qed.

Lemma eq_refl_in_bounds (v : Py.num) :
  in_bounds v = true -> Py.eq v v = true.
Proof.
  unfold in_bounds, Py.le, Py.eq, Py.compare. intros H.
  apply andb_true_iff in H. destruct H as [_ H].
  destruct (Py.value_of v) as [| |m e|]; try reflexivity; try discriminate.
  cbn [Py.compare_value]. unfold Py.compare_fin. cbv zeta.
  now rewrite Z.compare_refl.
Qed.






(** ** Conversion of small integers *)

Lemma digits2_iter_xO (p k : positive) :
  digits2_pos (Pos.iter xO p k) = (digits2_pos p + k)%positive.
Proof.
  induction k as [|k IH] using Pos.peano_ind.
  - cbn [Pos.iter digits2_pos]. lia.
  - rewrite Pos.iter_succ. cbn [digits2_pos]. rewrite IH. lia.
Qed.

Lemma binary_round_aux_exact (s : bool) (m : positive) (e : Z) :
  Z.pos (digits2_pos m) = 53 -> -1074 <= e <= 971 ->
  binary_round_aux 53 1024 s (Z.pos m) e loc_Exact = S754_finite s m e.
Proof.
  intros Hd He. unfold binary_round_aux, shr_fexp, Zdigits2.
  rewrite Hd.
  replace (fexp 53 1024 (53 + e) - e) with 0 by (unfold fexp, emin; lia).
  cbn [shr shr_record_of_loc shr_m loc_of_shr_record round_nearest_even].
  rewrite Hd.
  replace (fexp 53 1024 (53 + e) - e) with 0 by (unfold fexp, emin; lia).
  cbn [shr shr_record_of_loc shr_m].
  replace (e <=? 1024 - 53) with true by (symmetry; apply Z.leb_le; lia).
  reflexivity.
Qed.

(** An integer of at most 53 bits converts to a finite, non-zero double. *)
Lemma float_of_Z_small (p : positive) :
  Z.pos p < 2 ^ 53 ->
  exists m e, Py.float_of_Z (Z.pos p) = S754_finite false m e.
Proof.
  intros Hp.
  pose proof (digits2_bounds p) as [Hlo _].
  assert (Hd : Z.pos (digits2_pos p) <= 53).
  { destruct (Z_le_gt_dec (Z.pos (digits2_pos p)) 53) as [H|H]; [exact H|].
    exfalso.
    assert (2 ^ 53 <= 2 ^ (Z.pos (digits2_pos p) - 1))
      by (apply Z.pow_le_mono_r; lia).
    lia. }
  unfold Py.float_of_Z, Py.prec, Py.emax, binary_normalize, binary_round.
  replace (fexp 53 1024 (Z.pos (digits2_pos p) + 0))
    with (Z.pos (digits2_pos p) - 53) by (unfold fexp, emin; lia).
  unfold shl_align.
  destruct (Z.pos (digits2_pos p) - 53 - 0) as [|k|k] eqn:Hk; try lia.
  - rewrite binary_round_aux_exact by lia. eauto.
  - rewrite binary_round_aux_exact.
    + eauto.
    + rewrite digits2_iter_xO, Pos2Z.inj_add. lia.
    + lia.
Qed.

Lemma float_of_int_small (z : Z) :
  0 <= z < 2 ^ 53 -> exists f, Py.float_of_int z = Ok f.
Proof.
  intros Hz. destruct z as [|p|p]; try lia.
  - exists (S754_zero false). reflexivity.
  - destruct (float_of_Z_small p) as (m & e & Hf); [lia|].
    unfold Py.float_of_int. rewrite Hf. cbn. eauto.
Qed.

(** ** Returning on float points *)

Lemma to_float_float_or_zero (v : Py.num) :
  float_or_zero v = true -> exists f, Py.to_float v = Ok f.
Proof.
  destruct v as [z|f]; cbn; intros H.
  - apply Z.eqb_eq in H. subst z. exists (S754_zero false). reflexivity.
  - eauto.
Qed.

(** A sum of float terms from a float or from [0] returns, with a
    float unless there is no term. *)
Lemma sum_from_returns {A : Type} (f : A -> result Py.num) (l : list A) :
  (forall x, In x l -> exists t, f x = Ok (Py.Flt t)) ->
  forall acc,
    float_or_zero acc = true ->
    exists total,
      Py.sum_from f acc l = Ok total
      /\ float_or_zero total = true
      /\ (l <> [] -> is_flt total = true).
Proof.
  induction l as [|x l IH]; intros Hf acc Hacc.
  - exists acc. split; [reflexivity|]. split; [exact Hacc|congruence].
  - destruct (Hf x (or_introl eq_refl)) as [t Ht].
    destruct (to_float_float_or_zero acc Hacc) as [fa Hfa].
    destruct (IH (fun y Hy => Hf y (or_intror Hy)) (Py.Flt (Py.fadd fa t))
                eq_refl) as (total & Htotal & Hok & Hflt).
    exists total. cbn [Py.sum_from]. rewrite Ht. cbn [bind].
    rewrite add_float_r, Hfa. cbn [bind]. rewrite Htotal.
    split; [reflexivity|]. split; [exact Hok|]. intros _.
    destruct l as [|y l'].
    + cbn in Htotal. injection Htotal as <-. reflexivity.
    + apply Hflt. discriminate.
Qed.

Lemma truediv_by_len (a : Py.float) (n : Z) :
  0 < n < 2 ^ 53 -> exists q, Py.truediv (Py.Flt a) (Py.Int n) = Ok (Py.Flt q).
Proof.
  intros Hn. unfold Py.truediv.
  replace (n =? 0) with false by (symmetry; apply Z.eqb_neq; lia).
  destruct (float_of_int_small n) as [f Hf]; [lia|].
  rewrite Hf. cbn [bind]. eauto.
Qed.

Lemma deltas_of_floats (xs : list Py.num) :
  Forall (fun x => is_flt x = true) xs ->
  exists ds, deltas_of xs = Ok ds /\ Forall (fun d => is_flt d = true) ds.
Proof.
  induction xs as [|a [|b tl] IH]; intros H.
  - exists []. split; [reflexivity|constructor].
  - exists []. split; [reflexivity|constructor].
  - rewrite deltas_of_cons2.
    inversion H as [|a' l' Ha Htl]; subst.
    destruct (IH Htl) as (ds & Hds & Hfl).
    inversion Htl as [|b' l'' Hb _]; subst.
    destruct a as [|fa]; [discriminate|]. destruct b as [|fb]; [discriminate|].
    unfold Py.sub. cbn [Py.to_float bind]. rewrite Hds. cbn [bind].
    eexists. split; [reflexivity|]. constructor; [reflexivity|exact Hfl].
Qed.

Lemma last_float_or_zero (xs : list Py.num) :
  Forall (fun x => is_flt x = true) xs ->
  float_or_zero (last xs (Py.Int 0)) = true.
Proof.
  induction 1 as [|x l Hx Hl IH]; [reflexivity|].
  destruct l as [|y l']; [destruct x; [discriminate|reflexivity]|exact IH].
Qed.

Lemma float_points_coordinates (points : list point) :
  float_points points ->
  Forall (fun x => is_flt x = true) (map fst points)
  /\ Forall (fun y => is_flt y = true) (map snd points).
Proof.
  induction 1 as [|p l [Hx Hy] _ [IHx IHy]]; split; constructor; assumption.
Qed.

Lemma sum_floats_returns (l : list Py.num) :
  Forall (fun x => is_flt x = true) l -> l <> [] ->
  exists f, Py.sum l = Ok (Py.Flt f).
Proof.
  intros Hl Hne. unfold Py.sum, Py.sum_with.
  destruct (sum_from_returns (fun v => Ok v) l) with (acc := Py.Int 0)
    as (total & Htotal & _ & Hflt).
  - intros x Hx. rewrite Forall_forall in Hl. specialize (Hl x Hx).
    destruct x as [|f]; [discriminate|]. eauto.
  - reflexivity.
  - specialize (Hflt Hne). destruct total as [|f]; [discriminate|]. eauto.
Qed.

(** ** Bounds of rounded results *)

Lemma iter_pos_nat {A : Type} (f : A -> A) (p : positive) (x : A) :
  iter_pos f p x = Nat.iter (Pos.to_nat p) f x.
Proof.
  revert x. induction p as [p IH|p IH|]; intros x; cbn [iter_pos].
  - rewrite !IH, Pos2Nat.inj_xI.
    replace (S (2 * Pos.to_nat p)) with (Pos.to_nat p + (Pos.to_nat p + 1))%nat
      by lia.
    rewrite !Nat.iter_add. reflexivity.
  - rewrite !IH, Pos2Nat.inj_xO.
    replace (2 * Pos.to_nat p)%nat with (Pos.to_nat p + Pos.to_nat p)%nat
      by lia.
    rewrite Nat.iter_add. reflexivity.
  - reflexivity.
Qed.

Lemma shr_1_spec (mrs : shr_record) :
  0 <= shr_m mrs ->
  shr_m (shr_1 mrs) = shr_m mrs / 2
  /\ (shr_r mrs = false -> shr_s mrs = false -> (2 | shr_m mrs) ->
      shr_r (shr_1 mrs) = false /\ shr_s (shr_1 mrs) = false).
Proof.
  destruct mrs as [m r s]. cbn [shr_m shr_r shr_s]. intros Hm.
  destruct m as [|[p|p|]|p]; try lia; cbn [shr_1 shr_m shr_r shr_s].
  - split; [reflexivity|]. intros -> -> _. split; reflexivity.
  - split; [rewrite Pos2Z.inj_xI; apply Z.div_unique with 1; lia|].
    intros _ _ [q Hq]. lia.
  - split; [rewrite Pos2Z.inj_xO; apply Z.div_unique with 0; lia|].
    intros -> -> _. split; reflexivity.
  - split; [reflexivity|]. intros _ _ [q Hq]. lia.
Qed.

Lemma iter_shr_1_spec (k : nat) (mrs : shr_record) :
  0 <= shr_m mrs ->
  shr_m (Nat.iter k shr_1 mrs) = shr_m mrs / 2 ^ Z.of_nat k
  /\ (shr_r mrs = false -> shr_s mrs = false ->
      (2 ^ Z.of_nat k | shr_m mrs) ->
      shr_r (Nat.iter k shr_1 mrs) = false
      /\ shr_s (Nat.iter k shr_1 mrs) = false).
Proof.
  intros Hm. induction k as [|k [IHm IHe]].
  - cbn [Nat.iter]. change (2 ^ Z.of_nat 0) with 1. rewrite Z.div_1_r.
    split; [reflexivity|]. auto.
  - change (Nat.iter (S k) shr_1 mrs) with (shr_1 (Nat.iter k shr_1 mrs)).
    assert (Hpos : 0 <= shr_m (Nat.iter k shr_1 mrs)).
    { rewrite IHm. apply Z.div_pos; [exact Hm|]. apply Z.pow_pos_nonneg; lia. }
    destruct (shr_1_spec _ Hpos) as [H1 H2].
    rewrite Nat2Z.inj_succ, Z.pow_succ_r by lia.
    split.
    + rewrite H1, IHm, Z.div_div by (try apply Z.pow_pos_nonneg; lia).
      f_equal. lia.
    + intros Hr Hs [q Hq].
      assert (Hd : (2 ^ Z.of_nat k | shr_m mrs)) by (exists (q * 2); lia).
      destruct (IHe Hr Hs Hd) as [Hr' Hs'].
      apply H2; [exact Hr'|exact Hs'|].
      rewrite IHm. exists q. rewrite Hq.
      replace (q * (2 * 2 ^ Z.of_nat k)) with (q * 2 * 2 ^ Z.of_nat k) by lia.
      rewrite Z.div_mul; [lia|]. apply Z.pow_nonzero; lia.
Qed.

(** A shift to the right of a non-negative mantissa: the exponent, the
    mantissa, and the location when the bits shifted out are zeros. *)
Lemma shr_spec (m : Z) (l : location) (e n : Z) :
  0 <= m ->
  let mrs := fst (shr (shr_record_of_loc m l) e n) in
  snd (shr (shr_record_of_loc m l) e n) = e + Z.max n 0
  /\ shr_m mrs = m / 2 ^ Z.max n 0
  /\ (n <= 0 -> loc_of_shr_record mrs = l)
  /\ (l = loc_Exact -> (2 ^ Z.max n 0 | m) -> loc_of_shr_record mrs = loc_Exact).
Proof.
  intros Hm.
  assert (Hrec : shr_m (shr_record_of_loc m l) = m)
    by (destruct l as [|[| |]]; reflexivity).
  assert (Hloc : loc_of_shr_record (shr_record_of_loc m l) = l)
    by (destruct l as [|[| |]]; reflexivity).
  destruct n as [|p|p]; cbn [shr fst snd Z.max].
  - change (2 ^ 0) with 1. rewrite Z.div_1_r, Z.add_0_r.
    repeat split; auto. intros -> _. exact Hloc.
  - rewrite iter_pos_nat.
    destruct (iter_shr_1_spec (Pos.to_nat p) (shr_record_of_loc m l))
      as [H1 H2]; [now rewrite Hrec|].
    rewrite positive_nat_Z, Hrec in *.
    split; [reflexivity|]. split; [exact H1|]. split; [lia|].
    intros -> Hd. destruct (H2 eq_refl eq_refl Hd) as [Hr Hs].
    destruct (Nat.iter _ _ _) as [m' r' s']. cbn in Hr, Hs. now subst.
  - change (2 ^ 0) with 1. rewrite Z.div_1_r, Z.add_0_r.
    repeat split; auto. intros -> _. exact Hloc.
Qed.

Lemma round_nearest_even_bounds (m : Z) (l : location) :
  m <= round_nearest_even m l <= m + 1
  /\ (l = loc_Exact -> round_nearest_even m l = m).
Proof.
  destruct l as [|[| |]]; cbn [round_nearest_even];
    try destruct (Z.even m); split; (lia || auto); discriminate.
Qed.

Lemma digits_le_of_bound (m N c : Z) :
  0 <= m -> 0 <= c -> 0 <= N < 2 ^ 53 -> m <= N * 2 ^ c ->
  Zdigits2 m <= 53 + c.
Proof.
  intros Hm Hc HN Hle. destruct m as [|p|p]; [change (Zdigits2 0) with 0; lia| |lia].
  cbn [Zdigits2].
  pose proof (digits2_bounds p) as [Hlo _].
  assert (Hpow : 0 < 2 ^ c) by (apply Z.pow_pos_nonneg; lia).
  assert (Hlt : 2 ^ (Z.pos (digits2_pos p) - 1) < 2 ^ (53 + c)).
  { rewrite Z.pow_add_r by lia. nia. }
  apply Z.pow_lt_mono_r_iff in Hlt; lia.
Qed.

(** One alignment to the format followed by the rounding keeps a bound
    that is a multiple of the new unit. *)
Lemma round_stage_bound (m e N K : Z) (l : location) :
  0 <= m -> e <= K -> -1074 <= K -> 0 <= N < 2 ^ 53 ->
  match l with loc_Exact => m | _ => m + 1 end <= N * 2 ^ (K - e) ->
  let r := shr_fexp 53 1024 m e l in
  snd r <= K
  /\ 0 <= shr_m (fst r)
  /\ shr_m (fst r)
     <= round_nearest_even (shr_m (fst r)) (loc_of_shr_record (fst r))
  /\ round_nearest_even (shr_m (fst r)) (loc_of_shr_record (fst r))
     <= N * 2 ^ (K - snd r).
Proof.
  intros Hm He HK HN Hle. cbv zeta. unfold shr_fexp.
  set (n := fexp 53 1024 (Zdigits2 m + e) - e).
  destruct (shr_spec m l e n Hm) as (Hsnd & Hfst & Hsame & Hexact).
  set (r := shr (shr_record_of_loc m l) e n) in *.
  rewrite Hsnd, Hfst.
  set (p := Z.max n 0) in *.
  assert (Hp : 0 <= p) by (unfold p; lia).
  assert (Hmle : m <= N * 2 ^ (K - e)) by (destruct l; lia).
  assert (Hep : e + p <= K).
  { unfold p, n.
    pose proof (digits_le_of_bound m N (K - e) Hm ltac:(lia) HN Hmle).
    unfold fexp, emin. lia. }
  split; [exact Hep|].
  assert (H2p : 0 < 2 ^ p) by (apply Z.pow_pos_nonneg; lia).
  assert (Hcap : N * 2 ^ (K - e) = N * 2 ^ (K - (e + p)) * 2 ^ p).
  { rewrite <- Z.mul_assoc, <- Z.pow_add_r by lia. do 2 f_equal. lia. }
  set (B := N * 2 ^ (K - (e + p))) in *.
  pose proof (Z.div_mod m (2 ^ p) ltac:(lia)) as Hdm.
  pose proof (Z.mod_pos_bound m (2 ^ p) H2p) as Hmod.
  set (m1 := m / 2 ^ p) in *. set (rm := m mod 2 ^ p) in *.
  assert (Hm1 : 0 <= m1) by (apply Z.div_pos; lia).
  destruct (round_nearest_even_bounds m1 (loc_of_shr_record (fst r)))
    as [[Hlo Hhi] Hsameround].
  split; [exact Hm1|]. split; [exact Hlo|].
  destruct (Z.eq_dec rm 0) as [Hz|Hnz].
  - destruct l as [|c].
    + rewrite Hsameround; [nia|]. apply Hexact; [reflexivity|].
      exists m1. lia.
    + nia.
  - destruct l as [|c]; nia.
Qed.

(** The rounded result stays within a bound [N * 2^K] on the exact
    value, and does not overflow. *)
Lemma binary_round_aux_bound (s : bool) (m e N K : Z) (l : location) :
  0 <= m -> e <= K -> -1074 <= K <= 971 -> 0 <= N < 2 ^ 53 ->
  match l with loc_Exact => m | _ => m + 1 end <= N * 2 ^ (K - e) ->
  bounded_by N K (binary_round_aux 53 1024 s m e l).
Proof.
  intros Hm He HK HN Hle. unfold binary_round_aux.
  pose proof (round_stage_bound m e N K l Hm He ltac:(lia) HN Hle) as H1.
  cbv zeta in H1.
  destruct (shr_fexp 53 1024 m e l) as [mrs' e'] eqn:E1.
  cbn [fst snd] in H1. destruct H1 as (He' & Hm0 & Hlo & Hhi).
  set (m1 := round_nearest_even (shr_m mrs') (loc_of_shr_record mrs')) in *.
  pose proof (round_stage_bound m1 e' N K loc_Exact ltac:(lia) He'
                ltac:(lia) HN Hhi) as H2.
  cbv zeta in H2.
  destruct (shr_fexp 53 1024 m1 e' loc_Exact) as [mrs'' e''] eqn:E2.
  cbn [fst snd] in H2. destruct H2 as (He'' & Hm0' & Hlo' & Hhi').
  destruct (shr_m mrs'') as [|p|p] eqn:Hm''; try lia.
  - exact I.
  - replace (e'' <=? 1024 - 53) with true by (symmetry; apply Z.leb_le; lia).
    cbn [bounded_by]. split; [exact He''|lia].
Qed.

Lemma bounded_by_weaken (N K N' K' : Z) (f : Py.float) :
  bounded_by N K f -> K <= K' -> N <= N' * 2 ^ (K' - K) ->
  bounded_by N' K' f.
Proof.
  destruct f as [s|s| |s m e]; cbn [bounded_by]; auto.
  intros [He Hm] HK HN. split; [lia|].
  assert (Hp : 0 < 2 ^ (K - e)) by (apply Z.pow_pos_nonneg; lia).
  replace (K' - e) with ((K' - K) + (K - e)) by lia.
  rewrite Z.pow_add_r by lia. nia.
Qed.

Lemma bounded_by_mono (N N' K : Z) (f : Py.float) :
  bounded_by N K f -> N <= N' -> bounded_by N' K f.
Proof.
  intros H HN. apply (bounded_by_weaken N K N' K f H); [lia|].
  rewrite Z.sub_diag. change (2 ^ 0) with 1. lia.
Qed.

Lemma bounded_by_finite (N K : Z) (f : Py.float) :
  bounded_by N K f -> Py.is_finite f = true.
Proof. destruct f; cbn; auto; contradiction. Qed.

Lemma bounded_by_abs (N K : Z) (f : Py.float) :
  bounded_by N K f -> bounded_by N K (Py.fabs f).
Proof. destruct f; cbn; auto. Qed.

Lemma iter_xO_value (m d : positive) :
  Z.pos (Pos.iter xO m d) = Z.pos m * 2 ^ Z.pos d.
Proof.
  induction d as [|d IH] using Pos.peano_ind.
  - cbn [Pos.iter]. lia.
  - rewrite Pos.iter_succ, Pos2Z.inj_xO, IH, Pos2Z.inj_succ, Z.pow_succ_r by lia.
    lia.
Qed.

(** The alignment to a smaller exponent keeps the value. *)
Lemma shl_align_spec (mx : positive) (ex ex' : Z) :
  snd (shl_align mx ex ex') <= ex
  /\ Z.pos (fst (shl_align mx ex ex'))
     = Z.pos mx * 2 ^ (ex - snd (shl_align mx ex ex'))
  /\ (ex' <= ex -> snd (shl_align mx ex ex') = ex').
Proof.
  unfold shl_align. destruct (ex' - ex) as [|d|d] eqn:Hd; cbn [fst snd].
  - rewrite Z.sub_diag. change (2 ^ 0) with 1. lia.
  - rewrite Z.sub_diag. change (2 ^ 0) with 1. lia.
  - rewrite iter_xO_value. replace (ex - ex') with (Z.pos d) by lia. lia.
Qed.

Lemma binary_normalize_bound (m e N K : Z) (sz : bool) :
  e <= K -> -1074 <= K <= 971 -> 0 <= N < 2 ^ 53 ->
  Z.abs m <= N * 2 ^ (K - e) ->
  bounded_by N K (binary_normalize 53 1024 m e sz).
Proof.
  intros He HK HN Hm.
  assert (Hround : forall s p, Z.pos p <= N * 2 ^ (K - e) ->
                     bounded_by N K (binary_round 53 1024 s p e)).
  { intros s p Hp. unfold binary_round.
    destruct (shl_align_spec p e (fexp 53 1024 (Z.pos (digits2_pos p) + e)))
      as (Hle & Hval & _).
    destruct (shl_align p e _) as [mz ez]. cbn [fst snd] in *.
    apply binary_round_aux_bound; try lia.
    rewrite Hval.
    assert (Hp2 : 0 < 2 ^ (e - ez)) by (apply Z.pow_pos_nonneg; lia).
    replace (K - ez) with ((K - e) + (e - ez)) by lia.
    rewrite Z.pow_add_r by lia. nia. }
  destruct m as [|p|p]; cbn [binary_normalize]; [exact I| |];
    apply Hround; lia.
Qed.

Lemma aligned_sum_bound (sx sy : bool) (mx my : positive) (ex ey Na Nb K : Z)
  (sub : bool) :
  ex <= K -> ey <= K -> 0 <= Na -> 0 <= Nb ->
  Z.pos mx <= Na * 2 ^ (K - ex) -> Z.pos my <= Nb * 2 ^ (K - ey) ->
  let ez := Z.min ex ey in
  let a := cond_Zopp sx (Z.pos (fst (shl_align mx ex ez))) in
  let b := cond_Zopp sy (Z.pos (fst (shl_align my ey ez))) in
  Z.abs (if sub then a - b else a + b) <= (Na + Nb) * 2 ^ (K - ez).
Proof.
  intros Hex Hey HNa HNb Hmx Hmy ez a b.
  destruct (shl_align_spec mx ex ez) as (_ & Hva & Hea).
  destruct (shl_align_spec my ey ez) as (_ & Hvb & Heb).
  rewrite Hea in Hva by (unfold ez; lia).
  rewrite Heb in Hvb by (unfold ez; lia).
  assert (Ha : Z.abs a <= Na * 2 ^ (K - ez)).
  { unfold a. rewrite Hva.
    assert (Hp2 : 0 < 2 ^ (ex - ez))
      by (apply Z.pow_pos_nonneg; unfold ez; lia).
    replace (K - ez) with ((K - ex) + (ex - ez)) by lia.
    rewrite Z.pow_add_r by (unfold ez; lia).
    destruct sx; cbn [cond_Zopp]; nia. }
  assert (Hb : Z.abs b <= Nb * 2 ^ (K - ez)).
  { unfold b. rewrite Hvb.
    assert (Hp2 : 0 < 2 ^ (ey - ez))
      by (apply Z.pow_pos_nonneg; unfold ez; lia).
    replace (K - ez) with ((K - ey) + (ey - ez)) by lia.
    rewrite Z.pow_add_r by (unfold ez; lia).
    destruct sy; cbn [cond_Zopp]; nia. }
  destruct sub; lia.
Qed.

(** A sum of two bounded floats is bounded by the sum of the bounds. *)
Lemma fadd_bounded (a b : Py.float) (Na Nb K : Z) :
  bounded_by Na K a -> bounded_by Nb K b ->
  0 <= Na -> 0 <= Nb -> Na + Nb < 2 ^ 53 -> -1074 <= K <= 971 ->
  bounded_by (Na + Nb) K (Py.fadd a b).
Proof.
  intros Ha Hb HNa HNb HN HK.
  destruct a as [sa|sa| |sa ma ea]; try contradiction;
    destruct b as [sb|sb| |sb mb eb]; try contradiction.
  - destruct sa, sb; exact I.
  - apply (bounded_by_mono Nb); [exact Hb|lia].
  - apply (bounded_by_mono Na); [exact Ha|lia].
  - destruct Ha as [Hea Hma], Hb as [Heb Hmb].
    unfold Py.fadd, Py.prec, Py.emax, SFadd.
    apply binary_normalize_bound; try lia.
    apply (aligned_sum_bound sa sb ma mb ea eb Na Nb K false); assumption.
Qed.

Lemma fsub_bounded (a b : Py.float) (Na Nb K : Z) :
  bounded_by Na K a -> bounded_by Nb K b ->
  0 <= Na -> 0 <= Nb -> Na + Nb < 2 ^ 53 -> -1074 <= K <= 971 ->
  bounded_by (Na + Nb) K (Py.fsub a b).
Proof.
  intros Ha Hb HNa HNb HN HK.
  destruct a as [sa|sa| |sa ma ea]; try contradiction;
    destruct b as [sb|sb| |sb mb eb]; try contradiction.
  - destruct sa, sb; exact I.
  - apply (bounded_by_mono Nb); [exact Hb|lia].
  - apply (bounded_by_mono Na); [exact Ha|lia].
  - destruct Ha as [Hea Hma], Hb as [Heb Hmb].
    unfold Py.fsub, Py.prec, Py.emax, SFsub.
    apply binary_normalize_bound; try lia.
    apply (aligned_sum_bound sa sb ma mb ea eb Na Nb K true); assumption.
Qed.

(** The conversion of an int of at most 53 bits. *)
Lemma float_of_Z_bounded (z : Z) :
  Z.abs z < 2 ^ 53 -> bounded_by (Z.abs z) 0 (Py.float_of_Z z).
Proof.
  intros Hz. unfold Py.float_of_Z, Py.prec, Py.emax.
  apply binary_normalize_bound; lia.
Qed.

Lemma float_of_int_returns (z : Z) :
  Z.abs z < 2 ^ 53 ->
  exists f, Py.float_of_int z = Ok f /\ bounded_by (Z.abs z) 0 f.
Proof.
  intros Hz. pose proof (float_of_Z_bounded z Hz) as Hb.
  unfold Py.float_of_int.
  destruct (Py.float_of_Z z) as [s|s| |s m e] eqn:E; try contradiction;
    cbn [Py.is_infinity]; eauto.
Qed.

Lemma shift_by_cases (m s : Z) :
  0 <= s ->
  match s with
  | 0 => m
  | Z.pos _ => Z.shiftl m s
  | Z.neg _ => 0
  end = m * 2 ^ s.
Proof.
  intros Hs. destruct s as [|p|p].
  - change (2 ^ 0) with 1. lia.
  - now rewrite Z.shiftl_mul_pow2 by lia.
  - lia.
Qed.

(** The quotient of a bounded float by a float of value at least 1. *)
Lemma fdiv_bounded (a : Py.float) (sy : bool) (my : positive) (ey N K : Z) :
  bounded_by N K a -> 0 <= N < 2 ^ 53 ->
  -52 <= ey <= 0 -> 2 ^ (- ey) <= Z.pos my ->
  -1074 <= K -> K + 53 <= 971 ->
  bounded_by 1 (K + 53) (Py.fdiv a (S754_finite sy my ey)).
Proof.
  intros Ha HN Hey Hmy HK HK'.
  destruct a as [sa|sa| |sa ma ea]; try contradiction; [exact I|].
  destruct Ha as [Hea Hma].
  unfold Py.fdiv, Py.prec, Py.emax, SFdiv, SFdiv_core_binary.
  set (e' := Z.min (fexp 53 1024 (Zdigits2 (Z.pos ma) + ea
                                  - (Zdigits2 (Z.pos my) + ey))) (ea - ey)).
  set (s := ea - ey - e').
  assert (Hs : 0 <= s) by (unfold s, e'; lia).
  set (m' := match s with
             | 0 => Z.pos ma
             | Z.pos _ => Z.shiftl (Z.pos ma) s
             | Z.neg _ => 0
             end).
  assert (Hm' : m' = Z.pos ma * 2 ^ s) by (apply shift_by_cases; exact Hs).
  pose proof (Z_div_mod m' (Z.pos my) ltac:(lia)) as Hdiv.
  destruct (Z.div_eucl m' (Z.pos my)) as [q r]. destruct Hdiv as [Hq Hr].
  assert (H2s : 0 < 2 ^ s) by (apply Z.pow_pos_nonneg; lia).
  assert (Hq0 : 0 <= q) by nia.
  assert (He'K : e' <= K + 53) by (unfold e'; lia).
  (* m' < my * 2^(K + 53 - e') *)
  assert (Hcap : m' < Z.pos my * 2 ^ (K + 53 - e')).
  { rewrite Hm'.
    assert (Hp1 : 0 < 2 ^ (K - ea)) by (apply Z.pow_pos_nonneg; lia).
    assert (Hp2 : 0 < 2 ^ (- ey)) by (apply Z.pow_pos_nonneg; lia).
    assert (Hlt : Z.pos ma * 2 ^ s < 2 ^ 53 * 2 ^ (K - ea) * 2 ^ s) by nia.
    assert (Hp3 : 0 < 2 ^ (K + 53 - e')) by (apply Z.pow_pos_nonneg; lia).
    assert (Heq : 2 ^ 53 * 2 ^ (K - ea) * 2 ^ s
                  = 2 ^ (- ey) * 2 ^ (K + 53 - e')).
    { rewrite <- !Z.pow_add_r by lia. f_equal. unfold s. lia. }
    nia. }
  assert (Hq1 : q + 1 <= 1 * 2 ^ (K + 53 - e')).
  { assert (Hp : 0 < 2 ^ (K + 53 - e')) by (apply Z.pow_pos_nonneg; lia).
    nia. }
  apply binary_round_aux_bound; try lia.
  destruct (new_location (Z.pos my) r); lia.
Qed.

(** The quotient of two ints of at most 53 bits is a double. *)
Lemma float_of_ratio_small (a b : Z) :
  Z.abs a < 2 ^ 53 -> 0 < b < 2 ^ 53 ->
  Py.is_finite (Py.float_of_ratio a b) = true.
Proof.
  intros Ha Hb. destruct b as [|q|q]; try lia.
  destruct a as [|p|p]; cbn [Py.float_of_ratio]; [reflexivity| |];
    apply (bounded_by_finite 1 53);
    apply (fdiv_bounded _ false q 0 (Z.pos p) 0);
    cbn [bounded_by]; change (2 ^ (0 - 0)) with 1;
      change (2 ^ (- 0)) with 1; lia.
Qed.

(** ** Returning on the points of a history *)

Lemma finite_not_infinity (f : Py.float) :
  Py.is_finite f = true -> Py.is_infinity f = false.
Proof. destruct f; cbn; congruence. Qed.

Lemma to_float_small (B : Z) (v : Py.num) :
  small_or_float B v -> B < 2 ^ 53 -> exists f, Py.to_float v = Ok f.
Proof.
  destruct v as [z|f]; cbn [small_or_float Py.to_float]; intros Hv HB;
    [|eauto].
  destruct (float_of_int_returns z) as (f & Hf & _); [lia|eauto].
Qed.

Lemma index_small (x : Py.num) :
  index_or_float x = true -> small_or_float (2 ^ 26) x.
Proof.
  destruct x as [z|f]; cbn; [|auto]. intros H.
  apply andb_true_iff in H. destruct H as [H0 H1].
  apply Z.leb_le in H0. apply Z.ltb_lt in H1. lia.
Qed.

Lemma add_small (A B : Z) (a b : Py.num) :
  small_or_float A a -> small_or_float B b -> A + B < 2 ^ 53 ->
  0 <= A -> 0 <= B ->
  exists c, Py.add a b = Ok c /\ small_or_float (A + B) c.
Proof.
  intros Ha Hb HAB HA HB.
  destruct (to_float_small A a Ha ltac:(lia)) as [fa Hfa].
  destruct (to_float_small B b Hb ltac:(lia)) as [fb Hfb].
  destruct a as [x|fx], b as [y|fy]; unfold Py.add.
  - eexists. split; [reflexivity|]. cbn in *. lia.
  - rewrite Hfa. cbn [Py.to_float bind]. eexists. split; [reflexivity|exact I].
  - rewrite Hfb. cbn [Py.to_float bind]. eexists. split; [reflexivity|exact I].
  - cbn [Py.to_float bind]. eexists. split; [reflexivity|exact I].
Qed.

Lemma sum_from_small (B : Z) (l : list Py.num) :
  Forall (small_or_float B) l -> 0 <= B ->
  forall acc A,
    small_or_float A acc -> 0 <= A ->
    A + Z.of_nat (List.length l) * B < 2 ^ 53 ->
    exists t,
      Py.sum_from (fun v => Ok v) acc l = Ok t
      /\ small_or_float (A + Z.of_nat (List.length l) * B) t.
Proof.
  intros Hl HB. induction Hl as [|x l Hx Hl IH]; intros acc A Hacc HA Hsum.
  - exists acc. cbn [Py.sum_from List.length]. split; [reflexivity|].
    replace (A + Z.of_nat 0 * B) with A by lia. exact Hacc.
  - cbn [List.length] in *. rewrite Nat2Z.inj_succ in *.
    destruct (add_small A B acc x Hacc Hx ltac:(nia) HA HB) as (c & Hc & Hcs).
    destruct (IH c (A + B) Hcs ltac:(lia) ltac:(nia)) as (t & Ht & Hts).
    exists t. cbn [Py.sum_from bind]. rewrite Hc. cbn [bind].
    split; [exact Ht|].
    replace (A + Z.succ (Z.of_nat (List.length l)) * B)
      with (A + B + Z.of_nat (List.length l) * B) by lia.
    exact Hts.
Qed.

Lemma truediv_small_by_len (A : Z) (t : Py.num) (n : Z) :
  small_or_float A t -> A < 2 ^ 53 -> 0 < n < 2 ^ 53 ->
  exists q, Py.truediv t (Py.Int n) = Ok (Py.Flt q).
Proof.
  intros Ht HA Hn. destruct t as [z|f]; [|now apply truediv_by_len].
  cbn in Ht. unfold Py.truediv.
  replace (n =? 0) with false by (symmetry; apply Z.eqb_neq; lia).
  cbv zeta.
  rewrite (finite_not_infinity _ (float_of_ratio_small z n ltac:(lia) Hn)).
  eauto.
Qed.

Lemma deltas_of_small (xs : list Py.num) :
  Forall (fun x => index_or_float x = true) xs ->
  exists ds,
    deltas_of xs = Ok ds /\ Forall (small_or_float (2 ^ 26)) ds.
Proof.
  induction xs as [|a [|b tl] IH]; intros H.
  - exists []. split; [reflexivity|constructor].
  - exists []. split; [reflexivity|constructor].
  - rewrite deltas_of_cons2.
    inversion H as [|a' l' Ha Htl]; subst.
    destruct (IH Htl) as (ds & Hds & Hsm).
    inversion Htl as [|b' l'' Hb _]; subst.
    pose proof (index_small a Ha) as Hsa.
    pose proof (index_small b Hb) as Hsb.
    destruct (to_float_small _ a Hsa ltac:(lia)) as [fa Hfa].
    destruct (to_float_small _ b Hsb ltac:(lia)) as [fb Hfb].
    rewrite Hds.
    destruct a as [x|fx], b as [y|fy]; unfold Py.sub.
    + cbn [bind]. eexists. split; [reflexivity|].
      constructor; [|exact Hsm]. cbn in *.
      apply andb_true_iff in Ha, Hb. destruct Ha as [Ha0 Ha1], Hb as [Hb0 Hb1].
      apply Z.leb_le in Ha0, Hb0. apply Z.ltb_lt in Ha1, Hb1. lia.
    + rewrite Hfa. cbn [Py.to_float bind]. eexists. split; [reflexivity|].
      constructor; [exact I|exact Hsm].
    + rewrite Hfb. cbn [Py.to_float bind]. eexists. split; [reflexivity|].
      constructor; [exact I|exact Hsm].
    + cbn [Py.to_float bind]. eexists. split; [reflexivity|].
      constructor; [exact I|exact Hsm].
Qed.

Lemma last_index_or_float (xs : list Py.num) :
  Forall (fun x => index_or_float x = true) xs ->
  index_or_float (last xs (Py.Int 0)) = true.
Proof.
  induction 1 as [|x l Hx Hl IH]; [reflexivity|].
  destruct l as [|y l']; [exact Hx|exact IH].
Qed.

Lemma history_points_coordinates (points : list point) :
  history_points points ->
  Forall (fun x => index_or_float x = true) (map fst points)
  /\ Forall (fun y => is_flt y = true) (map snd points).
Proof.
  induction 1 as [|p l [Hx Hy] _ [IHx IHy]]; split; constructor; assumption.
Qed.

(** On the points of a history, fewer than 2^26 of them, the fit
    returns as soon as no squared deviation leaves the range. *)
Lemma regression_fit_returns {libm : Py.c_pow} (points : list point) :
  (2 <= List.length points)%nat ->
  Z.of_nat (List.length points) < 2 ^ 26 ->
  history_points points ->
  squares_in_range libm points ->
  returns (regression_fit libm points).
Proof.
  intros Hn Hlen Hhp Hsq. unfold point in *.
  destruct (history_points_coordinates points Hhp) as [Hxs Hys].
  assert (Hne : points <> []) by (destruct points; simpl in Hn; [lia|congruence]).
  assert (Hxne : map fst points <> []) by (destruct points; [congruence|discriminate]).
  assert (Hyne : map snd points <> []) by (destruct points; [congruence|discriminate]).
  assert (Hxsm : Forall (small_or_float (2 ^ 26)) (map fst points)).
  { eapply Forall_impl; [|exact Hxs]. apply index_small. }
  assert (Hprod : forall k, 0 <= k < 2 ^ 26 -> 0 + k * 2 ^ 26 < 2 ^ 53).
  { intros k Hk. change (2 ^ 26) with 67108864 in *.
    change (2 ^ 53) with 9007199254740992. lia. }
  assert (H26 : 0 < 2 ^ 26 < 2 ^ 53) by (split; reflexivity).
  destruct (sum_from_small (2 ^ 26) (map fst points) Hxsm ltac:(lia)
              (Py.Int 0) 0) as (sx & Hsx & Hsxs);
    [cbn; lia|lia|rewrite length_map; apply Hprod; lia|].
  rewrite length_map in Hsxs.
  destruct (truediv_small_by_len _ sx (Z.of_nat (List.length points)) Hsxs)
    as [xm Hxm]; [apply Hprod; lia|lia|].
  destruct (sum_floats_returns _ Hys Hyne) as [sy Hsy].
  destruct (truediv_by_len sy (Z.of_nat (List.length points))) as [ym Hym];
    [lia|].
  (* the numerator *)
  destruct (sum_from_returns
              (fun p : point =>
                 dx <- Py.sub (fst p) (Py.Flt xm) ;;
                 dy <- Py.sub (snd p) (Py.Flt ym) ;; Py.mul dx dy)
              points) with (acc := Py.Int 0)
    as (nm & Hnm & Hnmok & _); [|reflexivity|].
  { intros p Hp. unfold history_points in Hhp. rewrite Forall_forall in Hhp.
    destruct (Hhp p Hp) as [Hx Hy].
    destruct (to_float_small _ _ (index_small _ Hx) ltac:(lia)) as [fx Hfx].
    rewrite sub_float_r, Hfx. cbn [bind].
    destruct (snd p) as [|fy]; [discriminate|].
    unfold Py.sub, Py.mul. cbn [Py.to_float bind]. eauto. }
  (* the denominator *)
  assert (Hmean : (sx0 <- Py.sum (map fst points) ;;
                   Py.truediv sx0 (Py.len points)) = Ok (Py.Flt xm)).
  { unfold Py.sum, Py.sum_with. rewrite Hsx. cbn [bind]. exact Hxm. }
  destruct (sum_from_returns
              (fun x => dx <- Py.sub x (Py.Flt xm) ;; Py.pow2 libm dx)
              (map fst points)) with (acc := Py.Int 0)
    as (dn & Hdn & _ & Hdnf); [|reflexivity|].
  { intros x Hx. apply in_map_iff in Hx. destruct Hx as (p & <- & Hp).
    destruct (Hsq _ Hmean p Hp) as [t Ht].
    destruct (den_term_finite _ _ _ Ht) as [Hflt _].
    destruct t as [|ft]; [discriminate|]. eauto. }
  specialize (Hdnf Hxne). destruct dn as [|fd]; [discriminate|].
  (* the slope *)
  assert (Hsl : exists sl,
             (if Py.ne (Py.Flt fd) (Py.Int 0)
              then Py.truediv nm (Py.Flt fd) else Ok (Py.Int 0)) = Ok sl
             /\ float_or_zero sl = true).
  { destruct (Py.ne (Py.Flt fd) (Py.Int 0)) eqn:Hnz.
    - apply ne_zero_float in Hnz.
      destruct (to_float_float_or_zero nm Hnmok) as [fn Hfn].
      exists (Py.Flt (Py.fdiv fn fd)). split; [|reflexivity].
      destruct nm; unfold Py.truediv; rewrite Hfn; cbn [bind];
        rewrite Hnz; reflexivity.
    - exists (Py.Int 0). split; reflexivity. }
  destruct Hsl as (sl & Hsl & Hslok).
  destruct (to_float_float_or_zero sl Hslok) as [fs Hfs].
  (* the deltas and the next x *)
  destruct (deltas_of_small _ Hxs) as (ds & Hds & Hdss).
  assert (Hdslen : List.length ds = Nat.pred (List.length points)).
  { rewrite (deltas_of_length _ _ Hds). now rewrite length_map. }
  assert (Hdspos : (1 <= List.length ds)%nat /\
                   Z.of_nat (List.length ds) < 2 ^ 26).
  { rewrite Hdslen. destruct points as [|p [|q rest]]; simpl in Hn |- *;
      try lia.
    simpl in Hlen. lia. }
  destruct (sum_from_small (2 ^ 26) ds Hdss ltac:(lia) (Py.Int 0) 0)
    as (sd & Hsd & Hsds); [cbn; lia|lia|apply Hprod; lia|].
  destruct (truediv_small_by_len _ sd (Z.of_nat (List.length ds)) Hsds)
    as [gap Hgap]; [apply Hprod; lia|lia|].
  destruct (to_float_small _ _
              (index_small _ (last_index_or_float _ Hxs)) ltac:(lia))
    as [fl Hfl'].
  (* putting the steps together *)
  unfold returns, regression_fit, Py.len. cbv zeta. unfold point in *.
  unfold Py.sum at 1, Py.sum_with at 1. rewrite Hsx. cbn [bind].
  rewrite Hxm. cbn [bind].
  rewrite Hsy. cbn [bind]. rewrite Hym. cbn [bind].
  unfold Py.sum_with. rewrite Hnm. cbn [bind]. rewrite Hdn. cbn [bind].
  rewrite Hsl. cbn [bind].
  rewrite mul_float_r, Hfs. cbn [bind].
  unfold Py.sub at 1. cbn [Py.to_float bind].
  rewrite Hds. cbn [bind]. unfold Py.sum, Py.sum_with. rewrite Hsd. cbn [bind].
  rewrite Hgap. cbn [bind].
  rewrite add_float_r, Hfl'. cbn [bind].
  rewrite mul_float_r, Hfs. cbn [bind].
  unfold Py.add. cbn [Py.to_float bind].
  eexists. reflexivity.
Qed.

(** ** The squared deviations and the result *)

Lemma sum_from_terms_return {A : Type} (f : A -> result Py.num) (l : list A) :
  forall acc t,
    Py.sum_from f acc l = Ok t -> forall x, In x l -> returns (f x).
Proof.
  induction l as [|y l IH]; intros acc t H x Hx; [destruct Hx|].
  cbn [Py.sum_from] in H. bind_inv H v Hv. bind_inv H acc' Hacc'.
  destruct Hx as [<-|Hx]; [eexists; exact Hv|].
  exact (IH _ _ H x Hx).
Qed.

(** When the fit returns, no squared deviation left the range. *)
Lemma fit_squares_in_range {libm : Py.c_pow} (points : list point) (ft : fit) :
  regression_fit libm points = Ok ft -> squares_in_range libm points.
Proof.
  intros H xm Hmean p Hp. unfold regression_fit in H.
  bind_inv H sx Hsx. bind_inv H xm' Hxm. bind_inv H sy Hsy.
  bind_inv H ym Hym. bind_inv H nm Hnm. bind_inv H dn Hdn.
  rewrite Hsx in Hmean. cbn [bind] in Hmean. rewrite Hxm in Hmean.
  injection Hmean as <-.
  unfold Py.sum_with in Hdn.
  exact (sum_from_terms_return _ _ _ _ Hdn (fst p) (in_map fst _ _ Hp)).
Qed.

(** On the points of a history, fewer than 2^26 and at least two, the
    predictor returns exactly when no squared deviation leaves the
    range, and raises [OverflowError] otherwise. *)
Lemma history_returns_iff {libm : Py.c_pow} (points : list point) :
  (2 <= List.length points)%nat ->
  Z.of_nat (List.length points) < 2 ^ 26 ->
  history_points points ->
  (returns (linear_regression_predict libm points)
   <-> squares_in_range libm points)
  /\ (~ squares_in_range libm points ->
      linear_regression_predict libm points = Raise OverflowError).
Proof.
  intros Hn Hlen Hhp.
  assert (Hiff : returns (linear_regression_predict libm points)
                 <-> squares_in_range libm points).
  { destruct points as [|p [|q rest]]; simpl in Hn; try lia.
    rewrite predict_from_two. split.
    - intros [v Hv]. bind_inv Hv ft Hft.
      exact (fit_squares_in_range _ ft Hft).
    - intros Hsq.
      destruct (regression_fit_returns (libm:=libm) (p :: q :: rest))
        as [ft Hft]; try assumption; try (simpl; lia).
      rewrite Hft. eexists. reflexivity. }
  split; [exact Hiff|]. intros Hnot.
  assert (Hov : raises_only_overflow (linear_regression_predict libm points)).
  { destruct points as [|p [|q rest]]; simpl in Hn; try lia.
    rewrite predict_from_two.
    apply bind_only_overflow;
      [apply regression_fit_only_overflow; simpl; lia|].
    intros ft _. exact I. }
  destruct (linear_regression_predict libm points) as [v|e] eqn:E.
  - exfalso. apply Hnot, Hiff. eexists. reflexivity.
  - cbn in Hov. now subst.
Qed.

(** ** Histories of moderate x-values *)

(** The conversion of a positive int of at most 53 bits, in detail. *)
Lemma float_of_Z_repr (p : positive) :
  Z.pos p < 2 ^ 53 ->
  exists m e,
    Py.float_of_Z (Z.pos p) = S754_finite false m e
    /\ -52 <= e <= 0 /\ 2 ^ (- e) <= Z.pos m.
Proof.
  intros Hp.
  pose proof (digits2_bounds p) as [Hlo _].
  assert (Hd : Z.pos (digits2_pos p) <= 53).
  { destruct (Z_le_gt_dec (Z.pos (digits2_pos p)) 53) as [H|H]; [exact H|].
    exfalso.
    assert (2 ^ 53 <= 2 ^ (Z.pos (digits2_pos p) - 1))
      by (apply Z.pow_le_mono_r; lia).
    lia. }
  unfold Py.float_of_Z, Py.prec, Py.emax, binary_normalize, binary_round.
  replace (fexp 53 1024 (Z.pos (digits2_pos p) + 0))
    with (Z.pos (digits2_pos p) - 53) by (unfold fexp, emin; lia).
  unfold shl_align.
  destruct (Z.pos (digits2_pos p) - 53 - 0) as [|k|k] eqn:Hk; try lia.
  - rewrite binary_round_aux_exact by lia.
    exists p, 0. split; [reflexivity|]. split; [lia|].
    change (2 ^ (- 0)) with 1. lia.
  - rewrite binary_round_aux_exact.
    + exists (Pos.iter xO p k), (Z.pos (digits2_pos p) - 53).
      split; [reflexivity|]. split; [lia|].
      rewrite iter_xO_value.
      replace (- (Z.pos (digits2_pos p) - 53)) with (Z.pos k) by lia.
      assert (0 < 2 ^ Z.pos k) by (apply Z.pow_pos_nonneg; lia). nia.
    + rewrite digits2_iter_xO, Pos2Z.inj_add. lia.
    + lia.
Qed.

Lemma to_float_moderate (x : Py.num) :
  moderate_x x -> exists f, Py.to_float x = Ok f /\ bounded_by 1 64 f.
Proof.
  destruct x as [z|f]; cbn [moderate_x Py.to_float]; intros H; [|eauto].
  assert (H26 : 2 ^ 26 < 2 ^ 53) by reflexivity.
  destruct (float_of_int_returns z) as (f & Hf & Hb); [lia|].
  exists f. split; [exact Hf|].
  apply (bounded_by_weaken _ _ 1 64 _ Hb); [lia|].
  change (2 ^ (64 - 0)) with (2 ^ 26 * 2 ^ 38).
  assert (0 < 2 ^ 38) by reflexivity. nia.
Qed.

Lemma to_float_acc_bounded (k : Z) (acc : Py.num) :
  acc_bounded k acc -> 0 <= k < 2 ^ 26 ->
  exists f, Py.to_float acc = Ok f /\ bounded_by k 64 f.
Proof.
  destruct acc as [s|f]; cbn [acc_bounded Py.to_float]; intros H Hk; [|eauto].
  assert (Hs : s < 2 ^ 53).
  { change (2 ^ 53) with (2 ^ 26 * 2 ^ 26 * 2). assert (0 < 2 ^ 26) by reflexivity.
    nia. }
  destruct (float_of_int_returns s) as (f & Hf & Hb); [lia|].
  exists f. split; [exact Hf|].
  apply (bounded_by_weaken _ _ k 64 _ Hb); [lia|].
  change (2 ^ (64 - 0)) with (2 ^ 26 * 2 ^ 38).
  assert (0 < 2 ^ 38) by reflexivity. assert (0 < 2 ^ 26) by reflexivity. nia.
Qed.

Lemma add_bounded (k : Z) (acc x : Py.num) :
  acc_bounded k acc -> moderate_x x -> 0 <= k -> k + 1 < 2 ^ 26 ->
  exists c, Py.add acc x = Ok c /\ acc_bounded (k + 1) c.
Proof.
  intros Hacc Hx Hk Hk1.
  assert (H26 : 2 ^ 26 < 2 ^ 53) by reflexivity.
  destruct (to_float_acc_bounded k acc Hacc ltac:(lia)) as (fa & Hfa & Hba).
  destruct (to_float_moderate x Hx) as (fx & Hfx & Hbx).
  assert (Hsum : bounded_by (k + 1) 64 (Py.fadd fa fx))
    by (apply fadd_bounded; assumption || lia).
  destruct acc as [s|f], x as [z|g]; unfold Py.add.
  - eexists. split; [reflexivity|]. cbn in *. lia.
  - rewrite Hfa. cbn [Py.to_float bind] in *. injection Hfx as <-.
    eexists. split; [reflexivity|exact Hsum].
  - rewrite Hfx. cbn [Py.to_float bind] in *. injection Hfa as <-.
    eexists. split; [reflexivity|exact Hsum].
  - cbn [Py.to_float bind] in *. injection Hfa as <-. injection Hfx as <-.
    eexists. split; [reflexivity|exact Hsum].
Qed.

Lemma sum_from_bounded (l : list Py.num) :
  Forall moderate_x l ->
  forall k acc,
    acc_bounded k acc -> 0 <= k ->
    k + Z.of_nat (List.length l) < 2 ^ 26 ->
    exists t,
      Py.sum_from (fun v => Ok v) acc l = Ok t
      /\ acc_bounded (k + Z.of_nat (List.length l)) t.
Proof.
  induction 1 as [|x l Hx Hl IH]; intros k acc Hacc Hk Hlen.
  - exists acc. cbn [Py.sum_from List.length]. split; [reflexivity|].
    now replace (k + Z.of_nat 0) with k by lia.
  - cbn [List.length] in *. rewrite Nat2Z.inj_succ in *.
    destruct (add_bounded k acc x Hacc Hx Hk ltac:(lia)) as (c & Hc & Hcb).
    destruct (IH (k + 1) c Hcb ltac:(lia) ltac:(lia)) as (t & Ht & Htb).
    exists t. cbn [Py.sum_from bind]. rewrite Hc. cbn [bind].
    split; [exact Ht|].
    now replace (k + Z.succ (Z.of_nat (List.length l)))
      with (k + 1 + Z.of_nat (List.length l)) by lia.
Qed.

(** The mean of fewer than 2^26 moderate x-values is at most 2^117 in
    magnitude. *)
Lemma mean_bounded (n : Z) (t : Py.num) :
  acc_bounded n t -> 0 < n < 2 ^ 26 ->
  exists q, Py.truediv t (Py.Int n) = Ok (Py.Flt q) /\ bounded_by 1 117 q.
Proof.
  intros Ht Hn.
  assert (H26 : 2 ^ 26 < 2 ^ 53) by reflexivity.
  unfold Py.truediv.
  replace (n =? 0) with false by (symmetry; apply Z.eqb_neq; lia).
  destruct n as [|pn|pn]; try lia.
  destruct t as [s|f]; cbn [acc_bounded] in Ht.
  - cbv zeta.
    assert (Hq : bounded_by 1 117 (Py.float_of_ratio s (Z.pos pn))).
    { destruct s as [|p|p]; cbn [Py.float_of_ratio]; [exact I| |lia].
      apply (fdiv_bounded _ false pn 0 (Z.pos pn) 64); try lia;
        try (change (2 ^ (- 0)) with 1; lia).
      cbn [bounded_by]. split; [lia|].
      change (2 ^ (64 - 0)) with (2 ^ 26 * 2 ^ 38).
      assert (0 < 2 ^ 38) by reflexivity.
      assert (0 < 2 ^ 26) by reflexivity. nia. }
    rewrite (finite_not_infinity _ (bounded_by_finite _ _ _ Hq)). eauto.
  - destruct (float_of_Z_repr pn ltac:(lia)) as (m & e & Hf & He & Hm).
    unfold Py.float_of_int. rewrite Hf. cbn [Py.is_infinity bind].
    eexists. split; [reflexivity|].
    apply (fdiv_bounded f false m e (Z.pos pn) 64); try lia. exact Ht.
Qed.

(** With a mean of that size, no squared deviation of a moderate
    x-value leaves the range of a library that is quiet up to 2^118. *)
Lemma den_term_returns {libm : Py.c_pow} (x : Py.num) (xm : Py.float) :
  moderate_x x -> bounded_by 1 117 xm -> quiet_up_to libm 118 ->
  returns (dx <- Py.sub x (Py.Flt xm) ;; Py.pow2 libm dx).
Proof.
  intros Hx Hxm Hquiet.
  destruct (to_float_moderate x Hx) as (fx & Hfx & Hbx).
  rewrite sub_float_r, Hfx. cbn [bind].
  assert (Hd : bounded_by 1 118 (Py.fsub fx xm)).
  { apply (bounded_by_weaken (1 + 1) 117); [|lia|reflexivity].
    apply fsub_bounded; try lia; [|exact Hxm].
    apply (bounded_by_weaken _ _ 1 117 _ Hbx); [lia|].
    change (2 ^ (117 - 64)) with (2 ^ 53). assert (0 < 2 ^ 53) by reflexivity.
    lia. }
  specialize (Hquiet _ Hd). unfold Py.pow2.
  destruct (Py.fsub fx xm) as [s|s| |s m e]; try contradiction.
  - eexists. reflexivity.
  - cbn [Py.is_nan Py.is_infinity Py.is_zero].
    destruct (Py.eq _ _); [eexists; reflexivity|].
    destruct (libm _) as [ix erange]. rewrite Hquiet. eexists. reflexivity.
Qed.

Lemma moderate_history (points : list point) :
  moderate_points points -> history_points points.
Proof.
  apply Forall_impl. intros p [Hx Hy]. split; [|exact Hy].
  destruct (fst p) as [z|f]; [|reflexivity]. cbn in *.
  apply andb_true_iff. split; [apply Z.leb_le|apply Z.ltb_lt]; lia.
Qed.

Lemma moderate_squares_in_range {libm : Py.c_pow} (points : list point) :
  points <> [] ->
  Z.of_nat (List.length points) < 2 ^ 26 ->
  moderate_points points ->
  quiet_up_to libm 118 ->
  squares_in_range libm points.
Proof.
  intros Hne Hlen Hmp Hquiet xm Hmean p Hp. unfold point in *.
  assert (Hxs : Forall moderate_x (map fst points)).
  { apply Forall_map. eapply Forall_impl; [|exact Hmp]. now intros q [Hq _]. }
  destruct (sum_from_bounded (map fst points) Hxs 0 (Py.Int 0))
    as (sx & Hsx & Hsxb); [cbn; lia|lia|rewrite length_map; lia|].
  rewrite length_map in Hsxb. cbn [Z.add] in Hsxb.
  assert (Hpos : 0 < Z.of_nat (List.length points))
    by (destruct points; [congruence|cbn [List.length]; lia]).
  destruct (mean_bounded _ sx Hsxb ltac:(lia)) as (q & Hq & Hqb).
  unfold Py.sum, Py.sum_with, Py.len in Hmean. rewrite Hsx in Hmean.
  cbn [bind] in Hmean. rewrite Hq in Hmean. injection Hmean as <-.
  unfold moderate_points in Hmp. rewrite Forall_forall in Hmp.
  destruct (Hmp p Hp) as [Hx _].
  now apply den_term_returns.
Qed.

(** The correctly rounded square does not overflow below 2^118. *)
Lemma rounded_libm_quiet : quiet_up_to rounded_libm 118.
Proof.
  intros f Hf. unfold rounded_libm. cbv zeta.
  cbn [fst snd].
  assert (Hb : bounded_by 1 236 (Py.fmul (Py.fabs f) (Py.fabs f))).
  { destruct f as [s|s| |s m e]; try contradiction; [exact I|].
    destruct Hf as [He Hm]. cbn [Py.fabs SFabs].
    unfold Py.fmul, Py.prec, Py.emax, SFmul.
    apply binary_round_aux_bound; try lia.
    rewrite Pos2Z.inj_mul.
    replace (236 - (e + e)) with ((118 - e) + (118 - e)) by lia.
    rewrite Z.pow_add_r by lia.
    assert (0 < 2 ^ (118 - e)) by (apply Z.pow_pos_nonneg; lia). nia. }
  rewrite (finite_not_infinity _ (bounded_by_finite _ _ _ Hb)).
  reflexivity.
Qed.

(** ** The exceptions of the predictor, in sum *)

(** C4 (as amended): [linear_regression_predict] raises no
    [ZeroDivisionError] and no [ValueError] on any list of points: the
    only exception it can raise is [OverflowError].  The empty list and
    a single point with a float grade return directly, and a fit whose
    computed least-squares denominator is zero gets slope 0 instead of
    being divided.  On a history of at least two and fewer than 2^26
    points, with indices or floats as x-values and float grades, the
    call returns exactly when no squared deviation [(x - x_mean)**2]
    leaves the double range, and raises [OverflowError] otherwise.  It
    returns on every such history, of any size below 2^26, whose float
    x-values are at most 2^64 in magnitude, when the [pow] of the C
    library reports no range error for a base of magnitude up to
    2^118. *)
Theorem linear_regression_predict_exceptions (libm : Py.c_pow) :
  (forall points, raises_only_overflow (linear_regression_predict libm points))
  /\ linear_regression_predict libm [] = Ok None
  /\ (forall x g,
         linear_regression_predict libm [(x, Py.Flt g)] = Ok (Some (Py.Flt g)))
  /\ (forall points ft,
         regression_fit libm points = Ok ft ->
         Py.eq (den ft) (Py.Int 0) = true ->
         slope ft = Py.Int 0)
  /\ (forall points,
         (2 <= List.length points)%nat ->
         Z.of_nat (List.length points) < 2 ^ 26 ->
         history_points points ->
         (returns (linear_regression_predict libm points)
          <-> squares_in_range libm points)
         /\ (~ squares_in_range libm points ->
             linear_regression_predict libm points = Raise OverflowError))
  /\ (forall points,
         Z.of_nat (List.length points) < 2 ^ 26 ->
         moderate_points points ->
         quiet_up_to libm 118 ->
         returns (linear_regression_predict libm points)).
Proof.
  split; [|split; [reflexivity|split; [reflexivity|split; [|split]]]].
  - intros [|p [|q rest]].
    + exact I.
    + unfold linear_regression_predict.
      apply bind_only_overflow; [apply to_float_only_overflow|].
      intros g _. exact I.
    + rewrite predict_from_two.
      apply bind_only_overflow;
        [apply regression_fit_only_overflow; simpl; lia|].
      intros ft _. exact I.
  - exact zero_den_zero_slope.
  - intros points. apply history_returns_iff.
  - intros points Hlen Hmp Hquiet.
    destruct points as [|p [|q rest]].
    + eexists. reflexivity.
    + inversion Hmp as [|p' l' [_ Hy] _]; subst.
      destruct p as [x [z|g]]; [discriminate Hy|].
      eexists. reflexivity.
    + apply history_returns_iff;
        [simpl; lia|exact Hlen|now apply moderate_history|].
      apply moderate_squares_in_range; [discriminate|assumption..].
Qed.

Lemma linear_regression_predict_exceptions_witness :
  (exists ft,
      regression_fit rounded_libm equal_x_history = Ok ft
      /\ Py.eq (den ft) (Py.Int 0) = true
      /\ slope ft = Py.Int 0)
  /\ (returns (linear_regression_predict rounded_libm huge_gap_history)
      <-> squares_in_range rounded_libm huge_gap_history)
  /\ returns (linear_regression_predict rounded_libm same_time_history).
Proof.
  destruct (linear_regression_predict_exceptions rounded_libm)
    as (_ & _ & _ & Hguard & Hiff & Hreturns).
  split; [|split].
  - eexists. split; [vm_compute; reflexivity|].
    split; [vm_compute; reflexivity|].
    apply (Hguard equal_x_history); vm_compute; reflexivity.
  - apply (Hiff huge_gap_history).
    + simpl. lia.
    + vm_compute. reflexivity.
    + repeat constructor.
  - apply (Hreturns same_time_history).
    + vm_compute. reflexivity.
    + repeat constructor; vm_compute; intros H; discriminate H.
    + exact rounded_libm_quiet.
Defined.

(** The same on three points at x = 0.1: the computed mean is
    0.10000000000000002, the denominator is about 5.8e-34 and the
    division is made, with the slope -21.333333333333332 as its
    result. *)
Example equal_x_rounded_mean :
  exists ft,
    regression_fit rounded_libm tenth_history = Ok ft
    /\ Py.eq (x_mean ft) (Py.Flt (Py.dec 1 1)) = false
    /\ Py.gt (den ft) (Py.Int 0) = true
    /\ Py.lt (slope ft) (Py.Int (-21)) = true
    /\ linear_regression_predict rounded_libm tenth_history
       = Ok (Some (Py.Flt (Py.dec 733 2))).
Proof.
  eexists. split; [vm_compute; reflexivity|].
  repeat split; vm_compute; reflexivity.
Qed.

(** C4 fails as stated, in both parts.  With x-values 0.0 and 1e200
    the squared deviation from the mean leaves the double range and the
    call raises [OverflowError] instead of returning.  And equal
    x-values do not always give a zero denominator: of three points at
    the timestamp 1700000000.1 the computed mean is another double, the
    denominator is positive, the division is made and the slope is not
    0. *)
Lemma huge_gap_raises :
  (history_points huge_gap_history
   /\ ~ squares_in_range rounded_libm huge_gap_history
   /\ linear_regression_predict rounded_libm huge_gap_history
      = Raise OverflowError
   /\ ~ returns (linear_regression_predict rounded_libm huge_gap_history))
  /\ (exists ft,
         regression_fit rounded_libm same_time_history = Ok ft
         /\ Py.eq (x_mean ft) (Py.Flt (Py.dec 17000000001 1)) = false
         /\ Py.gt (den ft) (Py.Int 0) = true
         /\ Py.gt (slope ft) (Py.Int 0) = true
         /\ linear_regression_predict rounded_libm same_time_history
            = Ok (Some (Py.Flt (Py.dec 733 2)))).
Proof.
  assert (H : linear_regression_predict rounded_libm huge_gap_history
              = Raise OverflowError)
    by (vm_compute; reflexivity).
  assert (Hnot : ~ returns (linear_regression_predict rounded_libm
                              huge_gap_history)).
  { intros [v Hv]. rewrite H in Hv. discriminate. }
  split.
  - split; [repeat constructor|].
    split; [|split; [exact H|exact Hnot]].
    intros Hsq. apply Hnot.
    apply (history_returns_iff (libm:=rounded_libm) huge_gap_history);
      [simpl; lia|vm_compute; reflexivity|repeat constructor|exact Hsq].
  - eexists. split; [vm_compute; reflexivity|].
    repeat split; vm_compute; reflexivity.
Qed.

(** * Further properties of the code *)

(** ** The prediction of two or more observations *)

Lemma clip_round_two_decimals (p : Py.num) : two_decimal_grade (clip_round p).
Proof.
  unfold clip_round, Py.min2, Py.max2.
  destruct (Py.lt p MAX_GRADE) eqn:Hlt;
    [|exists 1000; split; [lia|reflexivity]].
  destruct (Py.gt p MIN_GRADE) eqn:Hgt;
    [|exists 600; split; [lia|reflexivity]].
  destruct p as [z|f].
  - unfold Py.lt, Py.gt, MIN_GRADE, MAX_GRADE in Hlt, Hgt.
    rewrite compare_Int in Hlt, Hgt.
    destruct (z ?= 10) eqn:H10; try discriminate.
    destruct (z ?= 6) eqn:H6; try discriminate.
    apply -> Z.compare_lt_iff in H10. apply -> Z.compare_gt_iff in H6.
    exists (100 * z). split; [lia|].
    assert (Hz : z = 7 \/ z = 8 \/ z = 9) by lia.
    destruct Hz as [-> | [-> | ->]]; reflexivity.
  - destruct f as [s|s| |s m e]; try (destruct s; discriminate);
      try discriminate.
    pose proof (fround2_in_bounds s m e Hgt Hlt) as Hb.
    unfold Py.gt, Py.lt, MIN_GRADE, MAX_GRADE in Hgt, Hlt.
    destruct s; [rewrite compare_neg_int in Hgt by lia; discriminate|].
    rewrite compare_pos_int in Hgt, Hlt.
    destruct (Py.compare_fin (Z.pos m) e 6 0) eqn:H6; try discriminate.
    destruct (Py.compare_fin (Z.pos m) e 10 0) eqn:H10; try discriminate.
    pose proof (round_half_even_between _ _ _ _ H6 H10) as Hk.
    exists (Py.round_half_even (100 * Z.pos m) e). split; [lia|].
    cbn [Py.round2] in *. unfold Py.fround2 in *.
    destruct (Py.round_half_even (100 * Z.pos m) e) as [|k|k] eqn:Ek;
      try lia.
    now apply eq_refl_in_bounds.
Qed.

Lemma predict_from_two_docs {libm : Py.c_pow} (sid : string) (s1 s2 : subject_doc)
  (rest : list subject_doc) (r : prediction_response) :
  predict libm sid (s1 :: s2 :: rest) = Ok r ->
  exists points ft baseline,
    prepare_points_from_subjects (s1 :: s2 :: rest) = Ok points
    /\ (2 <= List.length points)%nat
    /\ regression_fit libm points = Ok ft
    /\ r = {| resp_student_id := Some sid;
              prediction := Some (clip_round (pred ft));
              baseline_avg := baseline;
              explanation :=
                "Prediction based on linear trend of historical grades." |}.
Proof.
  unfold predict. intros H.
  bind_inv H points Hpts. bind_inv H p Hp. bind_inv H grades Hgr.
  bind_inv H baseline Hbase.
  pose proof (prepare_points_from_nth _ _ _ Hpts) as [Hlen _].
  destruct points as [|p1 [|p2 pts]]; try discriminate Hlen.
  rewrite predict_from_two in Hp. bind_inv Hp ft Hft. injection Hp as <-.
  injection H as <-.
  exists (p1 :: p2 :: pts), ft, baseline.
  repeat split; try assumption. simpl. lia.
Qed.

(** X1: when [predict] returns for a student with two or more subject
    documents, the prediction is present, lies within
    [MIN_GRADE..MAX_GRADE] and is one of the two-decimal grades 6.00,
    6.01, ..., 10.00, whatever the stored grades and dates are. *)
Theorem predict_two_decimal_grade (libm : Py.c_pow) (sid : string) (subjects : list subject_doc)
  (r : prediction_response) :
  (2 <= List.length subjects)%nat ->
  predict libm sid subjects = Ok r ->
  exists v,
    prediction r = Some v /\ in_bounds v = true /\ two_decimal_grade v.
Proof.
  intros Hn H.
  destruct subjects as [|s1 [|s2 rest]]; simpl in Hn; try lia.
  destruct (predict_from_two_docs _ _ _ _ _ H)
    as (points & ft & baseline & _ & _ & _ & ->).
  eexists. split; [reflexivity|].
  split; [apply clip_round_in_bounds|apply clip_round_two_decimals].
Qed.

Lemma predict_two_decimal_grade_witness :
  exists v,
    prediction
      {| resp_student_id := Some "s"%string; prediction := Some (F 9);
         baseline_avg := Some (F 7);
         explanation :=
           "Prediction based on linear trend of historical grades." |}
    = Some v /\ in_bounds v = true /\ two_decimal_grade v.
Proof.
  apply (predict_two_decimal_grade rounded_libm "s" subjects_678).
  - simpl. lia.
  - vm_compute. reflexivity.
Defined.

Lemma lt_min_lt_max (p : Py.num) :
  Py.lt p MIN_GRADE = true -> Py.lt p MAX_GRADE = true.
Proof.
  unfold Py.lt, MIN_GRADE, MAX_GRADE. destruct p as [z|f].
  - rewrite !compare_Int. destruct (z ?= 6) eqn:H6; try discriminate.
    apply -> Z.compare_lt_iff in H6. intros _.
    replace (z ?= 10) with Lt by (symmetry; apply Z.compare_lt_iff; lia).
    reflexivity.
  - destruct f as [s|s| |s m e]; try (destruct s; intros H; exact H);
      try discriminate.
    destruct s; [now rewrite !compare_neg_int by lia|].
    rewrite !compare_pos_int. unfold Py.compare_fin. cbv zeta.
    destruct (Z.pos m * 2 ^ (e - Z.min e 0) ?= 6 * 2 ^ (0 - Z.min e 0)) eqn:H6;
      try discriminate.
    apply -> Z.compare_lt_iff in H6. intros _.
    assert (0 < 2 ^ (0 - Z.min e 0)) by (apply Z.pow_pos_nonneg; lia).
    replace (Z.pos m * 2 ^ (e - Z.min e 0) ?= 10 * 2 ^ (0 - Z.min e 0))
      with Lt by (symmetry; apply Z.compare_lt_iff; nia).
    reflexivity.
Qed.

Lemma clip_round_below_min (p : Py.num) :
  Py.lt p MIN_GRADE = true -> clip_round p = MIN_GRADE.
Proof.
  intros Hlt. unfold clip_round, Py.min2, Py.max2.
  rewrite (lt_min_lt_max p Hlt).
  assert (Hgt : Py.gt p MIN_GRADE = false).
  { unfold Py.lt in Hlt. unfold Py.gt.
    destruct (Py.compare p MIN_GRADE) as [[| |]|]; congruence. }
  rewrite Hgt. reflexivity.
Qed.

(** X2: with two observations or more, a raw extrapolation above
    [MAX_GRADE] is returned as [MAX_GRADE] and one below [MIN_GRADE]
    as [MIN_GRADE]; a raw extrapolation that is NaN is returned as
    [MAX_GRADE] too, since NaN is not less than [MAX_GRADE] for [min]. *)
Theorem raw_prediction_clipped (libm : Py.c_pow) (points : list point) (ft : fit) :
  (2 <= List.length points)%nat ->
  regression_fit libm points = Ok ft ->
  (Py.gt (pred ft) MAX_GRADE = true ->
   linear_regression_predict libm points = Ok (Some MAX_GRADE))
  /\ (Py.lt (pred ft) MIN_GRADE = true ->
      linear_regression_predict libm points = Ok (Some MIN_GRADE))
  /\ (num_is_nan (pred ft) = true ->
      linear_regression_predict libm points = Ok (Some MAX_GRADE)).
Proof.
  intros Hn Hft.
  destruct points as [|p [|q rest]]; simpl in Hn; try lia.
  rewrite predict_from_two, Hft. cbn [bind].
  split; [|split]; intros H.
  - now rewrite clip_round_above_max.
  - now rewrite clip_round_below_min.
  - destruct (pred ft) as [z|f]; [discriminate|].
    destruct f; try discriminate. reflexivity.
Qed.

Lemma raw_prediction_clipped_witness :
  linear_regression_predict rounded_libm falling_history = Ok (Some MIN_GRADE).
Proof.
  destruct (regression_fit rounded_libm falling_history) as [ft|] eqn:Hft;
    [|vm_compute in Hft; discriminate].
  assert (Hn : (2 <= List.length falling_history)%nat) by (simpl; lia).
  apply (proj1 (proj2 (raw_prediction_clipped rounded_libm falling_history ft Hn Hft))).
  vm_compute in Hft. injection Hft as <-. vm_compute. reflexivity.
Defined.

(** ** The response of [predict] *)

Lemma grades_of_length (subjects : list subject_doc) (grades : list Py.num) :
  grades_of subjects = Ok grades ->
  List.length grades = List.length subjects.
Proof. intros H. apply (grades_of_nth _ _ H). Qed.

(** X3: for a student with at least one subject document the fallback
    of [predict] is never taken: whenever it returns, the prediction
    and the baseline average are both present, the student id is
    echoed and the explanation is the one of the linear trend, never
    "Not enough history; using baseline average.". *)
Theorem predict_never_falls_back (libm : Py.c_pow) (sid : string) (subjects : list subject_doc)
  (r : prediction_response) :
  subjects <> [] ->
  predict libm sid subjects = Ok r ->
  prediction r <> None
  /\ baseline_avg r <> None
  /\ resp_student_id r = Some sid
  /\ explanation r =
       "Prediction based on linear trend of historical grades."%string.
Proof.
  intros Hne H. destruct subjects as [|s rest]; [congruence|].
  unfold predict in H.
  bind_inv H points Hpts. bind_inv H p Hp. bind_inv H grades Hgr.
  bind_inv H baseline Hbase.
  pose proof (prepare_points_from_nth _ _ _ Hpts) as [Hlen _].
  pose proof (grades_of_length _ _ Hgr) as Hlen'.
  assert (Hp' : exists v, p = Some v).
  { destruct points as [|p1 [|p2 pts]]; [discriminate Hlen| |].
    - unfold linear_regression_predict in Hp. bind_inv Hp g Hg.
      injection Hp as <-. eauto.
    - rewrite predict_from_two in Hp. bind_inv Hp ft Hft.
      injection Hp as <-. eauto. }
  assert (Hb : exists a, baseline = Some a).
  { destruct grades as [|g gs]; [discriminate Hlen'|].
    unfold average_of in Hbase. bind_inv Hbase sm Hsm. bind_inv Hbase q Hq.
    injection Hbase as <-. eauto. }
  destruct Hp' as [v ->]. destruct Hb as [a ->]. injection H as <-.
  cbn. repeat split; congruence.
Qed.

Lemma predict_never_falls_back_witness :
  prediction
    {| resp_student_id := Some "s"%string; prediction := Some (F 9);
       baseline_avg := Some (F 7);
       explanation :=
         "Prediction based on linear trend of historical grades." |}
  <> None.
Proof.
  apply (predict_never_falls_back rounded_libm "s" subjects_678).
  - discriminate.
  - vm_compute. reflexivity.
Defined.

(** ** A stored NaN *)

Lemma fadd_nan_r (a : Py.float) : Py.fadd a S754_nan = S754_nan.
Proof. destruct a as [[|]|[|]| |s m e]; reflexivity. Qed.

Lemma add_nan_l (b v : Py.num) :
  Py.add (Py.Flt S754_nan) b = Ok v -> v = Py.Flt S754_nan.
Proof.
  destruct b as [y|fb]; unfold Py.add; cbn [Py.to_float bind]; intros H.
  - bind_inv H f Hf. now injection H as <-.
  - now injection H as <-.
Qed.

Lemma add_nan_r (a v : Py.num) :
  Py.add a (Py.Flt S754_nan) = Ok v -> v = Py.Flt S754_nan.
Proof.
  rewrite add_float_r. intros H. bind_inv H f Hf. injection H as <-.
  now rewrite fadd_nan_r.
Qed.

Lemma sub_nan_l (b v : Py.num) :
  Py.sub (Py.Flt S754_nan) b = Ok v -> v = Py.Flt S754_nan.
Proof.
  destruct b as [y|fb]; unfold Py.sub; cbn [Py.to_float bind]; intros H.
  - bind_inv H f Hf. now injection H as <-.
  - now injection H as <-.
Qed.

Lemma truediv_nan_l (b v : Py.num) :
  Py.truediv (Py.Flt S754_nan) b = Ok v -> v = Py.Flt S754_nan.
Proof.
  destruct b as [y|fb]; unfold Py.truediv; cbn [Py.to_float bind]; intros H.
  - destruct (y =? 0); [discriminate|]. bind_inv H f Hf. now injection H as <-.
  - destruct (Py.is_zero fb); [discriminate|]. now injection H as <-.
Qed.

(** A sum that meets NaN is NaN. *)
Lemma sum_from_nan {A : Type} (f : A -> result Py.num) (l : list A) :
  forall acc total,
    Py.sum_from f acc l = Ok total ->
    acc = Py.Flt S754_nan \/ (exists x, In x l /\ f x = Ok (Py.Flt S754_nan)) ->
    total = Py.Flt S754_nan.
Proof.
  induction l as [|x l IH]; intros acc total H Hnan.
  - injection H as <-. destruct Hnan as [Hacc|(x & [] & _)]. exact Hacc.
  - cbn [Py.sum_from] in H. bind_inv H t Ht. bind_inv H acc' Hacc'.
    apply (IH _ _ H).
    destruct Hnan as [->|(y & [<-|Hy] & Hfy)].
    + left. now apply (add_nan_l t).
    + left. rewrite Hfy in Ht. injection Ht as <-. now apply (add_nan_r acc).
    + right. eauto.
Qed.

Lemma sum_nan (l : list Py.num) (total : Py.num) :
  Py.sum l = Ok total -> In (Py.Flt S754_nan) l -> total = Py.Flt S754_nan.
Proof.
  intros H Hin. apply (sum_from_nan _ _ _ _ H). right. eauto.
Qed.

(** A fit over points of which one grade is NaN has a NaN raw
    prediction. *)
Lemma regression_fit_nan {libm : Py.c_pow} (points : list point) (ft : fit) :
  regression_fit libm points = Ok ft ->
  In (Py.Flt S754_nan) (map snd points) ->
  pred ft = Py.Flt S754_nan.
Proof.
  unfold regression_fit. intros H Hin.
  bind_inv H sx Hsx. bind_inv H xm Hxm. bind_inv H sy Hsy.
  bind_inv H ym Hym. bind_inv H nm Hnm. bind_inv H dn Hdn.
  bind_inv H sl Hsl. bind_inv H sxm Hsxm. bind_inv H ic Hic.
  bind_inv H ds Hds. bind_inv H sd Hsd. bind_inv H gap Hgap.
  bind_inv H nx Hnx. bind_inv H snx Hsnx. bind_inv H pr Hpr.
  injection H as <-. cbn [pred].
  apply (sum_nan _ _ Hsy) in Hin. subst sy.
  apply truediv_nan_l in Hym. subst ym.
  apply sub_nan_l in Hic. subst ic.
  now apply add_nan_r in Hpr.
Qed.

Lemma nan_grade_in_lists (subjects : list subject_doc) (s : subject_doc)
  (pts : list point) (grades : list Py.num) :
  In s subjects ->
  grade s = Some (Py.Flt S754_nan) ->
  prepare_points_from_subjects subjects = Ok pts ->
  grades_of subjects = Ok grades ->
  In (Py.Flt S754_nan) (map snd pts) /\ In (Py.Flt S754_nan) grades.
Proof.
  intros Hin Hg Hpts Hgr.
  apply In_nth_error in Hin. destruct Hin as [i Hi].
  assert (Hgo : grade_of s = Ok (Py.Flt S754_nan)).
  { unfold grade_of. rewrite Hg. reflexivity. }
  destruct (prepare_points_from_nth _ _ _ Hpts) as [_ Hnth].
  destruct (grades_of_nth _ _ Hgr) as [_ Hnth'].
  destruct (Hnth i s Hi) as (g & Hg1 & Hp).
  destruct (Hnth' i s Hi) as (g' & Hg2 & Hp').
  rewrite Hgo in Hg1, Hg2. injection Hg1 as <-. injection Hg2 as <-.
  split.
  - apply nth_error_In in Hp. apply (in_map snd) in Hp. exact Hp.
  - apply nth_error_In in Hp'. exact Hp'.
Qed.

(** X4: a grade of NaN among two or more subject documents (the range
    check of the handlers lets NaN in) decides the whole response:
    whenever [predict] returns, the prediction is [MAX_GRADE] and the
    baseline average is NaN, whatever the other grades are. *)
Theorem nan_grade_prediction (libm : Py.c_pow) (sid : string) (subjects : list subject_doc)
  (s : subject_doc) (r : prediction_response) :
  (2 <= List.length subjects)%nat ->
  In s subjects ->
  grade s = Some (Py.Flt S754_nan) ->
  predict libm sid subjects = Ok r ->
  prediction r = Some MAX_GRADE
  /\ baseline_avg r = Some (Py.Flt S754_nan).
Proof.
  intros Hn Hin Hg H.
  destruct subjects as [|s1 [|s2 rest]]; simpl in Hn; try lia.
  unfold predict in H.
  bind_inv H points Hpts. bind_inv H p Hp. bind_inv H grades Hgr.
  bind_inv H baseline Hbase.
  destruct (nan_grade_in_lists _ _ _ _ Hin Hg Hpts Hgr) as [Hys Hgs].
  pose proof (prepare_points_from_nth _ _ _ Hpts) as [Hlen _].
  destruct points as [|p1 [|p2 pts]]; try discriminate Hlen.
  rewrite predict_from_two in Hp. bind_inv Hp ft Hft. injection Hp as <-.
  rewrite (regression_fit_nan _ _ Hft Hys) in H.
  destruct grades as [|g gs]; [destruct Hgs|].
  unfold average_of in Hbase. bind_inv Hbase sm Hsm. bind_inv Hbase q Hq.
  injection Hbase as <-.
  apply (sum_nan _ _ Hsm) in Hgs. subst sm.
  apply truediv_nan_l in Hq. subst q.
  injection H as <-. split; reflexivity.
Qed.

Lemma nan_grade_prediction_witness :
  exists r,
    predict rounded_libm "s" subjects_7_nan = Ok r
    /\ prediction r = Some MAX_GRADE
    /\ baseline_avg r = Some (Py.Flt S754_nan).
Proof.
  destruct (predict rounded_libm "s" subjects_7_nan) as [r|] eqn:Hr;
    [|vm_compute in Hr; discriminate].
  exists r. split; [reflexivity|].
  apply (nan_grade_prediction rounded_libm "s" subjects_7_nan
           (subj (Some (Py.Flt S754_nan)) None) r).
  - simpl. lia.
  - right. left. reflexivity.
  - reflexivity.
  - exact Hr.
Defined.

(** ** The bounds of the required next grade *)

Lemma fround2_keeps_bounds (f : Py.float) :
  in_bounds (Py.Flt f) = true -> in_bounds (Py.Flt (Py.fround2 f)) = true.
Proof.
  intros Hb. destruct (in_bounds_finite f Hb) as (m & e & ->).
  pose proof Hb as Hb'. unfold in_bounds, Py.le in Hb'.
  rewrite (compare_antisym MIN_GRADE) in Hb'.
  unfold MIN_GRADE, MAX_GRADE in Hb'. rewrite !compare_pos_int in Hb'.
  cbn [option_map] in Hb'.
  destruct (Py.compare_fin (Z.pos m) e 10 0) eqn:H10.
  - unfold Py.fround2. rewrite (round_half_even_exact _ _ _ H10). reflexivity.
  - destruct (Py.compare_fin (Z.pos m) e 6 0) eqn:H6.
    + unfold Py.fround2. rewrite (round_half_even_exact _ _ _ H6).
      reflexivity.
    + discriminate.
    + apply fround2_in_bounds.
      * unfold Py.gt, MIN_GRADE. now rewrite compare_pos_int, H6.
      * unfold Py.lt, MAX_GRADE. now rewrite compare_pos_int, H10.
  - rewrite andb_false_r in Hb'. discriminate.
Qed.

(** X5: a required next grade that [student_page] reports is always a
    grade of [MIN_GRADE..MAX_GRADE], for every list of grades: the
    target itself with no grades, the floor [MIN_GRADE], or a rounded
    requirement of the range.  The one exception is a requirement that
    is NaN, which is reported as NaN. *)
Theorem required_grade_in_bounds (grades : list Py.num) (v : Py.num) :
  required_grade grades = Ok (Some v) ->
  num_is_nan v = false ->
  in_bounds v = true.
Proof.
  unfold required_grade, required_grade_for. intros H Hnan.
  destruct grades as [|g gs].
  - injection H as <-. reflexivity.
  - bind_inv H required Hreq.
    destruct (Py.gt required MAX_GRADE) eqn:Hgt; [discriminate|].
    destruct (Py.lt required MIN_GRADE) eqn:Hlt.
    + injection H as <-. reflexivity.
    + injection H as <-. destruct required as [z|f].
      * unfold Py.gt, Py.lt, MIN_GRADE, MAX_GRADE in Hgt, Hlt.
        rewrite compare_Int in Hgt, Hlt.
        unfold in_bounds, Py.le, MIN_GRADE, MAX_GRADE, Py.round2.
        rewrite !compare_Int.
        destruct (z ?= 10) eqn:H10; try discriminate;
          destruct (z ?= 6) eqn:H6; try discriminate;
          try (apply Z.compare_eq in H10); try (apply Z.compare_eq in H6);
          try (apply -> Z.compare_lt_iff in H10);
          try (apply -> Z.compare_gt_iff in H6);
          try lia; subst; try reflexivity.
        replace (6 ?= z) with Lt by (symmetry; apply Z.compare_lt_iff; lia).
        reflexivity.
      * cbn [Py.round2]. apply fround2_keeps_bounds.
        apply not_outside_in_bounds; try assumption.
        destruct f; try reflexivity. discriminate Hnan.
Qed.

Lemma required_grade_in_bounds_witness : in_bounds (F 9) = true.
Proof.
  apply (required_grade_in_bounds [F 8; F 7] (F 9)).
  - vm_compute. reflexivity.
  - reflexivity.
Defined.

(** ** What the handlers keep in the store *)

Lemma update_one_student_forallb (P : student_doc -> bool) (oid : Z)
  (set : student_doc -> student_doc) (docs : list student_doc) :
  (forall d, P (set d) = true) ->
  forallb P docs = true ->
  forallb P (update_one_student oid set docs) = true.
Proof.
  intros Hset. induction docs as [|d rest IH]; intros H; [reflexivity|].
  cbn [forallb] in H. apply andb_true_iff in H. destruct H as [Hd Hrest].
  cbn [update_one_student]. destruct (student_oid d =? oid); cbn [forallb].
  - now rewrite Hset, Hrest.
  - now rewrite Hd, IH.
Qed.

Lemma update_one_forallb (P : subject_doc -> bool) (oid : Z)
  (set : subject_doc -> subject_doc) (docs : list subject_doc) :
  (forall d, P d = true -> P (set d) = true) ->
  forallb P docs = true ->
  forallb P (update_one oid set docs) = true.
Proof.
  intros Hset. induction docs as [|d rest IH]; intros H; [reflexivity|].
  cbn [forallb] in H. apply andb_true_iff in H. destruct H as [Hd Hrest].
  cbn [update_one]. destruct (doc_id d =? oid); cbn [forallb].
  - now rewrite (Hset d Hd), Hrest.
  - now rewrite Hd, IH.
Qed.

Lemma delete_one_student_forallb (P : student_doc -> bool) (oid : Z)
  (docs : list student_doc) :
  forallb P docs = true -> forallb P (delete_one_student oid docs) = true.
Proof.
  induction docs as [|d rest IH]; intros H; [reflexivity|].
  cbn [forallb] in H. apply andb_true_iff in H. destruct H as [Hd Hrest].
  cbn [delete_one_student]. destruct (student_oid d =? oid); [exact Hrest|].
  cbn [forallb]. now rewrite Hd, IH.
Qed.

Lemma delete_one_subject_forallb (P : subject_doc -> bool) (oid : Z)
  (docs : list subject_doc) :
  forallb P docs = true -> forallb P (delete_one_subject oid docs) = true.
Proof.
  induction docs as [|d rest IH]; intros H; [reflexivity|].
  cbn [forallb] in H. apply andb_true_iff in H. destruct H as [Hd Hrest].
  cbn [delete_one_subject]. destruct (doc_id d =? oid); [exact Hrest|].
  cbn [forallb]. now rewrite Hd, IH.
Qed.

Lemma filter_forallb {A : Type} (P keep : A -> bool) (l : list A) :
  forallb P l = true -> forallb P (filter keep l) = true.
Proof.
  induction l as [|x l IH]; intros H; [reflexivity|].
  cbn [forallb] in H. apply andb_true_iff in H. destruct H as [Hx Hl].
  cbn [filter]. destruct (keep x); cbn [forallb]; [now rewrite Hx, IH|auto].
Qed.

Lemma rejected_false (name : string) (g : Py.float) :
  rejected name g = false ->
  String.eqb name EmptyString = false
  /\ Py.lt (Py.Flt g) MIN_GRADE = false
  /\ Py.gt (Py.Flt g) MAX_GRADE = false.
Proof.
  unfold rejected. intros H.
  apply orb_false_iff in H. destruct H as [H Hgt].
  apply orb_false_iff in H. destruct H as [Hname Hlt]. auto.
Qed.

Section StoreInvariant.

Variable float_of_string : string -> result Py.float.
Variable strip : string -> string.
Variable ObjectId : string -> option Z.

(** Every handler takes a store of written documents to one. *)
Lemma handle_keeps_written (db : database) (r : request) :
  written_store db = true ->
  written_store (snd (handle float_of_string strip ObjectId db r)) = true.
Proof.
  unfold written_store. intros H.
  apply andb_true_iff in H. destruct H as [Hst Hsu].
  destruct r as [f new_id|id f|id|id f new_id now|sid subject_id f
                 |sid subject_id]; cbn [handle].
  - unfold add_student_post.
    destruct (String.eqb (strip (form_get f "student_name")) EmptyString)
      eqn:Hname; cbn [snd db_students db_subjects].
    + now rewrite Hst, Hsu.
    + rewrite forallb_app, Hst, Hsu. cbn [forallb].
      unfold written_student. cbn [name]. now rewrite Hname.
  - unfold edit_student. destruct (to_objid ObjectId id) as [oid|];
      [|cbn [snd]; now rewrite Hst, Hsu].
    destruct (String.eqb (strip (form_get f "new_name")) EmptyString)
      eqn:Hname; cbn [snd db_students db_subjects].
    + now rewrite Hst, Hsu.
    + rewrite Hsu, andb_true_r. apply update_one_student_forallb; [|exact Hst].
      intros d. unfold written_student. cbn [name]. now rewrite Hname.
  - unfold delete_student. destruct (to_objid ObjectId id) as [oid|];
      cbn [snd db_students db_subjects]; [|now rewrite Hst, Hsu].
    rewrite delete_one_student_forallb by exact Hst.
    unfold delete_many_subjects. now rewrite filter_forallb.
  - unfold student_page_post. destruct (to_objid ObjectId id) as [oid|];
      [|cbn [snd]; now rewrite Hst, Hsu].
    destruct (find_student db oid); [|cbn [snd]; now rewrite Hst, Hsu].
    destruct (float_of_string (form_get f "grade")) as [g|e];
      [|cbn [snd]; now rewrite Hst, Hsu].
    destruct (rejected (strip (form_get f "subject_name")) g) eqn:Hrej;
      cbn [snd db_students db_subjects]; [now rewrite Hst, Hsu|].
    destruct (rejected_false _ _ Hrej) as (Hname & Hlt & Hgt).
    rewrite Hst, forallb_app, Hsu. cbn [forallb].
    unfold written_subject, has_date. cbn [subject grade date_added].
    now rewrite Hname, Hlt, Hgt.
  - unfold edit_subject. destruct (to_objid ObjectId subject_id) as [oid|];
      [|cbn [snd]; now rewrite Hst, Hsu].
    destruct (float_of_string (form_get f "new_grade")) as [g|e];
      [|cbn [snd]; now rewrite Hst, Hsu].
    destruct (rejected (strip (form_get f "new_name")) g) eqn:Hrej;
      cbn [snd db_students db_subjects]; [now rewrite Hst, Hsu|].
    destruct (rejected_false _ _ Hrej) as (Hname & Hlt & Hgt).
    rewrite Hst. apply update_one_forallb; [|exact Hsu].
    intros d. unfold written_subject, has_date.
    cbn [subject grade date_added]. rewrite Hname, Hlt, Hgt.
    intros Hd. apply andb_true_iff in Hd. destruct Hd as [Hd _].
    apply andb_true_iff in Hd. destruct Hd as [_ Hd]. now rewrite Hd.
  - unfold delete_subject. destruct (to_objid ObjectId subject_id) as [oid|];
      cbn [snd db_students db_subjects]; [|now rewrite Hst, Hsu].
    rewrite Hst. now apply delete_one_subject_forallb.
Qed.

Lemma run_keeps_written (rs : list request) :
  forall db,
    written_store db = true ->
    written_store (run float_of_string strip ObjectId db rs) = true.
Proof.
  induction rs as [|r rs IH]; intros db H; [exact H|].
  cbn [run fold_left]. apply IH. now apply handle_keeps_written.
Qed.

End StoreInvariant.

(** X6: whatever requests are sent to the six writing handlers, starting
    from the empty store, every student in the store has a non-empty
    name, and every subject document has a non-empty name, a date and a
    float grade that is neither below [MIN_GRADE] nor above
    [MAX_GRADE]. *)
Theorem store_of_written_documents
  (float_of_string : string -> result Py.float) (strip : string -> string)
  (ObjectId : string -> option Z) (rs : list request) :
  written_store (run float_of_string strip ObjectId empty_db rs) = true.
Proof.
  apply run_keeps_written. reflexivity.
Qed.

(** ** The points and the home page on a store of written documents *)

Lemma written_subject_fields (d : subject_doc) :
  written_subject d = true ->
  exists g t,
    grade d = Some (Py.Flt g) /\ date_added d = Some t
    /\ Py.lt (Py.Flt g) MIN_GRADE = false.
Proof.
  unfold written_subject, has_date. intros H.
  apply andb_true_iff in H. destruct H as [H Hg].
  apply andb_true_iff in H. destruct H as [_ Hd].
  destruct (date_added d) as [t|]; [|discriminate].
  destruct (grade d) as [[z|g]|]; try discriminate.
  apply andb_true_iff in Hg. destruct Hg as [Hlt _].
  apply negb_true_iff in Hlt. eauto.
Qed.

Lemma written_subjects_points (subjects : list subject_doc) :
  forallb written_subject subjects = true ->
  forall idx,
  exists pts,
    prepare_points_from idx subjects = Ok pts
    /\ List.length pts = List.length subjects
    /\ float_points pts
    /\ forallb is_timestamp (map fst pts) = true.
Proof.
  induction subjects as [|d rest IH]; intros H idx.
  - exists []. repeat split; constructor.
  - cbn [forallb] in H. apply andb_true_iff in H. destruct H as [Hd Hrest].
    destruct (written_subject_fields d Hd) as (g & t & Hg & Ht & _).
    destruct (IH Hrest (idx + 1)) as (pts & Hpts & Hlen & Hfl & Hts).
    exists ((Py.Flt t, Py.Flt g) :: pts).
    cbn [prepare_points_from]. unfold grade_of, x_of. rewrite Hg, Ht, Hpts.
    cbn [Py.to_float bind]. split; [reflexivity|].
    split; [simpl; now rewrite Hlen|].
    split; [constructor; [split; reflexivity|exact Hfl]|].
    cbn [map fst forallb is_timestamp]. exact Hts.
Qed.

(** X7: for documents taken from a store that only the writing
    handlers have filled, in any order and selection,
    [prepare_points_from_subjects] raises nothing and builds one point
    per document with a timestamp as x-value and a float as grade: the
    fallback to the index, and with it a mix of timestamps and indices,
    cannot occur. *)
Theorem written_history_single_source
  (float_of_string : string -> result Py.float) (strip : string -> string)
  (ObjectId : string -> option Z) (rs : list request)
  (subjects : list subject_doc) :
  incl subjects (db_subjects (run float_of_string strip ObjectId empty_db rs)) ->
  exists pts,
    prepare_points_from_subjects subjects = Ok pts
    /\ List.length pts = List.length subjects
    /\ float_points pts
    /\ forallb is_timestamp (map fst pts) = true
    /\ single_source (map fst pts) = true.
Proof.
  intros Hincl.
  pose proof (store_written_helper := run_keeps_written float_of_string strip
                ObjectId rs empty_db eq_refl).
  unfold written_store in store_written_helper.
  apply andb_true_iff in store_written_helper.
  destruct store_written_helper as [_ Hsu].
  assert (Hall : forallb written_subject subjects = true).
  { apply forallb_forall. intros d Hd.
    rewrite forallb_forall in Hsu. apply Hsu, Hincl, Hd. }
  destruct (written_subjects_points subjects Hall 0)
    as (pts & Hpts & Hlen & Hfl & Hts).
  exists pts. repeat split; try assumption.
  unfold single_source. now rewrite Hts.
Qed.

Lemma written_history_single_source_witness :
  exists pts,
    prepare_points_from_subjects (rev (db_subjects session_store)) = Ok pts
    /\ List.length pts = List.length (rev (db_subjects session_store))
    /\ float_points pts
    /\ forallb is_timestamp (map fst pts) = true
    /\ single_source (map fst pts) = true.
Proof.
  apply (written_history_single_source three_literals (fun s => s) some_ids
           session).
  intros d Hd. apply in_rev in Hd. exact Hd.
Defined.

Lemma grades_of_written (subjects : list subject_doc) :
  forallb written_subject subjects = true ->
  forall grades,
    grades_of subjects = Ok grades ->
    existsb (fun g => Py.lt g MIN_GRADE) grades = false.
Proof.
  induction subjects as [|d rest IH]; intros H grades Hgr.
  - injection Hgr as <-. reflexivity.
  - cbn [forallb] in H. apply andb_true_iff in H. destruct H as [Hd Hrest].
    destruct (written_subject_fields d Hd) as (g & t & Hg & _ & Hlt).
    cbn [grades_of] in Hgr. unfold grade_of in Hgr. rewrite Hg in Hgr.
    cbn [Py.to_float bind] in Hgr. bind_inv Hgr gs Hgs. injection Hgr as <-.
    cbn [existsb]. now rewrite Hlt, (IH Hrest gs Hgs).
Qed.

Lemma rows_of_no_fail (str_oid : Z -> string) (db : database) :
  forallb written_subject (db_subjects db) = true ->
  forall students rows,
    rows_of str_oid db students = Ok rows ->
    forall row, In row rows -> has_fail row = false.
Proof.
  intros Hdb. induction students as [|st rest IH]; intros rows H row Hin.
  - injection H as <-. destruct Hin.
  - cbn [rows_of] in H. bind_inv H r0 Hr0. bind_inv H rs Hrs.
    injection H as <-. destruct Hin as [<-|Hin]; [|now apply (IH rs)].
    unfold student_stats in Hr0. bind_inv Hr0 grades Hgr. bind_inv Hr0 a Ha.
    injection Hr0 as <-. cbn [has_fail].
    apply (grades_of_written (subjects_of str_oid db st)); [|exact Hgr].
    unfold subjects_of. now apply filter_forallb.
Qed.

(** X8: on a store that only the writing handlers have filled, the home
    page never flags a student as failing: [has_fail] is [False] for
    every student listed, since no stored grade is below [MIN_GRADE]. *)
Theorem home_page_never_flags_failure
  (float_of_string : string -> result Py.float) (strip : string -> string)
  (ObjectId : string -> option Z) (str_oid : Z -> string)
  (rs : list request) (students : list student_doc) (ctx : index_context) :
  index_page str_oid (run float_of_string strip ObjectId empty_db rs) students
  = Ok ctx ->
  forall row, In row (ctx_students ctx) -> has_fail row = false.
Proof.
  intros H row Hin. unfold index_page in H.
  bind_inv H rows Hrows. bind_inv H tot Htot. injection H as <-.
  cbn [ctx_students] in Hin.
  pose proof (run_keeps_written float_of_string strip ObjectId rs empty_db
                eq_refl) as Hw.
  unfold written_store in Hw. apply andb_true_iff in Hw.
  destruct Hw as [_ Hsu].
  exact (rows_of_no_fail str_oid _ Hsu students rows Hrows row Hin).
Qed.

Lemma home_page_never_flags_failure_witness :
  exists ctx,
    index_page some_ids_str session_store (db_students session_store) = Ok ctx
    /\ List.length (ctx_students ctx) = 1%nat
    /\ forall row, In row (ctx_students ctx) -> has_fail row = false.
Proof.
  destruct (index_page some_ids_str session_store (db_students session_store))
    as [ctx|] eqn:Hctx; [|vm_compute in Hctx; discriminate].
  exists ctx. split; [reflexivity|]. split.
  - vm_compute in Hctx. injection Hctx as <-. reflexivity.
  - exact (home_page_never_flags_failure three_literals (fun s => s) some_ids
             some_ids_str session (db_students session_store) ctx Hctx).
Defined.

Lemma grades_of_written_floats (subjects : list subject_doc) :
  forallb written_subject subjects = true ->
  exists grades,
    grades_of subjects = Ok grades
    /\ Forall (fun g => is_flt g = true) grades
    /\ List.length grades = List.length subjects.
Proof.
  induction subjects as [|d rest IH]; intros H.
  - exists []. repeat split. constructor.
  - cbn [forallb] in H. apply andb_true_iff in H. destruct H as [Hd Hrest].
    destruct (written_subject_fields d Hd) as (g & t & Hg & _ & _).
    destruct (IH Hrest) as (gs & Hgs & Hfl & Hlen).
    exists (Py.Flt g :: gs). cbn [grades_of]. unfold grade_of.
    rewrite Hg, Hgs. cbn [Py.to_float bind]. split; [reflexivity|].
    split; [constructor; [reflexivity|exact Hfl]|simpl; now rewrite Hlen].
Qed.

Lemma student_stats_returns (str_oid : Z -> string) (db : database)
  (st : student_doc) :
  forallb written_subject (db_subjects db) = true ->
  Z.of_nat (List.length (db_subjects db)) < 2 ^ 53 ->
  exists row,
    student_stats str_oid db st = Ok row /\ float_or_zero (avg row) = true.
Proof.
  intros Hdb Hsize. unfold student_stats.
  assert (Hsubs : forallb written_subject (subjects_of str_oid db st) = true)
    by (unfold subjects_of; now apply filter_forallb).
  assert (Hle : (List.length (subjects_of str_oid db st)
                 <= List.length (db_subjects db))%nat)
    by (unfold subjects_of; apply filter_length_le).
  destruct (grades_of_written_floats _ Hsubs) as (grades & Hgr & Hfl & Hlen).
  rewrite Hgr. cbn [bind].
  destruct grades as [|g gs].
  - cbn [bind]. eexists. split; reflexivity.
  - destruct (sum_floats_returns (g :: gs) Hfl) as [s Hs]; [congruence|].
    rewrite Hs. cbn [bind]. unfold Py.len.
    destruct (truediv_by_len s (Z.of_nat (List.length (g :: gs)))) as [q Hq].
    { rewrite Hlen. simpl List.length in *. lia. }
    rewrite Hq. cbn [bind]. eexists. split; reflexivity.
Qed.

Lemma rows_of_returns (str_oid : Z -> string) (db : database) :
  forallb written_subject (db_subjects db) = true ->
  Z.of_nat (List.length (db_subjects db)) < 2 ^ 53 ->
  forall students,
  exists rows,
    rows_of str_oid db students = Ok rows
    /\ Forall (fun r => float_or_zero (avg r) = true) rows
    /\ List.length rows = List.length students.
Proof.
  intros Hdb Hsize. induction students as [|st rest IH].
  - exists []. repeat split. constructor.
  - destruct (student_stats_returns str_oid db st Hdb Hsize) as (r & Hr & Hfz).
    destruct IH as (rows & Hrows & Hall & Hlen).
    exists (r :: rows). cbn [rows_of]. rewrite Hr, Hrows. cbn [bind].
    split; [reflexivity|].
    split; [constructor; assumption|simpl; now rewrite Hlen].
Qed.

Lemma sum_from_float_or_zero (l : list Py.num) :
  Forall (fun v => float_or_zero v = true) l ->
  forall acc,
    float_or_zero acc = true ->
    exists total,
      Py.sum_from (fun v => Ok v) acc l = Ok total
      /\ float_or_zero total = true.
Proof.
  induction l as [|v l IH]; intros Hl acc Hacc.
  - exists acc. split; [reflexivity|exact Hacc].
  - inversion Hl as [|v' l' Hv Hl']; subst.
    cbn [Py.sum_from bind].
    assert (Hadd : exists acc', Py.add acc v = Ok acc'
                                /\ float_or_zero acc' = true).
    { destruct (to_float_float_or_zero acc Hacc) as [fa Hfa].
      destruct (to_float_float_or_zero v Hv) as [fv Hfv].
      destruct acc as [x|fx], v as [y|fy].
      - simpl in Hacc, Hv. apply Z.eqb_eq in Hacc, Hv. subst.
        eexists. split; reflexivity.
      - unfold Py.add. rewrite Hfa. cbn [Py.to_float bind].
        eexists. split; reflexivity.
      - unfold Py.add. rewrite Hfv. cbn [Py.to_float bind].
        eexists. split; reflexivity.
      - eexists. split; reflexivity. }
    destruct Hadd as (acc' & Hacc' & Hfz). rewrite Hacc'. cbn [bind].
    apply IH; assumption.
Qed.

Lemma truediv_float_or_zero (total : Py.num) (n : Z) :
  float_or_zero total = true -> 0 < n < 2 ^ 53 ->
  exists q, Py.truediv total (Py.Int n) = Ok (Py.Flt q).
Proof.
  intros Hfz Hn. destruct total as [z|f].
  - simpl in Hfz. apply Z.eqb_eq in Hfz. subst z.
    destruct n as [|p|p]; try lia. eexists. reflexivity.
  - now apply truediv_by_len.
Qed.

(** X9: on a store that only the writing handlers have filled, the home
    page is always computed: for any list of students the query returns,
    [index()] raises nothing on its way to the template and lists one
    row per student, in the order of the query (the two size bounds say
    that the numbers of documents convert exactly to a float). *)
Theorem home_page_renders
  (float_of_string : string -> result Py.float) (strip : string -> string)
  (ObjectId : string -> option Z) (str_oid : Z -> string)
  (rs : list request) (students : list student_doc) :
  let db := run float_of_string strip ObjectId empty_db rs in
  Z.of_nat (List.length (db_subjects db)) < 2 ^ 53 ->
  Z.of_nat (List.length students) < 2 ^ 53 ->
  exists ctx,
    index_page str_oid db students = Ok ctx
    /\ map row_student (ctx_students ctx) = students.
Proof.
  intros db Hsubs Hstud.
  pose proof (run_keeps_written float_of_string strip ObjectId rs empty_db
                eq_refl) as Hw.
  fold db in Hw. unfold written_store in Hw. apply andb_true_iff in Hw.
  destruct Hw as [_ Hsu].
  destruct (rows_of_returns str_oid db Hsu Hsubs students)
    as (rows & Hrows & Hfz & Hlen).
  assert (Hmap : map row_student rows = students).
  { clear Hfz Hlen Hstud. revert rows Hrows.
    induction students as [|st rest IH]; intros rows Hrows.
    - injection Hrows as <-. reflexivity.
    - cbn [rows_of] in Hrows. bind_inv Hrows r0 Hr0. bind_inv Hrows rs' Hrs'.
      injection Hrows as <-. cbn [map]. rewrite (IH rs' Hrs'). f_equal.
      unfold student_stats in Hr0. bind_inv Hr0 grades Hgr.
      bind_inv Hr0 a Ha. injection Hr0 as <-. reflexivity. }
  assert (Hall : exists tot,
             match rows with
             | [] => Ok (Py.Int 0)
             | _ =>
                 s <- Py.sum (map avg rows) ;;
                 q <- Py.truediv s (Py.len rows) ;;
                 Ok (Py.round2 q)
             end = Ok tot).
  { destruct rows as [|r rows']; [eexists; reflexivity|].
    destruct (sum_from_float_or_zero (map avg (r :: rows'))) with
      (acc := Py.Int 0) as (s & Hs & Hsfz).
    - apply Forall_map. exact Hfz.
    - reflexivity.
    - unfold Py.sum, Py.sum_with. rewrite Hs. cbn [bind]. unfold Py.len.
      destruct (truediv_float_or_zero s
                  (Z.of_nat (List.length (r :: rows'))) Hsfz) as [q Hq].
      { rewrite Hlen. simpl List.length in *. lia. }
      rewrite Hq. cbn [bind]. eexists. reflexivity. }
  destruct Hall as [tot Htot].
  exists {| ctx_students := rows; avg_all := tot;
            highest_avg_student := max_avg rows;
            lowest_avg_student := min_avg rows |}.
  split.
  - unfold index_page. rewrite Hrows. cbn [bind]. rewrite Htot. reflexivity.
  - exact Hmap.
Qed.

Lemma home_page_renders_witness :
  exists ctx,
    index_page some_ids_str session_store (db_students session_store) = Ok ctx
    /\ map row_student (ctx_students ctx) = db_students session_store.
Proof.
  apply (home_page_renders three_literals (fun s => s) some_ids some_ids_str
           session (db_students session_store)).
  - vm_compute. reflexivity.
  - vm_compute. reflexivity.
Defined.

(** ** The highest and the lowest average of the home page *)

Lemma compare_fin_common (m1 e1 m2 e2 e : Z) :
  e <= e1 -> e <= e2 ->
  Py.compare_fin m1 e1 m2 e2 = (m1 * 2 ^ (e1 - e) ?= m2 * 2 ^ (e2 - e)).
Proof.
  intros H1 H2. unfold Py.compare_fin. cbv zeta.
  set (e0 := Z.min e1 e2).
  assert (He0 : e <= e0 /\ e0 <= e1 /\ e0 <= e2) by (unfold e0; lia).
  replace (e1 - e) with ((e1 - e0) + (e0 - e)) by lia.
  replace (e2 - e) with ((e2 - e0) + (e0 - e)) by lia.
  rewrite !Z.pow_add_r by lia. rewrite !Z.mul_assoc.
  apply Zmult_compare_compat_r.
  apply Z.lt_gt, Z.pow_pos_nonneg; lia.
Qed.

Lemma compare_fin_gt_trans (m1 e1 m2 e2 m3 e3 : Z) :
  Py.compare_fin m1 e1 m2 e2 = Gt ->
  Py.compare_fin m2 e2 m3 e3 = Gt ->
  Py.compare_fin m1 e1 m3 e3 = Gt.
Proof.
  set (e := Z.min e1 (Z.min e2 e3)).
  rewrite (compare_fin_common m1 e1 m2 e2 e) by (unfold e; lia).
  rewrite (compare_fin_common m2 e2 m3 e3 e) by (unfold e; lia).
  rewrite (compare_fin_common m1 e1 m3 e3 e) by (unfold e; lia).
  intros H12 H23. apply -> Z.compare_gt_iff in H12.
  apply -> Z.compare_gt_iff in H23. apply Z.compare_gt_iff. lia.
Qed.

Lemma gt_trans (a b c : Py.num) :
  Py.gt a b = true -> Py.gt b c = true -> Py.gt a c = true.
Proof.
  unfold Py.gt, Py.compare.
  destruct (Py.value_of a) as [| |m1 e1|], (Py.value_of b) as [| |m2 e2|],
    (Py.value_of c) as [| |m3 e3|]; cbn [Py.compare_value];
    try discriminate; try reflexivity.
  destruct (Py.compare_fin m1 e1 m2 e2) eqn:E12; try discriminate.
  destruct (Py.compare_fin m2 e2 m3 e3) eqn:E23; try discriminate.
  now rewrite (compare_fin_gt_trans _ _ _ _ _ _ E12 E23).
Qed.

Lemma gt_irrefl (a : Py.num) : Py.gt a a = false.
Proof.
  unfold Py.gt, Py.compare.
  destruct (Py.value_of a) as [| |m e|]; cbn [Py.compare_value];
    try reflexivity.
  unfold Py.compare_fin. cbv zeta. now rewrite Z.compare_refl.
Qed.

Lemma lt_is_gt (a b : Py.num) : Py.lt a b = Py.gt b a.
Proof.
  unfold Py.lt, Py.gt. rewrite (compare_antisym a b).
  destruct (Py.compare b a) as [[| |]|]; reflexivity.
Qed.

Lemma lt_trans (a b c : Py.num) :
  Py.lt a b = true -> Py.lt b c = true -> Py.lt a c = true.
Proof.
  rewrite !lt_is_gt. intros Hab Hbc. exact (gt_trans c b a Hbc Hab).
Qed.

Lemma lt_irrefl (a : Py.num) : Py.lt a a = false.
Proof. rewrite lt_is_gt. apply gt_irrefl. Qed.

Section Extremum.

(** A scan that keeps the current row until a better one comes. *)
Variable better : Py.num -> Py.num -> bool.
Variable scan : student_row -> list student_row -> student_row.

Hypothesis better_irrefl : forall a, better a a = false.
Hypothesis better_trans :
  forall a b c, better a b = true -> better b c = true -> better a c = true.
Hypothesis scan_nil : forall cur, scan cur [] = cur.
Hypothesis scan_cons :
  forall cur x rest,
    scan cur (x :: rest)
    = scan (if better (avg x) (avg cur) then x else cur) rest.

Lemma scan_spec (rest : list student_row) :
  forall cur,
    In (scan cur rest) (cur :: rest)
    /\ (forall s : student_row,
          better (avg s) (avg cur) = false ->
          better (avg s) (avg (scan cur rest)) = false)
    /\ (forall s, In s rest -> better (avg s) (avg (scan cur rest)) = false).
Proof.
  induction rest as [|x rest IH]; intros cur.
  - rewrite scan_nil. split; [now left|]. split; [auto|]. intros s [].
  - rewrite scan_cons.
    set (cur' := if better (avg x) (avg cur) then x else cur).
    destruct (IH cur') as (Hin & Hkeep & Hrest).
    assert (Hstep : forall s : student_row,
               better (avg s) (avg cur) = false ->
               better (avg s) (avg cur') = false).
    { intros s Hs. unfold cur'.
      destruct (better (avg x) (avg cur)) eqn:Hx; [|exact Hs].
      destruct (better (avg s) (avg x)) eqn:Hsx; [|reflexivity].
      rewrite (better_trans _ _ _ Hsx Hx) in Hs. discriminate. }
    assert (Hx' : better (avg x) (avg cur') = false).
    { unfold cur'. destruct (better (avg x) (avg cur)) eqn:Hx;
        [apply better_irrefl|exact Hx]. }
    split; [|split].
    + destruct Hin as [Hin|Hin]; [|right; now right].
      rewrite <- Hin. unfold cur'.
      destruct (better (avg x) (avg cur)); [right; now left|now left].
    + intros s Hs. apply Hkeep, Hstep, Hs.
    + intros s [<-|Hs]; [apply Hkeep, Hx'|apply Hrest, Hs].
Qed.

Lemma scan_extremal (cur : student_row) (rest : list student_row) :
  In (scan cur rest) (cur :: rest)
  /\ forall s, In s (cur :: rest) ->
               better (avg s) (avg (scan cur rest)) = false.
Proof.
  destruct (scan_spec rest cur) as (Hin & Hkeep & Hrest).
  split; [exact Hin|].
  intros s [<-|Hs]; [apply Hkeep, better_irrefl|apply Hrest, Hs].
Qed.

End Extremum.

(** X10: the student shown with the highest average on the home page is
    one of the students listed and none of them has a greater average;
    the one shown with the lowest average is one of them and none has a
    smaller average.  The placeholder of the template stands in for
    them only when no student is listed. *)
Theorem home_page_extremes (str_oid : Z -> string) (db : database)
  (students : list student_doc) (ctx : index_context) :
  index_page str_oid db students = Ok ctx ->
  match highest_avg_student ctx with
  | Some h =>
      In h (ctx_students ctx)
      /\ forall row, In row (ctx_students ctx) ->
                     Py.gt (avg row) (avg h) = false
  | None => students = []
  end
  /\ match lowest_avg_student ctx with
     | Some l =>
         In l (ctx_students ctx)
         /\ forall row, In row (ctx_students ctx) ->
                        Py.lt (avg row) (avg l) = false
     | None => students = []
     end.
Proof.
  intros H. unfold index_page in H.
  bind_inv H rows Hrows. bind_inv H tot Htot. injection H as <-.
  cbn [highest_avg_student lowest_avg_student ctx_students].
  destruct rows as [|r rows].
  - assert (Hst : students = []).
    { destruct students as [|st rest]; [reflexivity|].
      cbn [rows_of] in Hrows. bind_inv Hrows r0 Hr0. bind_inv Hrows rs Hrs.
      discriminate. }
    split; exact Hst.
  - cbn [max_avg min_avg]. split.
    + apply (scan_extremal Py.gt max_from gt_irrefl gt_trans);
        intros; reflexivity.
    + apply (scan_extremal Py.lt min_from lt_irrefl lt_trans);
        intros; reflexivity.
Qed.

Lemma home_page_extremes_witness :
  exists ctx,
    index_page some_ids_str session_store (db_students session_store) = Ok ctx
    /\ match highest_avg_student ctx with
       | Some h =>
           In h (ctx_students ctx)
           /\ forall row, In row (ctx_students ctx) ->
                          Py.gt (avg row) (avg h) = false
       | None => db_students session_store = []
       end
    /\ match lowest_avg_student ctx with
       | Some l =>
           In l (ctx_students ctx)
           /\ forall row, In row (ctx_students ctx) ->
                          Py.lt (avg row) (avg l) = false
       | None => db_students session_store = []
       end.
Proof.
  destruct (index_page some_ids_str session_store (db_students session_store))
    as [ctx|] eqn:Hctx; [|vm_compute in Hctx; discriminate].
  exists ctx. split; [reflexivity|].
  exact (home_page_extremes some_ids_str session_store
           (db_students session_store) ctx Hctx).
Defined.

(** ** What the deletions and the edits change *)

Lemma subjects_of_after_delete_many (str_oid : Z -> string) (id : string)
  (st : student_doc) (docs : list subject_doc) :
  filter (fun d => String.eqb (student_id d) (str_oid (student_oid st)))
    (delete_many_subjects id docs)
  = if String.eqb (str_oid (student_oid st)) id then []
    else filter (fun d => String.eqb (student_id d) (str_oid (student_oid st)))
           docs.
Proof.
  unfold delete_many_subjects.
  destruct (String.eqb (str_oid (student_oid st)) id) eqn:E.
  - apply String.eqb_eq in E. rewrite E.
    induction docs as [|d rest IH]; [reflexivity|]. cbn [filter].
    destruct (String.eqb (student_id d) id) eqn:Ed; cbn [negb filter];
      [exact IH|]. now rewrite Ed.
  - induction docs as [|d rest IH]; [reflexivity|]. cbn [filter].
    destruct (String.eqb (student_id d) id) eqn:Ed; cbn [negb filter].
    + apply String.eqb_eq in Ed.
      replace (String.eqb (student_id d) (str_oid (student_oid st)))
        with false; [exact IH|].
      symmetry. apply String.eqb_neq. intros Heq.
      apply String.eqb_neq in E. apply E. now rewrite <- Heq.
    + now rewrite IH.
Qed.

Lemma find_after_delete_one_student (oid oid' : Z) (docs : list student_doc) :
  oid' <> oid ->
  find (fun st => student_oid st =? oid') (delete_one_student oid docs)
  = find (fun st => student_oid st =? oid') docs.
Proof.
  intros Hne. induction docs as [|d rest IH]; [reflexivity|].
  cbn [delete_one_student find].
  destruct (student_oid d =? oid) eqn:E.
  - apply Z.eqb_eq in E.
    replace (student_oid d =? oid') with false; [reflexivity|].
    symmetry. apply Z.eqb_neq. lia.
  - cbn [find]. now rewrite IH.
Qed.

(** X11: [delete_student(id)] with a readable id: afterwards the home
    page finds no subject for a student whose [str(_id)] is the text
    [id], it finds the same subjects as before for every other student,
    every other student is still found by its [_id], and no subject is
    added. *)
Theorem delete_student_cascade (ObjectId : string -> option Z)
  (str_oid : Z -> string) (db : database) (id : string) (oid : Z) :
  ObjectId id = Some oid ->
  let db' := snd (delete_student ObjectId db id) in
  (forall st, str_oid (student_oid st) = id ->
              subjects_of str_oid db' st = [])
  /\ (forall st, str_oid (student_oid st) <> id ->
                 subjects_of str_oid db' st = subjects_of str_oid db st)
  /\ (forall oid', oid' <> oid -> find_student db' oid' = find_student db oid')
  /\ incl (db_subjects db') (db_subjects db).
Proof.
  intros Hid db'. unfold db', delete_student, to_objid. rewrite Hid.
  cbn [snd]. unfold subjects_of, find_student. cbn [db_subjects db_students].
  split; [|split; [|split]].
  - intros st Hst. rewrite subjects_of_after_delete_many.
    apply String.eqb_eq in Hst. now rewrite Hst.
  - intros st Hst. rewrite subjects_of_after_delete_many.
    apply String.eqb_neq in Hst. now rewrite Hst.
  - intros oid' Hne. now apply find_after_delete_one_student.
  - intros d Hd. unfold delete_many_subjects in Hd.
    apply filter_In in Hd. tauto.
Qed.

Lemma delete_student_cascade_witness :
  let db' := snd (delete_student some_ids session_store "1") in
  (forall st, some_ids_str (student_oid st) = "1"%string ->
              subjects_of some_ids_str db' st = [])
  /\ (forall st, some_ids_str (student_oid st) <> "1"%string ->
                 subjects_of some_ids_str db' st
                 = subjects_of some_ids_str session_store st)
  /\ (forall oid', oid' <> 1 ->
                   find_student db' oid' = find_student session_store oid')
  /\ incl (db_subjects db') (db_subjects session_store).
Proof.
  exact (delete_student_cascade some_ids some_ids_str session_store "1" 1
           eq_refl).
Defined.

Lemma update_one_map {B : Type} (proj : subject_doc -> B) (oid : Z)
  (set : subject_doc -> subject_doc) (docs : list subject_doc) :
  (forall d, proj (set d) = proj d) ->
  map proj (update_one oid set docs) = map proj docs.
Proof.
  intros Hset. induction docs as [|d rest IH]; [reflexivity|].
  cbn [update_one]. destruct (doc_id d =? oid); cbn [map].
  - now rewrite Hset.
  - now rewrite IH.
Qed.

(** X12: [edit_subject(student_id, subject_id)], whatever its outcome,
    leaves the students as they are and keeps the [_id], the owner
    ([student_id]) and the date of every subject, in the same order; the
    [student_id] of the URL has no part in what is stored, so a subject
    is edited through the URL of any student. *)
Theorem edit_subject_keeps_owner
  (float_of_string : string -> result Py.float) (strip : string -> string)
  (ObjectId : string -> option Z) (db : database) (sid subject_id : string)
  (f : form) :
  let db' :=
    snd (edit_subject float_of_string strip ObjectId db sid subject_id f) in
  db_students db' = db_students db
  /\ map doc_id (db_subjects db') = map doc_id (db_subjects db)
  /\ map student_id (db_subjects db') = map student_id (db_subjects db)
  /\ map date_added (db_subjects db') = map date_added (db_subjects db)
  /\ forall sid',
       snd (edit_subject float_of_string strip ObjectId db sid' subject_id f)
       = db'.
Proof.
  intros db'. unfold db', edit_subject.
  destruct (to_objid ObjectId subject_id) as [oid|];
    [|cbn [snd]; repeat split; reflexivity].
  destruct (float_of_string (form_get f "new_grade")) as [g|e];
    [|cbn [snd]; repeat split; reflexivity].
  destruct (rejected _ g); cbn [snd db_students db_subjects];
    [repeat split; reflexivity|].
  split; [reflexivity|].
  repeat split; apply update_one_map; intros d; reflexivity.
Qed.

Lemma delete_one_subject_split (oid : Z) (docs : list subject_doc) :
  ((forall d, In d docs -> doc_id d <> oid)
   /\ delete_one_subject oid docs = docs)
  \/ exists l1 d l2,
       docs = l1 ++ d :: l2 /\ doc_id d = oid
       /\ (forall d', In d' l1 -> doc_id d' <> oid)
       /\ delete_one_subject oid docs = l1 ++ l2.
Proof.
  induction docs as [|d rest IH].
  - left. split; [intros d []|reflexivity].
  - cbn [delete_one_subject]. destruct (doc_id d =? oid) eqn:E.
    + apply Z.eqb_eq in E. right. exists [], d, rest.
      repeat split; [exact E|intros d' []].
    + apply Z.eqb_neq in E.
      destruct IH as [[Hno Heq]|(l1 & d0 & l2 & Hdocs & Hd0 & Hl1 & Heq)].
      * left. split; [|now rewrite Heq].
        intros d' [<-|Hd']; [exact E|now apply Hno].
      * right. exists (d :: l1), d0, l2. rewrite Heq, Hdocs.
        repeat split; [exact Hd0|].
        intros d' [<-|Hd']; [exact E|now apply Hl1].
Qed.

(** X13: [delete_subject(student_id, subject_id)] with a readable id
    leaves the students as they are and removes the first subject with
    that [_id] and nothing else; when no subject has that [_id] the
    store is unchanged.  The [student_id] of the URL has no part in it. *)
Theorem delete_subject_first_match (ObjectId : string -> option Z)
  (db : database) (sid subject_id : string) (oid : Z) :
  ObjectId subject_id = Some oid ->
  let db' := snd (delete_subject ObjectId db sid subject_id) in
  db_students db' = db_students db
  /\ (((forall d, In d (db_subjects db) -> doc_id d <> oid)
       /\ db_subjects db' = db_subjects db)
      \/ exists l1 d l2,
           db_subjects db = l1 ++ d :: l2 /\ doc_id d = oid
           /\ (forall d', In d' l1 -> doc_id d' <> oid)
           /\ db_subjects db' = l1 ++ l2).
Proof.
  intros Hid db'. unfold db', delete_subject, to_objid. rewrite Hid.
  cbn [snd db_students db_subjects]. split; [reflexivity|].
  apply delete_one_subject_split.
Qed.

Lemma delete_subject_first_match_witness :
  let db' := snd (delete_subject some_ids session_store "2" "10") in
  db_students db' = db_students session_store
  /\ (((forall d, In d (db_subjects session_store) -> doc_id d <> 10)
       /\ db_subjects db' = db_subjects session_store)
      \/ exists l1 d l2,
           db_subjects session_store = l1 ++ d :: l2 /\ doc_id d = 10
           /\ (forall d', In d' l1 -> doc_id d' <> 10)
           /\ db_subjects db' = l1 ++ l2).
Proof.
  exact (delete_subject_first_match some_ids session_store "2" "10" 10
           eq_refl).
Defined.

Lemma update_one_student_absent (oid : Z) (set : student_doc -> student_doc)
  (docs : list student_doc) :
  find (fun st => student_oid st =? oid) docs = None ->
  update_one_student oid set docs = docs.
Proof.
  induction docs as [|d rest IH]; [reflexivity|].
  cbn [find update_one_student].
  destruct (student_oid d =? oid); [discriminate|].
  intros H. now rewrite IH.
Qed.

Lemma update_one_absent (oid : Z) (set : subject_doc -> subject_doc)
  (docs : list subject_doc) :
  (forall d, In d docs -> doc_id d <> oid) ->
  update_one oid set docs = docs.
Proof.
  induction docs as [|d rest IH]; [reflexivity|].
  intros H. cbn [update_one].
  replace (doc_id d =? oid) with false
    by (symmetry; apply Z.eqb_neq, H; now left).
  rewrite IH; [reflexivity|]. intros d' Hd'. apply H. now right.
Qed.

(** X14: an edit addressed to a readable id that no document has is no
    error: [edit_student] and [edit_subject] leave the store as it is
    and, when the form is accepted, answer with the redirect of a
    successful edit (the student page answers 404 for such an id). *)
Theorem edit_of_missing_document
  (float_of_string : string -> result Py.float) (strip : string -> string)
  (ObjectId : string -> option Z) (db : database) (id sid : string)
  (f : form) (oid : Z) (g : Py.float) :
  ObjectId id = Some oid ->
  find_student db oid = None ->
  (forall d, In d (db_subjects db) -> doc_id d <> oid) ->
  strip (form_get f "new_name") <> EmptyString ->
  float_of_string (form_get f "new_grade") = Ok g ->
  rejected (strip (form_get f "new_name")) g = false ->
  edit_student strip ObjectId db id f = (Redirect "index" "", db)
  /\ edit_subject float_of_string strip ObjectId db sid id f
     = (Redirect "student_page" sid, db)
  /\ forall new_id now,
       student_page_post float_of_string strip ObjectId db id f new_id now
       = (Status 404 "Student not found", db).
Proof.
  intros Hid Hst Hsu Hname Hg Hrej.
  unfold edit_student, edit_subject, student_page_post, to_objid.
  rewrite Hid, Hg, Hrej, Hst.
  apply String.eqb_neq in Hname. rewrite Hname.
  unfold find_student in Hst.
  rewrite (update_one_student_absent oid _ _ Hst).
  rewrite (update_one_absent oid _ _ Hsu).
  destruct db as [students subjects]. repeat split.
Qed.

Lemma edit_of_missing_document_witness :
  edit_student (fun s => s) some_ids session_store "2" (edit_form "7.5")
  = (Redirect "index" "", session_store)
  /\ edit_subject three_literals (fun s => s) some_ids session_store "1" "2"
       (edit_form "7.5")
     = (Redirect "student_page" "1", session_store)
  /\ forall new_id now,
       student_page_post three_literals (fun s => s) some_ids session_store
         "2" (edit_form "7.5") new_id now
       = (Status 404 "Student not found", session_store).
Proof.
  apply (edit_of_missing_document three_literals (fun s => s) some_ids
           session_store "2" "1" (edit_form "7.5") 2 (Py.dec 75 1)).
  - reflexivity.
  - vm_compute. reflexivity.
  - intros d Hd. vm_compute in Hd.
    repeat (destruct Hd as [<-|Hd]; [vm_compute; discriminate|]).
    destruct Hd.
  - vm_compute. discriminate.
  - vm_compute. reflexivity.
  - vm_compute. reflexivity.
Defined.

(** X15: after a subject is added through [/student/<id>], the home page
    finds it for a student exactly when the [str(_id)] of that student
    is the text [id] of the URL: the subject is stored under the text of
    the URL, not under the id it was read as. *)
Theorem added_subject_on_home_page
  (float_of_string : string -> result Py.float) (strip : string -> string)
  (ObjectId : string -> option Z) (str_oid : Z -> string) (db : database)
  (id : string) (f : form) (new_id : Z) (now : Py.float) (db' : database) :
  student_page_post float_of_string strip ObjectId db id f new_id now
  = (Redirect "student_page" id, db') ->
  exists d,
    student_id d = id /\ doc_id d = new_id /\ date_added d = Some now
    /\ written_subject d = true
    /\ db_students db' = db_students db
    /\ forall st,
         subjects_of str_oid db' st
         = subjects_of str_oid db st
           ++ (if String.eqb id (str_oid (student_oid st)) then [d] else []).
Proof.
  unfold student_page_post.
  destruct (to_objid ObjectId id) as [oid|]; [|discriminate].
  destruct (find_student db oid); [|discriminate].
  destruct (float_of_string (form_get f "grade")) as [g|e]; [|discriminate].
  destruct (rejected _ g) eqn:Hrej; [discriminate|].
  intros H. injection H as <-.
  eexists. split; [|split; [|split; [|split; [|split]]]];
    [| | | |reflexivity|].
  5: { intros st. unfold subjects_of. cbn [db_subjects].
       rewrite filter_app. cbn [filter student_id]. reflexivity. }
  1-3: reflexivity.
  unfold written_subject, has_date. cbn [date_added grade subject].
  unfold rejected in Hrej.
  apply orb_false_iff in Hrej. destruct Hrej as [Hrej Hgt].
  apply orb_false_iff in Hrej. destruct Hrej as [Hname Hlt].
  now rewrite Hname, Hlt, Hgt.
Qed.

Lemma added_subject_on_home_page_witness :
  exists d,
    student_id d = "01"%string /\ doc_id d = 10
    /\ date_added d = Some (Py.float_of_Z 1700000000)
    /\ written_subject d = true
    /\ db_students
         (snd (student_page_post three_literals (fun s => s) some_ids
                 one_student "01" (grade_form "7.5") 10
                 (Py.float_of_Z 1700000000)))
       = db_students one_student
    /\ forall st,
         subjects_of some_ids_str
           (snd (student_page_post three_literals (fun s => s) some_ids
                   one_student "01" (grade_form "7.5") 10
                   (Py.float_of_Z 1700000000))) st
         = subjects_of some_ids_str one_student st
           ++ (if String.eqb "01" (some_ids_str (student_oid st))
               then [d] else []).
Proof.
  apply (added_subject_on_home_page three_literals (fun s => s) some_ids
           some_ids_str one_student "01" (grade_form "7.5") 10
           (Py.float_of_Z 1700000000)).
  vm_compute. reflexivity.
Defined.

(** ** Grades in bounds from the empty store *)

Lemma handle_keeps_bounds
  (float_of_string : string -> result Py.float) (strip : string -> string)
  (ObjectId : string -> option Z) (db : database) (r : request) :
  nan_free float_of_string r = true ->
  forallb grade_in_bounds (db_subjects db) = true ->
  forallb grade_in_bounds
    (db_subjects (snd (handle float_of_string strip ObjectId db r))) = true.
Proof.
  intros Hnan Hdb.
  destruct r as [f new_id|id f|id|id f new_id now|sid subject_id f
                 |sid subject_id]; cbn [handle].
  - unfold add_student_post.
    destruct (String.eqb _ EmptyString); exact Hdb.
  - unfold edit_student. destruct (to_objid ObjectId id) as [oid|];
      [|exact Hdb].
    destruct (String.eqb _ EmptyString); exact Hdb.
  - unfold delete_student. destruct (to_objid ObjectId id) as [oid|];
      [|exact Hdb].
    cbn [snd db_subjects]. unfold delete_many_subjects.
    now apply filter_forallb.
  - unfold student_page_post. destruct (to_objid ObjectId id) as [oid|];
      [|exact Hdb].
    destruct (find_student db oid); [|exact Hdb].
    cbn [nan_free] in Hnan.
    destruct (float_of_string (form_get f "grade")) as [g|e]; [|exact Hdb].
    destruct (rejected (strip (form_get f "subject_name")) g) eqn:Hrej;
      [exact Hdb|].
    destruct (rejected_false _ _ Hrej) as (_ & Hlt & Hgt).
    cbn [snd db_subjects]. rewrite forallb_app, Hdb. cbn [forallb].
    unfold grade_in_bounds. cbn [grade]. rewrite andb_true_r.
    apply not_outside_in_bounds; [now apply negb_true_iff|exact Hlt|exact Hgt].
  - unfold edit_subject. destruct (to_objid ObjectId subject_id) as [oid|];
      [|exact Hdb].
    cbn [nan_free] in Hnan.
    destruct (float_of_string (form_get f "new_grade")) as [g|e];
      [|exact Hdb].
    destruct (rejected (strip (form_get f "new_name")) g) eqn:Hrej;
      [exact Hdb|].
    destruct (rejected_false _ _ Hrej) as (_ & Hlt & Hgt).
    cbn [snd db_subjects]. apply update_one_forallb; [|exact Hdb].
    intros d _. unfold grade_in_bounds. cbn [grade].
    apply not_outside_in_bounds; [now apply negb_true_iff|exact Hlt|exact Hgt].
  - unfold delete_subject. destruct (to_objid ObjectId subject_id) as [oid|];
      [|exact Hdb].
    cbn [snd db_subjects]. now apply delete_one_subject_forallb.
Qed.

Lemma run_keeps_bounds
  (float_of_string : string -> result Py.float) (strip : string -> string)
  (ObjectId : string -> option Z) (rs : list request) :
  forallb (nan_free float_of_string) rs = true ->
  forall db,
    forallb grade_in_bounds (db_subjects db) = true ->
    forallb grade_in_bounds
      (db_subjects (run float_of_string strip ObjectId db rs)) = true.
Proof.
  induction rs as [|r rs IH]; intros Hrs db Hdb; [exact Hdb|].
  cbn [forallb] in Hrs. apply andb_true_iff in Hrs. destruct Hrs as [Hr Hrs].
  cbn [run fold_left]. apply (IH Hrs). now apply handle_keeps_bounds.
Qed.

(** X16: starting from the empty store, if no request submits a grade
    text that [float] reads as NaN, then after any sequence of requests
    to the six writing handlers every stored grade is a number of
    [MIN_GRADE..MAX_GRADE]. *)
Theorem grades_in_bounds_without_nan
  (float_of_string : string -> result Py.float) (strip : string -> string)
  (ObjectId : string -> option Z) (rs : list request) :
  forallb (nan_free float_of_string) rs = true ->
  forallb grade_in_bounds
    (db_subjects (run float_of_string strip ObjectId empty_db rs)) = true.
Proof.
  intros Hrs. now apply run_keeps_bounds.
Qed.

Lemma grades_in_bounds_without_nan_witness :
  List.length (db_subjects session_store) = 2%nat
  /\ forallb grade_in_bounds (db_subjects session_store) = true.
Proof.
  split; [vm_compute; reflexivity|].
  apply (grades_in_bounds_without_nan three_literals (fun s => s) some_ids
           session).
  vm_compute. reflexivity.
Defined.
